(** * MeHouse API: house membership and task services

    A shallow embedding of the service layer of the MeHouse REST API
    ([HouseService], [TaskService], the task request schemas and the task
    controller entry points that combine both) over an explicit model of the
    relational store.

    The relational store (reached through the Prisma client in the source)
    is a record of tables, each a list of rows.  A service method is a
    computation in a small monad that threads the store, may fail with an
    application error and records the store calls it issues, in order. *)

From Stdlib Require Import String Ascii List ZArith Lia Bool Arith PeanoNat.
From Stdlib Require Import Sorted Permutation.
Import ListNotations.
Open Scope string_scope.
Open Scope list_scope.

(** ** Data model (prisma/migrations, enum and table declarations) *)

Inductive Role := OWNER | MEMBER.
Inductive TaskStatus := PENDING | COMPLETED.
Inductive TaskPriority := LOW | MEDIUM | HIGH.

Definition Role_eqb (a b : Role) : bool :=
  match a, b with
  | OWNER, OWNER | MEMBER, MEMBER => true
  | _, _ => false
  end.

Definition TaskStatus_eqb (a b : TaskStatus) : bool :=
  match a, b with
  | PENDING, PENDING | COMPLETED, COMPLETED => true
  | _, _ => false
  end.

Definition TaskPriority_eqb (a b : TaskPriority) : bool :=
  match a, b with
  | LOW, LOW | MEDIUM, MEDIUM | HIGH, HIGH => true
  | _, _ => false
  end.

(** Identifiers are the TEXT primary keys of the tables; instants ([Date],
    TIMESTAMP columns) are milliseconds since the epoch.  The bookkeeping
    columns that no service method reads (updatedAt everywhere, createdAt
    outside [tasks], the surrogate id of [task_assignees]) are left out. *)
Definition Id := string.
Definition Date := Z.

Record House := mkHouse {
  house_id : Id;
  house_name : string;
  house_description : option string
}.

Record HouseMember := mkHouseMember {
  hm_id : Id;
  hm_displayName : string;
  hm_role : Role;
  hm_userId : Id;
  hm_houseId : Id
}.

Record Task := mkTask {
  task_id : Id;
  task_title : string;
  task_description : option string;
  task_status : TaskStatus;
  task_priority : TaskPriority;
  task_dueDate : option Date;
  task_completedAt : option Date;
  task_createdAt : Date;
  task_houseId : Id;
  task_categoryId : option Id;
  task_createdById : Id
}.

Record TaskAssignee := mkTaskAssignee {
  ta_taskId : Id;
  ta_houseMemberId : Id
}.

Record Category := mkCategory {
  cat_id : Id;
  cat_name : string;
  cat_houseId : Id
}.

Record Store := mkStore {
  users : list Id;
  houses : list House;
  houseMembers : list HouseMember;
  tasks : list Task;
  taskAssignees : list TaskAssignee;
  categories : list Category
}.

Definition set_houses (s : Store) (l : list House) : Store :=
  mkStore (users s) l (houseMembers s) (tasks s) (taskAssignees s) (categories s).
Definition set_houseMembers (s : Store) (l : list HouseMember) : Store :=
  mkStore (users s) (houses s) l (tasks s) (taskAssignees s) (categories s).
Definition set_tasks (s : Store) (l : list Task) : Store :=
  mkStore (users s) (houses s) (houseMembers s) l (taskAssignees s) (categories s).
Definition set_taskAssignees (s : Store) (l : list TaskAssignee) : Store :=
  mkStore (users s) (houses s) (houseMembers s) (tasks s) l (categories s).

(** ** Errors and the service monad *)

(** The application errors of shared/errors/AppError that the services
    throw, with their messages; [ZodError] is the validation failure thrown
    by a schema's [parse]; [StoreError] is a failure raised by the store
    itself (a violated key or foreign-key constraint, a missing row). *)
Inductive AppError :=
| NotFoundError (msg : string)
| UnprocessableEntityError (msg : string)
| ForbiddenError (msg : string)
| ZodError (msg : string)
| StoreError (msg : string).

Inductive Result (A : Type) :=
| Ok (a : A)
| Err (e : AppError).
Arguments Ok {A} a.
Arguments Err {A} e.

(** The store calls a service can issue. *)
Inductive Call :=
| house_create | house_findUnique | house_update | house_delete
| houseMember_create | houseMember_findUnique | houseMember_findMany
| houseMember_count | houseMember_delete | houseMember_update
| category_findUnique
| task_create | task_findFirst | task_findUnique | task_findMany
| task_count | task_update | task_delete
| taskAssignee_createMany | taskAssignee_deleteMany
| tx_begin | tx_commit | tx_rollback.

Definition mutating (c : Call) : bool :=
  match c with
  | house_create | house_update | house_delete
  | houseMember_create | houseMember_delete | houseMember_update
  | task_create | task_update | task_delete
  | taskAssignee_createMany | taskAssignee_deleteMany => true
  | _ => false
  end.

Definition Call_eqb (a b : Call) : bool :=
  match a, b with
  | house_create, house_create | house_findUnique, house_findUnique
  | house_update, house_update | house_delete, house_delete
  | houseMember_create, houseMember_create
  | houseMember_findUnique, houseMember_findUnique
  | houseMember_findMany, houseMember_findMany
  | houseMember_count, houseMember_count
  | houseMember_delete, houseMember_delete
  | houseMember_update, houseMember_update
  | category_findUnique, category_findUnique
  | task_create, task_create | task_findFirst, task_findFirst
  | task_findUnique, task_findUnique | task_findMany, task_findMany
  | task_count, task_count | task_update, task_update
  | task_delete, task_delete
  | taskAssignee_createMany, taskAssignee_createMany
  | taskAssignee_deleteMany, taskAssignee_deleteMany
  | tx_begin, tx_begin | tx_commit, tx_commit | tx_rollback, tx_rollback => true
  | _, _ => false
  end.

(** A computation takes the store and gives its result, the store it
    leaves and the calls it made. *)
Definition M (A : Type) : Type := Store -> Result A * Store * list Call.

Definition ret {A} (a : A) : M A := fun s => (Ok a, s, []).
Definition throw {A} (e : AppError) : M A := fun s => (Err e, s, []).

Definition bind {A B} (m : M A) (f : A -> M B) : M B :=
  fun s =>
    match m s with
    | (Ok a, s1, t1) =>
        match f a s1 with
        | (r, s2, t2) => (r, s2, t1 ++ t2)
        end
    | (Err e, s1, t1) => (Err e, s1, t1)
    end.

Notation "x <- m ;; k" := (bind m (fun x => k))
  (at level 61, m at next level, right associativity).
Notation "m ;;; k" := (bind m (fun _ => k))
  (at level 61, right associativity).

(** A read of the store, and a write that the store may refuse. *)
Definition query {A} (c : Call) (f : Store -> A) : M A :=
  fun s => (Ok (f s), s, [c]).

Definition command {A} (c : Call) (f : Store -> Result (A * Store)) : M A :=
  fun s =>
    match f s with
    | Ok (a, s') => (Ok a, s', [c])
    | Err e => (Err e, s, [c])
    end.

(** [prisma.$transaction]: the body's writes are kept when it returns and
    discarded when it throws. *)
Definition transaction {A} (body : M A) : M A :=
  fun s =>
    match body s with
    | (Ok a, s1, t1) => (Ok a, s1, tx_begin :: t1 ++ [tx_commit])
    | (Err e, _, t1) => (Err e, s, tx_begin :: t1 ++ [tx_rollback])
    end.

Definition result_of {A} (o : Result A * Store * list Call) : Result A := fst (fst o).
Definition store_of {A} (o : Result A * Store * list Call) : Store := snd (fst o).
Definition calls_of {A} (o : Result A * Store * list Call) : list Call := snd o.

(** ** The store: queries and constraint-checked writes

    The keys and foreign keys are those of the migration: primary key [id]
    on every table, unique (userId, houseId) and (displayName, houseId) on
    house_members, unique (taskId, houseMemberId) on task_assignees,
    ON DELETE CASCADE from house_members and tasks to task_assignees and
    from houses to house_members, tasks and categories, and ON DELETE SET
    NULL from house_members to tasks.createdById, a NOT NULL column. *)

Definition idIn (x : Id) (l : list Id) : bool := existsb (String.eqb x) l.

Definition findMember (s : Store) (userId houseId : Id) : option HouseMember :=
  find (fun m => String.eqb (hm_userId m) userId && String.eqb (hm_houseId m) houseId)
       (houseMembers s).

Definition findMemberById (s : Store) (id : Id) : option HouseMember :=
  find (fun m => String.eqb (hm_id m) id) (houseMembers s).

Definition isOwnerOf (houseId : Id) (m : HouseMember) : bool :=
  String.eqb (hm_houseId m) houseId && Role_eqb (hm_role m) OWNER.

Definition countOwners (s : Store) (houseId : Id) : nat :=
  length (filter (isOwnerOf houseId) (houseMembers s)).

Definition membersOfHouse (s : Store) (houseId : Id) : list HouseMember :=
  filter (fun m => String.eqb (hm_houseId m) houseId) (houseMembers s).

(** [tx.house.create] *)
Definition insertHouse (h : House) (s : Store) : Result (House * Store) :=
  if idIn (house_id h) (map house_id (houses s))
  then Err (StoreError "Unique constraint failed on houses.id")
  else Ok (h, set_houses s (houses s ++ [h])).

(** [tx.houseMember.create] *)
Definition insertHouseMember (m : HouseMember) (s : Store) : Result (HouseMember * Store) :=
  if idIn (hm_id m) (map hm_id (houseMembers s))
  then Err (StoreError "Unique constraint failed on house_members.id")
  else if negb (idIn (hm_userId m) (users s))
  then Err (StoreError "Foreign key constraint failed on house_members.userId")
  else if negb (idIn (hm_houseId m) (map house_id (houses s)))
  then Err (StoreError "Foreign key constraint failed on house_members.houseId")
  else if existsb (fun x => String.eqb (hm_userId x) (hm_userId m)
                            && String.eqb (hm_houseId x) (hm_houseId m)) (houseMembers s)
  then Err (StoreError "Unique constraint failed on house_members(userId, houseId)")
  else if existsb (fun x => String.eqb (hm_displayName x) (hm_displayName m)
                            && String.eqb (hm_houseId x) (hm_houseId m)) (houseMembers s)
  then Err (StoreError "Unique constraint failed on house_members(displayName, houseId)")
  else Ok (m, set_houseMembers s (houseMembers s ++ [m])).

Definition isTarget (userId houseId : Id) (m : HouseMember) : bool :=
  String.eqb (hm_userId m) userId && String.eqb (hm_houseId m) houseId.

(** [prisma.houseMember.delete] on the (userId, houseId) key; the
    assignments of the deleted membership go with it (ON DELETE CASCADE).
    tasks.createdById is declared NOT NULL with ON DELETE SET NULL: when
    the membership created a task, setting that column to null is refused
    and the delete fails with nothing changed. *)
Definition deleteHouseMember (userId houseId : Id) (s : Store) : Result (unit * Store) :=
  match findMember s userId houseId with
  | None => Err (StoreError "Record to delete does not exist")
  | Some _ =>
      let gone := filter (isTarget userId houseId) (houseMembers s) in
      let kept := filter (fun m => negb (isTarget userId houseId m)) (houseMembers s) in
      if existsb (fun t => idIn (task_createdById t) (map hm_id gone)) (tasks s)
      then Err (StoreError "Null constraint violation on tasks.createdById")
      else
      Ok (tt, set_taskAssignees (set_houseMembers s kept)
                (filter (fun a => negb (idIn (ta_houseMemberId a) (map hm_id gone)))
                        (taskAssignees s)))
  end.

Definition setRole (r : Role) (m : HouseMember) : HouseMember :=
  mkHouseMember (hm_id m) (hm_displayName m) r (hm_userId m) (hm_houseId m).

(** [prisma.houseMember.update] on the (userId, houseId) key with
    [data: { role }]; it returns the updated row. *)
Definition updateHouseMemberRole (userId houseId : Id) (r : Role) (s : Store)
  : Result (HouseMember * Store) :=
  match findMember s userId houseId with
  | None => Err (StoreError "Record to update not found")
  | Some m =>
      Ok (setRole r m,
          set_houseMembers s
            (map (fun x => if isTarget userId houseId x then setRole r x else x)
                 (houseMembers s)))
  end.

(** *** Houses: lookup, update and delete *)

Definition findHouse (s : Store) (id : Id) : option House :=
  find (fun h => String.eqb (house_id h) id) (houses s).

(** The row behind the unique index (displayName, houseId). *)
Definition findMemberByName (s : Store) (displayName : string) (houseId : Id)
  : option HouseMember :=
  find (fun m => String.eqb (hm_displayName m) displayName
                 && String.eqb (hm_houseId m) houseId)
       (houseMembers s).

Definition patchHouse (name : option string) (description : option (option string))
    (h : House) : House :=
  mkHouse (house_id h)
          (match name with Some n => n | None => house_name h end)
          (match description with Some d => d | None => house_description h end).

(** [prisma.house.update({ where: { id }, data })]; a key of [data] that is
    absent is [None]. *)
Definition updateHouseRow (houseId : Id) (name : option string)
    (description : option (option string)) (s : Store) : Result (House * Store) :=
  match findHouse s houseId with
  | None => Err (StoreError "Record to update not found")
  | Some h =>
      Ok (patchHouse name description h,
          set_houses s
            (map (fun x => if String.eqb (house_id x) houseId
                           then patchHouse name description x else x)
                 (houses s)))
  end.

Definition clearCategory (t : Task) : Task :=
  mkTask (task_id t) (task_title t) (task_description t) (task_status t)
         (task_priority t) (task_dueDate t) (task_completedAt t) (task_createdAt t)
         (task_houseId t) None (task_createdById t).

(** [prisma.house.delete({ where: { id } })].  The memberships, tasks and
    categories of the house go with it (ON DELETE CASCADE), and with them
    the assignments of those tasks and of those memberships; a task of
    another house that pointed to one of the deleted categories loses its
    category (ON DELETE SET NULL).  The tasks of the house are gone when
    the SET NULL of tasks.createdById runs for the deleted memberships, so
    the tasks they created in this house do not stand in the way; a task of
    another house created by one of them would have its createdById, a NOT
    NULL column, set to null, and the delete is then refused with nothing
    changed. *)
Definition deleteHouseRow (houseId : Id) (s : Store) : Result (unit * Store) :=
  match findHouse s houseId with
  | None => Err (StoreError "Record to delete does not exist")
  | Some _ =>
      let goneMembers :=
        map hm_id (filter (fun m => String.eqb (hm_houseId m) houseId) (houseMembers s)) in
      let goneTasks :=
        map task_id (filter (fun t => String.eqb (task_houseId t) houseId) (tasks s)) in
      let goneCategories :=
        map cat_id (filter (fun c => String.eqb (cat_houseId c) houseId) (categories s)) in
      if existsb (fun t => negb (String.eqb (task_houseId t) houseId)
                           && idIn (task_createdById t) goneMembers) (tasks s)
      then Err (StoreError "Null constraint violation on tasks.createdById")
      else
      Ok (tt,
          mkStore (users s)
            (filter (fun h => negb (String.eqb (house_id h) houseId)) (houses s))
            (filter (fun m => negb (String.eqb (hm_houseId m) houseId)) (houseMembers s))
            (map (fun t => match task_categoryId t with
                           | Some c => if idIn c goneCategories then clearCategory t else t
                           | None => t
                           end)
                 (filter (fun t => negb (String.eqb (task_houseId t) houseId)) (tasks s)))
            (filter (fun a => negb (idIn (ta_taskId a) goneTasks)
                              && negb (idIn (ta_houseMemberId a) goneMembers))
                    (taskAssignees s))
            (filter (fun c => negb (String.eqb (cat_houseId c) houseId)) (categories s)))
  end.

(** ** HouseService (houses.service) *)

Record CreateHouseInput := mkCreateHouseInput {
  chi_name : string;
  chi_description : option string
}.

Record UpdateHouseInput := mkUpdateHouseInput {
  uhi_name : option string;
  uhi_description : option string
}.

Module HouseService.

(** [createHouse]; [newHouseId] and [newMemberId] are the identifiers the
    store generates for the two rows (the uuid column defaults). *)
Definition createHouse (newHouseId newMemberId : Id)
    (userId : Id) (data : CreateHouseInput) (displayName : string) : M House :=
  result <- transaction (
    house <- command house_create
               (insertHouse (mkHouse newHouseId (chi_name data) (chi_description data))) ;;
    houseMember <- command houseMember_create
               (insertHouseMember
                  (mkHouseMember newMemberId displayName OWNER userId (house_id house))) ;;
    ret (house, houseMember)) ;;
  ret (fst result).

Definition removeMember (houseId targetUserId : Id) : M bool :=
  targetMember <- query houseMember_findUnique
                    (fun s => findMember s targetUserId houseId) ;;
  match targetMember with
  | None => throw (NotFoundError "User is not a member of this house")
  | Some targetMember =>
      (if Role_eqb (hm_role targetMember) OWNER then
         ownerCount <- query houseMember_count (fun s => countOwners s houseId) ;;
         if (ownerCount <=? 1)%nat
         then throw (UnprocessableEntityError "Cannot remove the last owner of the house")
         else ret tt
       else ret tt) ;;;
      command houseMember_delete (deleteHouseMember targetUserId houseId) ;;;
      ret true
  end.

Definition updateMemberRole (houseId targetUserId : Id) (newRole : Role) : M HouseMember :=
  targetMember <- query houseMember_findUnique
                    (fun s => findMember s targetUserId houseId) ;;
  match targetMember with
  | None => throw (NotFoundError "User is not a member of this house")
  | Some targetMember =>
      (if Role_eqb (hm_role targetMember) OWNER && negb (Role_eqb newRole OWNER) then
         ownerCount <- query houseMember_count (fun s => countOwners s houseId) ;;
         if (ownerCount <=? 1)%nat
         then throw (UnprocessableEntityError "Cannot demote the last owner of the house")
         else ret tt
       else ret tt) ;;;
      updatedMember <- command houseMember_update
                         (updateHouseMemberRole targetUserId houseId newRole) ;;
      ret updatedMember
  end.

(** [updateHouse]: the name is written when it is given and not empty
    ([data.name &&]), the description whenever it is given. *)
Definition updateHouse (houseId : Id) (data : UpdateHouseInput) : M House :=
  existingHouse <- query house_findUnique (fun s => findHouse s houseId) ;;
  match existingHouse with
  | None => throw (NotFoundError "House not found")
  | Some _ =>
      updatedHouse <- command house_update
        (updateHouseRow houseId
           (match uhi_name data with
            | Some n => if String.eqb n "" then None else Some n
            | None => None
            end)
           (match uhi_description data with Some d => Some (Some d) | None => None end)) ;;
      ret updatedHouse
  end.

Definition deleteHouse (houseId : Id) : M bool :=
  house <- query house_findUnique (fun s => findHouse s houseId) ;;
  match house with
  | None => throw (NotFoundError "House not found")
  | Some _ =>
      command house_delete (deleteHouseRow houseId) ;;;
      ret true
  end.

Definition isDisplayNameAvailable (houseId : Id) (displayName : string)
    (excludeUserId : option string) : M bool :=
  existingMember <- query houseMember_findUnique
                      (fun s => findMemberByName s displayName houseId) ;;
  match existingMember with
  | None => ret true
  | Some existingMember =>
      if match excludeUserId with
         | Some u => negb (String.eqb u "") && String.eqb (hm_userId existingMember) u
         | None => false
         end
      then ret true
      else ret false
  end.

End HouseService.

(** ** The store: tasks, assignments, categories *)

(** A task as the services return it: the row with its assignment rows
    ([include: { assignees }]).  The nested user, category and creator
    projections of the source's [include] are not modelled. *)
Record TaskView := mkTaskView {
  tv_task : Task;
  tv_assignees : list TaskAssignee
}.

Definition assigneesOf (s : Store) (taskId : Id) : list TaskAssignee :=
  filter (fun a => String.eqb (ta_taskId a) taskId) (taskAssignees s).

Definition viewTask (s : Store) (t : Task) : TaskView :=
  mkTaskView t (assigneesOf s (task_id t)).

Definition findTaskInHouse (s : Store) (taskId houseId : Id) : option Task :=
  find (fun t => String.eqb (task_id t) taskId && String.eqb (task_houseId t) houseId)
       (tasks s).

Definition findTask (s : Store) (taskId : Id) : option Task :=
  find (fun t => String.eqb (task_id t) taskId) (tasks s).

Definition findCategory (s : Store) (id : Id) : option Category :=
  find (fun c => String.eqb (cat_id c) id) (categories s).

(** [prisma.houseMember.findMany({ where: { id: { in: ids }, houseId } })] *)
Definition findMembersIn (s : Store) (ids : list Id) (houseId : Id) : list HouseMember :=
  filter (fun m => idIn (hm_id m) ids && String.eqb (hm_houseId m) houseId)
         (houseMembers s).

(** [tx.task.create]: status and completedAt take their column defaults. *)
Definition insertTask (t : Task) (s : Store) : Result (Task * Store) :=
  if idIn (task_id t) (map task_id (tasks s))
  then Err (StoreError "Unique constraint failed on tasks.id")
  else if negb (idIn (task_houseId t) (map house_id (houses s)))
  then Err (StoreError "Foreign key constraint failed on tasks.houseId")
  else if negb (idIn (task_createdById t) (map hm_id (houseMembers s)))
  then Err (StoreError "Foreign key constraint failed on tasks.createdById")
  else if match task_categoryId t with
          | Some c => negb (idIn c (map cat_id (categories s)))
          | None => false
          end
  then Err (StoreError "Foreign key constraint failed on tasks.categoryId")
  else Ok (t, set_tasks s (tasks s ++ [t])).

Definition TaskAssignee_eqb (a b : TaskAssignee) : bool :=
  String.eqb (ta_taskId a) (ta_taskId b)
  && String.eqb (ta_houseMemberId a) (ta_houseMemberId b).

Fixpoint distinctb (l : list TaskAssignee) : bool :=
  match l with
  | [] => true
  | a :: r => negb (existsb (TaskAssignee_eqb a) r) && distinctb r
  end.

(** [tx.taskAssignee.createMany]: one statement, all rows or none. *)
Definition insertTaskAssignees (rows : list TaskAssignee) (s : Store)
  : Result (nat * Store) :=
  if negb (forallb (fun a => idIn (ta_taskId a) (map task_id (tasks s))) rows)
  then Err (StoreError "Foreign key constraint failed on task_assignees.taskId")
  else if negb (forallb (fun a => idIn (ta_houseMemberId a) (map hm_id (houseMembers s))) rows)
  then Err (StoreError "Foreign key constraint failed on task_assignees.houseMemberId")
  else if negb (distinctb rows)
          || existsb (fun a => existsb (TaskAssignee_eqb a) (taskAssignees s)) rows
  then Err (StoreError "Unique constraint failed on task_assignees(taskId, houseMemberId)")
  else Ok (length rows, set_taskAssignees s (taskAssignees s ++ rows)).

(** [tx.taskAssignee.deleteMany({ where: { taskId } })] *)
Definition deleteTaskAssignees (taskId : Id) (s : Store) : Result (nat * Store) :=
  Ok (length (assigneesOf s taskId),
      set_taskAssignees s
        (filter (fun a => negb (String.eqb (ta_taskId a) taskId)) (taskAssignees s))).

(** The [data] object of [prisma.task.update]: a key that is absent is
    [None]; a key of a nullable column that is present with null is
    [Some None]. *)
Record TaskPatch := mkTaskPatch {
  p_title : option string;
  p_description : option (option string);
  p_status : option TaskStatus;
  p_priority : option TaskPriority;
  p_dueDate : option (option Date);
  p_completedAt : option (option Date);
  p_categoryId : option (option Id)
}.

Definition noPatch : TaskPatch := mkTaskPatch None None None None None None None.

Definition orKeep {A} (o : option A) (old : A) : A :=
  match o with Some v => v | None => old end.

Definition applyPatch (p : TaskPatch) (t : Task) : Task :=
  mkTask (task_id t)
         (orKeep (p_title p) (task_title t))
         (orKeep (p_description p) (task_description t))
         (orKeep (p_status p) (task_status t))
         (orKeep (p_priority p) (task_priority t))
         (orKeep (p_dueDate p) (task_dueDate t))
         (orKeep (p_completedAt p) (task_completedAt t))
         (task_createdAt t)
         (task_houseId t)
         (orKeep (p_categoryId p) (task_categoryId t))
         (task_createdById t).

(** [prisma.task.update({ where: { id }, data })]; returns the updated row. *)
Definition updateTaskRow (taskId : Id) (p : TaskPatch) (s : Store) : Result (Task * Store) :=
  match findTask s taskId with
  | None => Err (StoreError "Record to update not found")
  | Some t =>
      if match p_categoryId p with
         | Some (Some c) => negb (idIn c (map cat_id (categories s)))
         | _ => false
         end
      then Err (StoreError "Foreign key constraint failed on tasks.categoryId")
      else Ok (applyPatch p t,
               set_tasks s
                 (map (fun x => if String.eqb (task_id x) taskId then applyPatch p x else x)
                      (tasks s)))
  end.

(** [prisma.task.delete({ where: { id } })]; the task's assignments go with
    it (ON DELETE CASCADE). *)
Definition deleteTaskRow (taskId : Id) (s : Store) : Result (unit * Store) :=
  match findTask s taskId with
  | None => Err (StoreError "Record to delete does not exist")
  | Some _ =>
      Ok (tt, set_taskAssignees
                (set_tasks s (filter (fun t => negb (String.eqb (task_id t) taskId)) (tasks s)))
                (filter (fun a => negb (String.eqb (ta_taskId a) taskId)) (taskAssignees s)))
  end.

(** *** Listing: filter, order, page *)

(** The [where] object of [getHouseTasks]. *)
Record TaskWhere := mkTaskWhere {
  w_houseId : Id;
  w_status : option TaskStatus;
  w_priority : option TaskPriority;
  w_categoryId : option Id;
  w_createdById : option Id;
  w_dueBefore : option Date;
  w_assignee : option Id
}.

Definition optMatches {A} (eqb : A -> A -> bool) (o : option A) (v : A) : bool :=
  match o with Some x => eqb v x | None => true end.

Definition matchesWhere (s : Store) (w : TaskWhere) (t : Task) : bool :=
  String.eqb (task_houseId t) (w_houseId w)
  && optMatches TaskStatus_eqb (w_status w) (task_status t)
  && optMatches TaskPriority_eqb (w_priority w) (task_priority t)
  && match w_categoryId w with
     | Some c => match task_categoryId t with Some c' => String.eqb c' c | None => false end
     | None => true
     end
  && optMatches String.eqb (w_createdById w) (task_createdById t)
  && match w_dueBefore w with
     | Some d => match task_dueDate t with Some d' => (d' <? d)%Z | None => false end
     | None => true
     end
  && match w_assignee w with
     | Some m => existsb (fun a => String.eqb (ta_houseMemberId a) m)
                         (assigneesOf s (task_id t))
     | None => true
     end.

Definition priorityRank (p : TaskPriority) : nat :=
  match p with LOW => 0 | MEDIUM => 1 | HIGH => 2 end.

(** [orderBy: [{ priority: "desc" }, { dueDate: "asc" }, { createdAt: "desc" }]]:
    [taskBefore a b] holds when [a] may come no later than [b]; a null
    dueDate sorts after every date. *)
Definition taskBefore (a b : Task) : bool :=
  if (priorityRank (task_priority b) <? priorityRank (task_priority a))%nat then true
  else if (priorityRank (task_priority a) <? priorityRank (task_priority b))%nat then false
  else match task_dueDate a, task_dueDate b with
       | Some x, Some y =>
           if (x <? y)%Z then true
           else if (y <? x)%Z then false
           else (task_createdAt b <=? task_createdAt a)%Z
       | Some _, None => true
       | None, Some _ => false
       | None, None => (task_createdAt b <=? task_createdAt a)%Z
       end.

Fixpoint insertSorted (t : Task) (l : list Task) : list Task :=
  match l with
  | [] => [t]
  | x :: r => if taskBefore t x then t :: x :: r else x :: insertSorted t r
  end.

(** Rows that agree on all three sort keys keep their table order. *)
Definition orderTasks (l : list Task) : list Task :=
  fold_right insertSorted [] l.

(** An [Int] argument of a query is a 64-bit signed integer: a number
    outside this range is refused by the store. *)
Definition isInt (n : Z) : bool :=
  ((-9223372036854775808 <=? n) && (n <=? 9223372036854775807))%Z.

(** [skip] and [take] of [findMany]: both are [Int] arguments; a negative
    [skip] is refused; a negative [take] counts from the end of the
    ordered rows. *)
Definition page_of {A} (skip take : Z) (l : list A) : Result (list A) :=
  if negb (isInt skip) || negb (isInt take)
  then Err (StoreError "Unable to fit value into a 64 Bit signed integer")
  else if (skip <? 0)%Z then Err (StoreError "Invalid value for skip argument")
  else if (take <? 0)%Z
  then Ok (rev (firstn (Z.to_nat (- take)) (skipn (Z.to_nat skip) (rev l))))
  else Ok (firstn (Z.to_nat take) (skipn (Z.to_nat skip) l)).

Definition findTasksPage (w : TaskWhere) (skip take : Z) (s : Store)
  : Result (list TaskView * Store) :=
  match page_of skip take (orderTasks (filter (matchesWhere s w) (tasks s))) with
  | Ok l => Ok (map (viewTask s) l, s)
  | Err e => Err e
  end.

Definition countTasks (s : Store) (w : TaskWhere) : Z :=
  Z.of_nat (length (filter (matchesWhere s w) (tasks s))).

(** ** Request data and the validation schemas (tasks.schema) *)

(** A JSON value of a request body, path or query string.  An object, the
    body itself, is a list of key and value pairs; a key that is missing
    reads as undefined ([None]). *)
#[local] Unset Elimination Schemes.
Inductive Json :=
| JNull
| JBool (b : bool)
| JNum (n : Z)
| JStr (s : string)
| JArr (l : list Json).
#[local] Set Elimination Schemes.

Definition JObject := list (string * Json).

Fixpoint field (k : string) (o : JObject) : option Json :=
  match o with
  | [] => None
  | (k', v) :: r => if String.eqb k' k then Some v else field k r
  end.

Definition rbind {A B} (r : Result A) (f : A -> Result B) : Result B :=
  match r with Ok a => f a | Err e => Err e end.

Notation "x <-- r ;; k" := (rbind r (fun x => k))
  (at level 61, r at next level, right associativity).

(** Strings are held as their UTF-8 bytes.  JavaScript measures a string
    in UTF-16 code units ([s.length], on which zod's [min] and [max]
    rely): a continuation byte adds nothing, the first byte of a four-byte
    sequence stands for a surrogate pair and adds two, any other byte adds
    one. *)
Definition codeUnits (c : ascii) : nat :=
  let n := nat_of_ascii c in
  if ((128 <=? n) && (n <=? 191))%nat then 0
  else if (240 <=? n)%nat then 2
  else 1.

Fixpoint jsLength (s : string) : nat :=
  match s with
  | EmptyString => 0
  | String c r => codeUnits c + jsLength r
  end.

(** The white space of JavaScript ([String.prototype.trim] and [\s] in a
    regular expression).  In one byte: tab, line feed, vertical tab, form
    feed, carriage return and space. *)
Definition isSpace (c : ascii) : bool :=
  let n := nat_of_ascii c in
  (n =? 32)%nat || ((9 <=? n)%nat && (n <=? 13)%nat).

(** In two bytes: U+00A0. *)
Definition isSpace2 (c1 c2 : ascii) : bool :=
  ((nat_of_ascii c1 =? 194) && (nat_of_ascii c2 =? 160))%nat.

(** In three bytes: U+1680, U+2000 to U+200A, U+2028, U+2029, U+202F,
    U+205F, U+3000 and U+FEFF. *)
Definition isSpace3 (c1 c2 c3 : ascii) : bool :=
  let a := nat_of_ascii c1 in
  let b := nat_of_ascii c2 in
  let c := nat_of_ascii c3 in
  ((a =? 225) && (b =? 154) && (c =? 128)
   || (a =? 226) && (b =? 128)
      && ((128 <=? c) && (c <=? 138) || (c =? 168) || (c =? 169) || (c =? 175))
   || (a =? 226) && (b =? 129) && (c =? 159)
   || (a =? 227) && (b =? 128) && (c =? 128)
   || (a =? 239) && (b =? 187) && (c =? 191))%nat.

Fixpoint trimStart (s : string) : string :=
  match s with
  | String c r =>
      if isSpace c then trimStart r
      else match r with
           | String c2 r2 =>
               if isSpace2 c c2 then trimStart r2
               else match r2 with
                    | String c3 r3 => if isSpace3 c c2 c3 then trimStart r3 else s
                    | EmptyString => s
                    end
           | EmptyString => s
           end
  | EmptyString => EmptyString
  end.

(** A string of white space only. *)
Fixpoint isBlank (s : string) : bool :=
  match s with
  | String c r =>
      if isSpace c then isBlank r
      else match r with
           | String c2 r2 =>
               if isSpace2 c c2 then isBlank r2
               else match r2 with
                    | String c3 r3 => if isSpace3 c c2 c3 then isBlank r3 else false
                    | EmptyString => false
                    end
           | EmptyString => false
           end
  | EmptyString => true
  end.

(** The string is cut where what is left of it is white space only. *)
Fixpoint trimEnd (s : string) : string :=
  match s with
  | String c r => if isBlank s then EmptyString else String c (trimEnd r)
  | EmptyString => EmptyString
  end.

(** [String.prototype.trim] *)
Definition trim (s : string) : string := trimEnd (trimStart s).

(** Input types inferred from the schemas ([z.infer]). *)
Record CreateTaskInput := mkCreateTaskInput {
  cti_title : string;
  cti_description : option string;
  cti_priority : TaskPriority;
  cti_dueDate : option string;
  cti_categoryId : option string;
  cti_assigneeIds : option (list string)
}.

Record UpdateTaskInput := mkUpdateTaskInput {
  uti_title : option string;
  uti_description : option string;
  uti_priority : option TaskPriority;
  uti_dueDate : option string;
  uti_categoryId : option string
}.

Record UpdateTaskStatusInput := mkUpdateTaskStatusInput {
  utsi_status : TaskStatus
}.

Record UpdateTaskAssigneesInput := mkUpdateTaskAssigneesInput {
  utai_assigneeIds : list string
}.

Record TaskFilterInput := mkTaskFilterInput {
  f_status : option TaskStatus;
  f_priority : option TaskPriority;
  f_assignedToMe : option bool;
  f_createdByMe : option bool;
  f_categoryId : option string;
  f_overdue : option bool;
  f_page : option Z;
  f_limit : option Z
}.

Module Schema.
Section Zod.

(** The string formats checked by zod and the conversions of the
    JavaScript runtime that the schemas call: [isUuid] and [isDatetime] are
    the [.uuid()] and [.datetime()] checks, [parseDate s] is the instant of
    [new Date(s)], [parseInt s] is [None] when JavaScript's [parseInt]
    gives NaN. *)
Variable isUuid : string -> bool.
Variable isDatetime : string -> bool.
Variable parseDate : string -> Date.
Variable parseInt : string -> option Z.

Definition zString {A} (k : string -> Result A) (j : option Json) : Result A :=
  match j with
  | Some (JStr s) => k s
  | None => Err (ZodError "Required")
  | Some _ => Err (ZodError "Expected string")
  end.

(** [.optional()]: undefined passes as undefined, anything else goes to
    the inner schema. *)
Definition zOptional {A} (p : option Json -> Result A) (j : option Json)
  : Result (option A) :=
  match j with
  | None => Ok None
  | Some _ => a <-- p j ;; Ok (Some a)
  end.

(** [.default(d)]: undefined becomes [d]. *)
Definition zDefault {A} (d : A) (p : option Json -> Result (option A)) (j : option Json)
  : Result A :=
  match j with
  | None => Ok d
  | Some _ => o <-- p j ;; Ok (match o with Some a => a | None => d end)
  end.

Definition taskStatusSchema : option Json -> Result TaskStatus :=
  zString (fun s =>
    if String.eqb s "PENDING" then Ok PENDING
    else if String.eqb s "COMPLETED" then Ok COMPLETED
    else Err (ZodError "Invalid enum value")).

Definition taskPrioritySchema : option Json -> Result TaskPriority :=
  zString (fun s =>
    if String.eqb s "LOW" then Ok LOW
    else if String.eqb s "MEDIUM" then Ok MEDIUM
    else if String.eqb s "HIGH" then Ok HIGH
    else Err (ZodError "Invalid enum value")).

Definition taskTitleSchema : option Json -> Result string :=
  zString (fun s =>
    if (jsLength s <? 1)%nat then Err (ZodError "Task title is required")
    else if (100 <? jsLength s)%nat
    then Err (ZodError "Task title must be at most 100 characters")
    else Ok (trim s)).

Definition taskDescriptionSchema : option Json -> Result (option string) :=
  zOptional (zString (fun s =>
    if (500 <? jsLength s)%nat
    then Err (ZodError "Task description must be at most 500 characters")
    else Ok (trim s))).

Definition dueDateSchema (now : Date) : option Json -> Result (option string) :=
  zOptional (zString (fun s =>
    if negb (isDatetime s) then Err (ZodError "Invalid date format")
    else if negb (now <? parseDate s)%Z then Err (ZodError "Due date must be in the future")
    else Ok s)).

Definition uuidSchema (msg : string) : option Json -> Result string :=
  zString (fun s => if isUuid s then Ok s else Err (ZodError msg)).

Fixpoint parseEach {A} (p : option Json -> Result A) (l : list Json) : Result (list A) :=
  match l with
  | [] => Ok []
  | j :: r => a <-- p (Some j) ;; rest <-- parseEach p r ;; Ok (a :: rest)
  end.

Definition assigneeIdsSchema : option Json -> Result (option (list string)) :=
  zOptional (fun j =>
    match j with
    | Some (JArr l) =>
        ids <-- parseEach (uuidSchema "Invalid assignee ID") l ;;
        if (10 <? length ids)%nat
        then Err (ZodError "Cannot assign more than 10 members to a task")
        else Ok ids
    | _ => Err (ZodError "Expected array")
    end).

Definition createTaskSchema (now : Date) (body : JObject) : Result CreateTaskInput :=
  title <-- taskTitleSchema (field "title" body) ;;
  description <-- taskDescriptionSchema (field "description" body) ;;
  priority <-- zDefault MEDIUM (zOptional taskPrioritySchema) (field "priority" body) ;;
  dueDate <-- dueDateSchema now (field "dueDate" body) ;;
  categoryId <-- zOptional (uuidSchema "Invalid category ID") (field "categoryId" body) ;;
  assigneeIds <-- assigneeIdsSchema (field "assigneeIds" body) ;;
  Ok (mkCreateTaskInput title description priority dueDate categoryId assigneeIds).

Definition updateTaskSchema (now : Date) (body : JObject) : Result UpdateTaskInput :=
  title <-- zOptional taskTitleSchema (field "title" body) ;;
  description <-- taskDescriptionSchema (field "description" body) ;;
  priority <-- zOptional taskPrioritySchema (field "priority" body) ;;
  dueDate <-- dueDateSchema now (field "dueDate" body) ;;
  categoryId <-- zOptional (uuidSchema "Invalid category ID") (field "categoryId" body) ;;
  Ok (mkUpdateTaskInput title description priority dueDate categoryId).

Definition updateTaskStatusSchema (body : JObject) : Result UpdateTaskStatusInput :=
  status <-- taskStatusSchema (field "status" body) ;;
  Ok (mkUpdateTaskStatusInput status).

Definition updateTaskAssigneesSchema (body : JObject) : Result UpdateTaskAssigneesInput :=
  assigneeIds <-- zDefault [] assigneeIdsSchema (field "assigneeIds" body) ;;
  Ok (mkUpdateTaskAssigneesInput assigneeIds).

(** [z.string().transform(val => val === "true")] *)
Definition flagSchema : option Json -> Result (option bool) :=
  zOptional (zString (fun s => Ok (String.eqb s "true"))).

(** [parseInt(val) || d]: NaN and 0 are falsy. *)
Definition parseIntOr (d : Z) (s : string) : Z :=
  match parseInt s with
  | Some n => if (n =? 0)%Z then d else n
  | None => d
  end.

Definition pageSchema : option Json -> Result (option Z) :=
  zOptional (zString (fun s => Ok (parseIntOr 1 s))).

Definition limitSchema : option Json -> Result (option Z) :=
  zOptional (zString (fun s => Ok (Z.min (parseIntOr 20 s) 100))).

Definition taskFilterSchema (q : JObject) : Result TaskFilterInput :=
  status <-- zOptional taskStatusSchema (field "status" q) ;;
  priority <-- zOptional taskPrioritySchema (field "priority" q) ;;
  assignedToMe <-- flagSchema (field "assignedToMe" q) ;;
  createdByMe <-- flagSchema (field "createdByMe" q) ;;
  categoryId <-- zOptional (uuidSchema "Invalid category ID") (field "categoryId" q) ;;
  overdue <-- flagSchema (field "overdue" q) ;;
  page <-- pageSchema (field "page" q) ;;
  limit <-- limitSchema (field "limit" q) ;;
  Ok (mkTaskFilterInput status priority assignedToMe createdByMe categoryId overdue page limit).

Definition taskIdParamSchema (params : JObject) : Result Id :=
  uuidSchema "Invalid task ID format" (field "taskId" params).

Definition houseIdParamSchema (params : JObject) : Result Id :=
  uuidSchema "Invalid house ID format" (field "id" params).

End Zod.
End Schema.

(** ** TaskService (tasks.service) *)

(** JavaScript truthiness of an optional string: undefined and the empty
    string are falsy. *)
Definition truthy (o : option string) : bool :=
  match o with
  | Some s => negb (String.eqb s "")
  | None => false
  end.

Record Pagination := mkPagination {
  pg_page : Z;
  pg_limit : Z;
  pg_total : Z;
  pg_pages : option Z
}.

Record TaskList := mkTaskList {
  tl_tasks : list TaskView;
  tl_pagination : Pagination
}.

(** [Math.ceil(total / limit)] on integers; [None] stands for the
    non-finite quotient by zero. *)
Definition ceilDiv (total limit : Z) : option Z :=
  if (limit =? 0)%Z then None else Some (- ((- total) / limit))%Z.

Module TaskService.
Section WithRuntime.

Variable parseDate : string -> Date.

Definition optDate (o : option string) : option Date :=
  match o with
  | Some d => if truthy (Some d) then Some (parseDate d) else None
  | None => None
  end.

Definition checkAssignees (houseId : Id) (ids : list string) : M unit :=
  validAssignees <- query houseMember_findMany (fun s => findMembersIn s ids houseId) ;;
  if negb (length validAssignees =? length ids)%nat
  then throw (UnprocessableEntityError "Some assignees are not members of this house")
  else ret tt.

Definition checkCategory (houseId : Id) (categoryId : Id) : M unit :=
  category <- query category_findUnique (fun s => findCategory s categoryId) ;;
  match category with
  | None => throw (UnprocessableEntityError "Category does not belong to this house")
  | Some c =>
      if negb (String.eqb (cat_houseId c) houseId)
      then throw (UnprocessableEntityError "Category does not belong to this house")
      else ret tt
  end.

Definition createTaskRow (t : Task) (s : Store) : Result (TaskView * Store) :=
  match insertTask t s with
  | Ok (t', s') => Ok (viewTask s' t', s')
  | Err e => Err e
  end.

Definition assignmentRows (taskId : Id) (ids : list string) : list TaskAssignee :=
  map (fun assigneeId => mkTaskAssignee taskId assigneeId) ids.

Definition findTaskView (taskId : Id) : M (option TaskView) :=
  query task_findUnique (fun s => option_map (viewTask s) (findTask s taskId)).

(** [createTask]; [newTaskId] is the identifier the store generates for
    the row and [now] its creation instant. *)
Definition createTask (newTaskId : Id) (now : Date)
    (houseId createdById : Id) (data : CreateTaskInput) : M (option TaskView) :=
  (match cti_assigneeIds data with
   | Some ids => if (0 <? length ids)%nat then checkAssignees houseId ids else ret tt
   | None => ret tt
   end) ;;;
  (match cti_categoryId data with
   | Some c => if truthy (Some c) then checkCategory houseId c else ret tt
   | None => ret tt
   end) ;;;
  result <- transaction (
    task <- command task_create
              (createTaskRow
                 (mkTask newTaskId (cti_title data) (cti_description data) PENDING
                    (cti_priority data) (optDate (cti_dueDate data)) None now
                    houseId (cti_categoryId data) createdById)) ;;
    match cti_assigneeIds data with
    | Some ids =>
        if (0 <? length ids)%nat then
          command taskAssignee_createMany
            (insertTaskAssignees (assignmentRows (task_id (tv_task task)) ids)) ;;;
          findTaskView (task_id (tv_task task))
        else ret (Some task)
    | None => ret (Some task)
    end) ;;
  ret result.

Definition getHouseTasks (now : Date)
    (houseId currentUserId : Id) (filters : TaskFilterInput) : M TaskList :=
  let page := match f_page filters with Some p => p | None => 1%Z end in
  let limit := match f_limit filters with Some l => l | None => 20%Z end in
  currentMember <- query houseMember_findUnique
                     (fun s => findMember s currentUserId houseId) ;;
  match currentMember with
  | None => throw (ForbiddenError "You are not a member of this house")
  | Some currentMember =>
      let overdue := match f_overdue filters with Some true => true | _ => false end in
      let where_ :=
        mkTaskWhere houseId
          (if overdue then Some PENDING else f_status filters)
          (f_priority filters)
          (if truthy (f_categoryId filters) then f_categoryId filters else None)
          (match f_createdByMe filters with
           | Some true => Some (hm_id currentMember)
           | _ => None
           end)
          (if overdue then Some now else None)
          (match f_assignedToMe filters with
           | Some true => Some (hm_id currentMember)
           | _ => None
           end) in
      let skip := ((page - 1) * limit)%Z in
      tasks <- command task_findMany (findTasksPage where_ skip limit) ;;
      total <- query task_count (fun s => countTasks s where_) ;;
      ret (mkTaskList tasks (mkPagination page limit total (ceilDiv total limit)))
  end.

Definition getTaskById (taskId houseId : Id) : M TaskView :=
  task <- query task_findFirst
            (fun s => option_map (viewTask s) (findTaskInHouse s taskId houseId)) ;;
  match task with
  | None => throw (NotFoundError "Task not found")
  | Some task => ret task
  end.

Definition canUserModifyTask (task : TaskView) (currentMemberId : Id) : bool :=
  if String.eqb (task_createdById (tv_task task)) currentMemberId then true
  else
    let isAssignee :=
      existsb (fun assignment => String.eqb (ta_houseMemberId assignment) currentMemberId)
              (tv_assignees task) in
    if isAssignee then true
    else false.

Definition updateTaskRowView (taskId : Id) (p : TaskPatch) (s : Store)
  : Result (TaskView * Store) :=
  match updateTaskRow taskId p s with
  | Ok (t, s') => Ok (viewTask s' t, s')
  | Err e => Err e
  end.

(** The [data] object that [updateTask] builds from its spreads: a key is
    set when its guard ([data.title &&], [data.description !== undefined
    &&], ...) holds. *)
Definition updateTaskData (data : UpdateTaskInput) : TaskPatch :=
  mkTaskPatch
    (if truthy (uti_title data) then uti_title data else None)
    (match uti_description data with Some d => Some (Some d) | None => None end)
    None
    (uti_priority data)
    (match uti_dueDate data with
     | Some d => Some (optDate (Some d))
     | None => None
     end)
    None
    (match uti_categoryId data with Some c => Some (Some c) | None => None end).

Definition updateTask (taskId houseId currentMemberId : Id) (data : UpdateTaskInput)
  : M TaskView :=
  task <- getTaskById taskId houseId ;;
  let canUpdate := canUserModifyTask task currentMemberId in
  if negb canUpdate
  then throw (ForbiddenError
                "Only task creator, assignees, or house owner can update this task")
  else
    (match uti_categoryId data with
     | Some c => if truthy (Some c) then checkCategory houseId c else ret tt
     | None => ret tt
     end) ;;;
    updatedTask <- command task_update
                     (updateTaskRowView taskId (updateTaskData data)) ;;
    ret updatedTask.

Definition updateTaskStatus (now : Date)
    (taskId houseId currentMemberId : Id) (data : UpdateTaskStatusInput) : M TaskView :=
  task <- getTaskById taskId houseId ;;
  let canUpdate := canUserModifyTask task currentMemberId in
  if negb canUpdate
  then throw (ForbiddenError
                "Only task creator, assignees, or house owner can update task status")
  else
    let updateData :=
      mkTaskPatch None None (Some (utsi_status data)) None None
        (if TaskStatus_eqb (utsi_status data) COMPLETED then Some (Some now)
         else if TaskStatus_eqb (utsi_status data) PENDING then Some None
         else None)
        None in
    updatedTask <- command task_update (updateTaskRowView taskId updateData) ;;
    ret updatedTask.

Definition updateTaskAssignees (taskId houseId currentMemberId : Id)
    (data : UpdateTaskAssigneesInput) : M (option TaskView) :=
  task <- getTaskById taskId houseId ;;
  let canUpdate := canUserModifyTask task currentMemberId in
  if negb canUpdate
  then throw (ForbiddenError
                "Only task creator, assignees, or house owner can update task assignees")
  else
    (if (0 <? length (utai_assigneeIds data))%nat
     then checkAssignees houseId (utai_assigneeIds data)
     else ret tt) ;;;
    updatedTask <- transaction (
      command taskAssignee_deleteMany (deleteTaskAssignees taskId) ;;;
      (if (0 <? length (utai_assigneeIds data))%nat
       then command taskAssignee_createMany
              (insertTaskAssignees (assignmentRows taskId (utai_assigneeIds data))) ;;;
            ret tt
       else ret tt) ;;;
      findTaskView taskId) ;;
    ret updatedTask.

Definition deleteTask (taskId houseId currentMemberId : Id) : M bool :=
  task <- getTaskById taskId houseId ;;
  currentMember <- query houseMember_findUnique
                     (fun s => findMemberById s currentMemberId) ;;
  let canDelete :=
    String.eqb (task_createdById (tv_task task)) currentMemberId
    || match currentMember with
       | Some m => Role_eqb (hm_role m) OWNER
       | None => false
       end in
  if negb canDelete
  then throw (ForbiddenError "Only task creator or house owner can delete this task")
  else
    command task_delete (deleteTaskRow taskId) ;;;
    ret true.

End WithRuntime.
End TaskService.

(** The [where] object that [getHouseTasks] builds for a member, as a
    function of the filters; and the filters of a query at a given page
    and limit. *)
Definition listingWhere (now : Date) (houseId : Id) (currentMember : HouseMember)
    (filters : TaskFilterInput) : TaskWhere :=
  let overdue := match f_overdue filters with Some true => true | _ => false end in
  mkTaskWhere houseId
    (if overdue then Some PENDING else f_status filters)
    (f_priority filters)
    (if truthy (f_categoryId filters) then f_categoryId filters else None)
    (match f_createdByMe filters with
     | Some true => Some (hm_id currentMember)
     | _ => None
     end)
    (if overdue then Some now else None)
    (match f_assignedToMe filters with
     | Some true => Some (hm_id currentMember)
     | _ => None
     end).


(** ** TaskController (tasks.controller)

    A request as the task routes hand it to the controller: path
    parameters, query string and body, with the caller's user id and the
    id of the membership that [requireHouseMember] attached. *)
Record Request := mkRequest {
  req_params : JObject;
  req_query : JObject;
  req_body : JObject;
  req_userId : Id;
  req_houseMemberId : Id
}.

Definition parse {A} (r : Result A) : M A :=
  fun s => (r, s, []).

Module TaskController.
Section WithRuntime.

Variable isUuid : string -> bool.
Variable isDatetime : string -> bool.
Variable parseDate : string -> Date.
Variable parseInt : string -> option Z.

Definition getHouseTasks (now : Date) (req : Request) : M TaskList :=
  houseId <- parse (Schema.houseIdParamSchema isUuid (req_params req)) ;;
  filters <- parse (Schema.taskFilterSchema isUuid parseInt (req_query req)) ;;
  TaskService.getHouseTasks now houseId (req_userId req) filters.

Definition updateTask (now : Date) (req : Request) : M TaskView :=
  houseId <- parse (Schema.houseIdParamSchema isUuid (req_params req)) ;;
  taskId <- parse (Schema.taskIdParamSchema isUuid (req_params req)) ;;
  updateData <- parse (Schema.updateTaskSchema isUuid isDatetime parseDate now (req_body req)) ;;
  TaskService.updateTask parseDate taskId houseId (req_houseMemberId req) updateData.

Definition updateTaskStatus (now : Date) (req : Request) : M TaskView :=
  houseId <- parse (Schema.houseIdParamSchema isUuid (req_params req)) ;;
  taskId <- parse (Schema.taskIdParamSchema isUuid (req_params req)) ;;
  statusData <- parse (Schema.updateTaskStatusSchema (req_body req)) ;;
  TaskService.updateTaskStatus now taskId houseId (req_houseMemberId req) statusData.

Definition updateTaskAssignees (req : Request) : M (option TaskView) :=
  houseId <- parse (Schema.houseIdParamSchema isUuid (req_params req)) ;;
  taskId <- parse (Schema.taskIdParamSchema isUuid (req_params req)) ;;
  assigneeData <- parse (Schema.updateTaskAssigneesSchema isUuid (req_body req)) ;;
  TaskService.updateTaskAssignees taskId houseId (req_houseMemberId req) assigneeData.

Definition createTask (newTaskId : Id) (now : Date) (req : Request) : M (option TaskView) :=
  houseId <- parse (Schema.houseIdParamSchema isUuid (req_params req)) ;;
  taskData <- parse (Schema.createTaskSchema isUuid isDatetime parseDate now (req_body req)) ;;
  TaskService.createTask parseDate newTaskId now houseId (req_houseMemberId req) taskData.

Definition getTaskById (req : Request) : M TaskView :=
  houseId <- parse (Schema.houseIdParamSchema isUuid (req_params req)) ;;
  taskId <- parse (Schema.taskIdParamSchema isUuid (req_params req)) ;;
  TaskService.getTaskById taskId houseId.

Definition deleteTask (req : Request) : M bool :=
  houseId <- parse (Schema.houseIdParamSchema isUuid (req_params req)) ;;
  taskId <- parse (Schema.taskIdParamSchema isUuid (req_params req)) ;;
  TaskService.deleteTask taskId houseId (req_houseMemberId req).

End WithRuntime.
End TaskController.

(** ** The house validation schemas (houses.schema) *)

Fixpoint allChars (p : ascii -> bool) (s : string) : bool :=
  match s with
  | EmptyString => true
  | String c r => p c && allChars p r
  end.

Definition isAlnum (c : ascii) : bool :=
  let n := nat_of_ascii c in
  ((97 <=? n) && (n <=? 122) || (65 <=? n) && (n <=? 90) || (48 <=? n) && (n <=? 57))%nat.

(** The regular expression [/^[a-zA-Z0-9\s]+$/]: [nameChars] is the
    starred class up to the end of the string. *)
Fixpoint nameChars (s : string) : bool :=
  match s with
  | String c r =>
      if isAlnum c || isSpace c then nameChars r
      else match r with
           | String c2 r2 =>
               if isSpace2 c c2 then nameChars r2
               else match r2 with
                    | String c3 r3 => if isSpace3 c c2 c3 then nameChars r3 else false
                    | EmptyString => false
                    end
           | EmptyString => false
           end
  | EmptyString => true
  end.

Definition nameRegex (s : string) : bool :=
  negb (String.eqb s "") && nameChars s.

Module HouseSchema.
Section Zod.

Variable isUuid : string -> bool.

Definition houseNameSchema : option Json -> Result string :=
  Schema.zString (fun s =>
    if (jsLength s <? 3)%nat
    then Err (ZodError "House name must be at least 3 characters")
    else if (20 <? jsLength s)%nat
    then Err (ZodError "House name must be at most 20 characters")
    else if negb (nameRegex s)
    then Err (ZodError "House name can only contain letters, numbers, and spaces")
    else Ok (trim s)).

Definition displayNameSchema : option Json -> Result string :=
  Schema.zString (fun s =>
    if (jsLength s <? 1)%nat then Err (ZodError "Display name is required")
    else if (12 <? jsLength s)%nat
    then Err (ZodError "Display name must be at most 12 characters")
    else Ok (trim s)).

Definition houseMemberRoleSchema : option Json -> Result Role :=
  Schema.zString (fun s =>
    if String.eqb s "OWNER" then Ok OWNER
    else if String.eqb s "MEMBER" then Ok MEMBER
    else Err (ZodError "Invalid enum value")).

Definition descriptionSchema : option Json -> Result (option string) :=
  Schema.zOptional (Schema.zString (fun s => Ok (trim s))).

Definition createHouseSchema (body : JObject) : Result CreateHouseInput :=
  name <-- houseNameSchema (field "name" body) ;;
  description <-- descriptionSchema (field "description" body) ;;
  Ok (mkCreateHouseInput name description).

Definition updateHouseSchema (body : JObject) : Result UpdateHouseInput :=
  name <-- Schema.zOptional houseNameSchema (field "name" body) ;;
  description <-- descriptionSchema (field "description" body) ;;
  Ok (mkUpdateHouseInput name description).

Definition updateMemberRoleSchema (body : JObject) : Result Role :=
  houseMemberRoleSchema (field "role" body).

Definition setDisplayNameSchema (body : JObject) : Result string :=
  displayNameSchema (field "displayName" body).

Definition houseIdParamSchema (params : JObject) : Result Id :=
  Schema.uuidSchema isUuid "Invalid house ID format" (field "id" params).

Definition userIdParamSchema (params : JObject) : Result Id :=
  Schema.uuidSchema isUuid "Invalid user ID format" (field "userId" params).

End Zod.
End HouseSchema.

(** ** HouseController (houses.controller) *)

Module HouseController.
Section WithRuntime.

Variable isUuid : string -> bool.

(** [newHouseId] and [newMemberId] as in [HouseService.createHouse]. *)
Definition createHouse (newHouseId newMemberId : Id) (req : Request) : M House :=
  houseData <- parse (HouseSchema.createHouseSchema (req_body req)) ;;
  displayName <- parse (HouseSchema.setDisplayNameSchema (req_body req)) ;;
  HouseService.createHouse newHouseId newMemberId (req_userId req) houseData displayName.

Definition updateHouse (req : Request) : M House :=
  id <- parse (HouseSchema.houseIdParamSchema isUuid (req_params req)) ;;
  updateData <- parse (HouseSchema.updateHouseSchema (req_body req)) ;;
  HouseService.updateHouse id updateData.

Definition deleteHouse (req : Request) : M bool :=
  id <- parse (HouseSchema.houseIdParamSchema isUuid (req_params req)) ;;
  HouseService.deleteHouse id.

Definition removeMember (req : Request) : M bool :=
  id <- parse (HouseSchema.houseIdParamSchema isUuid (req_params req)) ;;
  userId <- parse (HouseSchema.userIdParamSchema isUuid (req_params req)) ;;
  HouseService.removeMember id userId.

Definition updateMemberRole (req : Request) : M HouseMember :=
  id <- parse (HouseSchema.houseIdParamSchema isUuid (req_params req)) ;;
  userId <- parse (HouseSchema.userIdParamSchema isUuid (req_params req)) ;;
  role <- parse (HouseSchema.updateMemberRoleSchema (req_body req)) ;;
  HouseService.updateMemberRole id userId role.

End WithRuntime.
End HouseController.

(** ** The house middleware (houses.middleware)

    A request on its way through the middleware chain, after
    [authenticate]: [http_user] is the id of the user that [authenticate]
    attached, [http_houseMember] the membership that [requireHouseMember]
    attaches.  A middleware either passes the request on or fails
    ([next(error)]). *)
Record HttpRequest := mkHttpRequest {
  http_params : JObject;
  http_query : JObject;
  http_body : JObject;
  http_user : option Id;
  http_houseMember : option HouseMember
}.

(** A path parameter: a string, or missing. *)
Definition param (k : string) (o : JObject) : option string :=
  match field k o with
  | Some (JStr v) => Some v
  | _ => None
  end.

(** [req.houseMember = houseMember] *)
Definition withMember (req : HttpRequest) (m : HouseMember) : HttpRequest :=
  mkHttpRequest (http_params req) (http_query req) (http_body req) (http_user req) (Some m).

Definition roleName (r : Role) : string :=
  match r with OWNER => "OWNER" | MEMBER => "MEMBER" end.

Module HousesMiddleware.

Definition requireHouseMember (req : HttpRequest) : M HttpRequest :=
  let houseId := param "id" (http_params req) in
  let userId := http_user req in
  if negb (truthy userId) then throw (ForbiddenError "Authentication required")
  else if negb (truthy houseId) then throw (NotFoundError "House ID is required")
  else
    match userId, houseId with
    | Some userId, Some houseId =>
        houseMember <- query houseMember_findUnique
                         (fun s => findMember s userId houseId) ;;
        match houseMember with
        | None => throw (ForbiddenError "You are not a member of this house")
        | Some houseMember =>
            ret (withMember req houseMember)
        end
    | _, _ => throw (ForbiddenError "Authentication required")
    end.

Definition roleHierarchy (r : Role) : nat :=
  match r with OWNER => 2 | MEMBER => 1 end.

Definition hasRequiredRole (userRole requiredRole : Role) : bool :=
  (roleHierarchy requiredRole <=? roleHierarchy userRole)%nat.

Definition requireHouseRole (requiredRole : Role) (req : HttpRequest) : M HttpRequest :=
  match http_houseMember req with
  | None => throw (ForbiddenError "House membership check required")
  | Some houseMember =>
      let userRole := hm_role houseMember in
      if negb (hasRequiredRole userRole requiredRole)
      then throw (ForbiddenError (roleName requiredRole ++ " role or higher required"))
      else ret req
  end.

Definition requireOwner : HttpRequest -> M HttpRequest := requireHouseRole OWNER.
Definition requireMember : HttpRequest -> M HttpRequest := requireHouseRole MEMBER.

End HousesMiddleware.

(** ** The routes (houses.routes, tasks.routes)

    A route runs its middlewares in order and then its controller.  The
    controller reads [req.user!.id] and [req.houseMember!.id]; both are set
    when the chain has passed [requireHouseMember]. *)
Definition attached (req : HttpRequest) : Request :=
  mkRequest (http_params req) (http_query req) (http_body req)
            (match http_user req with Some u => u | None => "" end)
            (match http_houseMember req with Some m => hm_id m | None => "" end).

Fixpoint chain (mws : list (HttpRequest -> M HttpRequest)) (req : HttpRequest)
  : M HttpRequest :=
  match mws with
  | [] => ret req
  | mw :: rest => req' <- mw req ;; chain rest req'
  end.

Definition route {A} (mws : list (HttpRequest -> M HttpRequest))
    (controller : Request -> M A) (req : HttpRequest) : M A :=
  req' <- chain mws req ;; controller (attached req').

Module HouseRoutes.
Section WithRuntime.

Variable isUuid : string -> bool.

(** PUT /:id *)
Definition updateHouse : HttpRequest -> M House :=
  route [HousesMiddleware.requireHouseMember; HousesMiddleware.requireOwner]
        (HouseController.updateHouse isUuid).

(** DELETE /:id *)
Definition deleteHouse : HttpRequest -> M bool :=
  route [HousesMiddleware.requireHouseMember; HousesMiddleware.requireOwner]
        (HouseController.deleteHouse isUuid).

(** DELETE /:id/members/:userId *)
Definition removeMember : HttpRequest -> M bool :=
  route [HousesMiddleware.requireHouseMember; HousesMiddleware.requireOwner]
        (HouseController.removeMember isUuid).

(** PUT /:id/members/:userId/role *)
Definition updateMemberRole : HttpRequest -> M HouseMember :=
  route [HousesMiddleware.requireHouseMember; HousesMiddleware.requireOwner]
        (HouseController.updateMemberRole isUuid).

End WithRuntime.
End HouseRoutes.

Module TaskRoutes.
Section WithRuntime.

Variable isUuid : string -> bool.
Variable isDatetime : string -> bool.
Variable parseDate : string -> Date.
Variable parseInt : string -> option Z.

(** POST /:id/tasks *)
Definition createTask (newTaskId : Id) (now : Date) : HttpRequest -> M (option TaskView) :=
  route [HousesMiddleware.requireHouseMember]
        (TaskController.createTask isUuid isDatetime parseDate newTaskId now).

(** GET /:id/tasks *)
Definition getHouseTasks (now : Date) : HttpRequest -> M TaskList :=
  route [HousesMiddleware.requireHouseMember]
        (TaskController.getHouseTasks isUuid parseInt now).

(** GET /:id/tasks/:taskId *)
Definition getTaskById : HttpRequest -> M TaskView :=
  route [HousesMiddleware.requireHouseMember] (TaskController.getTaskById isUuid).

(** PUT /:id/tasks/:taskId *)
Definition updateTask (now : Date) : HttpRequest -> M TaskView :=
  route [HousesMiddleware.requireHouseMember]
        (TaskController.updateTask isUuid isDatetime parseDate now).

(** DELETE /:id/tasks/:taskId *)
Definition deleteTask : HttpRequest -> M bool :=
  route [HousesMiddleware.requireHouseMember] (TaskController.deleteTask isUuid).

(** PUT /:id/tasks/:taskId/status *)
Definition updateTaskStatus (now : Date) : HttpRequest -> M TaskView :=
  route [HousesMiddleware.requireHouseMember] (TaskController.updateTaskStatus isUuid now).

(** PUT /:id/tasks/:taskId/assignees *)
Definition updateTaskAssignees : HttpRequest -> M (option TaskView) :=
  route [HousesMiddleware.requireHouseMember] (TaskController.updateTaskAssignees isUuid).

End WithRuntime.
End TaskRoutes.

(** ** The error handler (shared/middleware/errorHandler, shared/errors/AppError)

    The code and message of the error response.  An [AppError] answers
    with its own code and message; anything else, a [ZodError] thrown by
    [schema.parse] or an error of the store, answers 500 with a fixed
    message.  The stack trace added in development mode is not modelled. *)
Record ErrorResponse := mkErrorResponse {
  er_code : nat;
  er_message : string
}.

Definition errorHandler (err : AppError) : ErrorResponse :=
  match err with
  | NotFoundError message => mkErrorResponse 404 message
  | UnprocessableEntityError message => mkErrorResponse 422 message
  | ForbiddenError message => mkErrorResponse 403 message
  | ZodError _ => mkErrorResponse 500 "An unexpected error occurred"
  | StoreError _ => mkErrorResponse 500 "An unexpected error occurred"
  end.

(** ** Validation outcomes *)

(** A schema either accepts or fails with a [ZodError]. *)
Definition zodOnly {A} (r : Result A) : Prop :=
  match r with
  | Ok _ => True
  | Err (ZodError _) => True
  | Err _ => False
  end.

(** ** Store constraints *)

(** The unique index of house_members on (userId, houseId). *)
Definition uniqueMembership (s : Store) : Prop :=
  NoDup (map (fun m => (hm_userId m, hm_houseId m)) (houseMembers s)).

(** The primary key of house_members. *)
Definition uniqueMemberIds (s : Store) : Prop :=
  NoDup (map hm_id (houseMembers s)).

(** The foreign key of house_members to houses. *)
Definition membersReferHouses (s : Store) : Prop :=
  forall m, In m (houseMembers s) -> In (hm_houseId m) (map house_id (houses s)).

(** The three constraints of house_members together. *)
Definition memberKeysHold (s : Store) : Prop :=
  uniqueMembership s /\ uniqueMemberIds s /\ membersReferHouses s.

(** completedAt is set exactly on the completed tasks. *)
Definition stamped (t : Task) : Prop :=
  task_completedAt t <> None <-> task_status t = COMPLETED.

Definition allStamped (s : Store) : Prop := Forall stamped (tasks s).

(** The owners of house [h] among the rows [l]. *)
Definition owners (h : Id) (l : list HouseMember) : nat :=
  length (filter (isOwnerOf h) l).

(** ** A sample household *)

Module Sample.

(** The [.uuid()] check on the shape 8-4-4-4-12 of hexadecimal digits. *)
Definition isHex (c : ascii) : bool :=
  let n := nat_of_ascii c in
  ((48 <=? n) && (n <=? 57) || (97 <=? n) && (n <=? 102) || (65 <=? n) && (n <=? 70))%nat.

Fixpoint uuidFrom (i : nat) (s : string) : bool :=
  match s with
  | EmptyString => (i =? 36)%nat
  | String c r =>
      (if ((i =? 8) || (i =? 13) || (i =? 18) || (i =? 23))%nat
       then Ascii.eqb c "-"%char
       else isHex c)
      && uuidFrom (S i) r
  end.

Definition isUuid (s : string) : bool := uuidFrom 0 s.

Definition userA : Id := "a0000000-0000-4000-8000-000000000001".
Definition userB : Id := "a0000000-0000-4000-8000-000000000002".
Definition userC : Id := "a0000000-0000-4000-8000-000000000003".
Definition userZ : Id := "a0000000-0000-4000-8000-0000000000ff".
Definition home : Id := "b0000000-0000-4000-8000-000000000001".
Definition cabin : Id := "b0000000-0000-4000-8000-000000000002".
Definition flat : Id := "b0000000-0000-4000-8000-000000000003".
Definition dadId : Id := "c0000000-0000-4000-8000-000000000001".
Definition momId : Id := "c0000000-0000-4000-8000-000000000002".
Definition kidId : Id := "c0000000-0000-4000-8000-000000000003".
Definition guestId : Id := "c0000000-0000-4000-8000-000000000004".
Definition newMemberId : Id := "c0000000-0000-4000-8000-000000000005".
Definition choresId : Id := "d0000000-0000-4000-8000-000000000001".
Definition mowId : Id := "d0000000-0000-4000-8000-000000000002".
Definition cleaningId : Id := "e0000000-0000-4000-8000-000000000001".
Definition gardenId : Id := "e0000000-0000-4000-8000-000000000002".

Definition dad : HouseMember := mkHouseMember dadId "Dad" OWNER userA home.
Definition mom : HouseMember := mkHouseMember momId "Mom" MEMBER userB home.
Definition kid : HouseMember := mkHouseMember kidId "Kid" MEMBER userC home.
Definition guest : HouseMember := mkHouseMember guestId "Guest" OWNER userA cabin.

(** A task created by Mom and assigned to Kid. *)
Definition chores : Task :=
  mkTask choresId "Wash up" (Some "after dinner") PENDING MEDIUM (Some 5000%Z) None 1000%Z
         home (Some cleaningId) momId.

Definition store : Store :=
  mkStore [userA; userB; userC]
          [mkHouse home "Home" None; mkHouse cabin "Cabin" None]
          [dad; mom; kid; guest]
          [chores]
          [mkTaskAssignee choresId kidId]
          [mkCategory cleaningId "Cleaning" home; mkCategory gardenId "Garden" cabin].

(** The sample house with 45 tasks of mixed priority and due date (task
    ids are opaque to the service; these are single characters). *)
Definition manyTasks : list Task :=
  map (fun i =>
         mkTask (String (ascii_of_nat (48 + i)) EmptyString) "Task" None PENDING
                (match i mod 3 with 0 => LOW | 1 => HIGH | _ => MEDIUM end)
                (if Nat.even i then Some (Z.of_nat (100 - i)) else None)
                None (Z.of_nat i) home None dadId)
      (seq 0 45).

Definition busy : Store :=
  mkStore (users store) (houses store) (houseMembers store) manyTasks [] (categories store).

(** Text beyond ASCII, as UTF-8 bytes: the letter e with an acute accent
    (two bytes), the euro sign (three bytes) and the no-break space
    U+00A0 (two bytes). *)
Definition eAcute : string :=
  String (ascii_of_nat 195) (String (ascii_of_nat 169) EmptyString).
Definition euro : string :=
  String (ascii_of_nat 226) (String (ascii_of_nat 130) (String (ascii_of_nat 172) EmptyString)).
Definition nbsp : string :=
  String (ascii_of_nat 194) (String (ascii_of_nat 160) EmptyString).

Fixpoint times (n : nat) (x : string) : string :=
  match n with
  | 0 => EmptyString
  | S k => String.append x (times k x)
  end.

(** Stand-ins for the date-format check, [new Date(s)] and [parseInt] in
    samples whose requests carry no date and no number. *)
Definition anyString (_ : string) : bool := true.
Definition noDate (_ : string) : Date := 9000%Z.
Definition noInt (_ : string) : option Z := None.

End Sample.

Module SampleRequests.

(** PUT /api/v1/houses/:id/tasks/:taskId on the sample task, by Mom, its
    creator. *)
Definition put (body : JObject) : Request :=
  mkRequest [("id", JStr Sample.home); ("taskId", JStr Sample.choresId)] [] body
            Sample.userB Sample.momId.

Definition describedNull : Request := put [("description", JNull)].
Definition dueNull : Request := put [("dueDate", JNull)].
Definition categoryNull : Request := put [("categoryId", JNull)].
Definition retitle : Request := put [("title", JStr "Dry up")].

End SampleRequests.

(** * Properties *)

Ltac run_monad :=
  unfold bind, query, command, ret, throw, transaction, parse; simpl.

(** ** Lists and keys *)

Lemma Role_eqb_eq (a b : Role) : Role_eqb a b = true <-> a = b.
Proof. destruct a, b; simpl; split; congruence. Qed.

Lemma idIn_In (x : Id) (l : list Id) : idIn x l = true <-> In x l.
Proof.
  unfold idIn. rewrite existsb_exists. split.
  - intros [y [Hy E]]. apply String.eqb_eq in E. now subst.
  - intros H. exists x. split; [assumption | apply String.eqb_refl].
Qed.

Lemma idIn_false (x : Id) (l : list Id) : idIn x l = false <-> ~ In x l.
Proof.
  rewrite <- idIn_In. destruct (idIn x l); split; congruence.
Qed.

Lemma isTarget_key (u h : Id) (m : HouseMember) :
  isTarget u h m = true <-> (hm_userId m, hm_houseId m) = (u, h).
Proof.
  unfold isTarget. rewrite andb_true_iff, !String.eqb_eq. split.
  - intros [-> ->]. reflexivity.
  - intros E. inversion E. auto.
Qed.

(** A successful [find] splits the list at the first hit. *)
Lemma find_split {A} (P : A -> bool) (l : list A) (x : A) :
  find P l = Some x ->
  exists l1 l2, l = l1 ++ x :: l2 /\ P x = true /\ forallb (fun y => negb (P y)) l1 = true.
Proof.
  induction l as [| a l IH]; simpl; [discriminate |].
  destruct (P a) eqn:Pa.
  - intros E. inversion E. subst. exists [], l. simpl. auto.
  - intros E. destruct (IH E) as (l1 & l2 & -> & Px & H1).
    exists (a :: l1), l2. simpl. rewrite Pa. auto.
Qed.

(** Under the unique index the row found by (userId, houseId) is the only
    row with that key. *)
Lemma target_split (s : Store) (u h : Id) (m : HouseMember) :
  uniqueMembership s ->
  findMember s u h = Some m ->
  exists l1 l2,
    houseMembers s = l1 ++ m :: l2
    /\ isTarget u h m = true
    /\ forallb (fun y => negb (isTarget u h y)) l1 = true
    /\ forallb (fun y => negb (isTarget u h y)) l2 = true.
Proof.
  unfold uniqueMembership, findMember. intros U F.
  destruct (find_split _ _ _ F) as (l1 & l2 & E & Pm & H1).
  exists l1, l2. repeat split; try assumption.
  rewrite E, map_app in U. simpl in U.
  apply NoDup_remove_2 in U.
  apply forallb_forall. intros y Hy.
  destruct (isTarget u h y) eqn:Ty; [exfalso | reflexivity].
  apply U. apply in_or_app. right.
  apply isTarget_key in Ty. apply isTarget_key in Pm.
  rewrite Pm, <- Ty. apply in_map_iff. exists y. split; [reflexivity | assumption].
Qed.

Lemma filter_none {A} (P : A -> bool) (l : list A) :
  forallb (fun y => negb (P y)) l = true -> filter P l = [].
Proof.
  induction l as [| a l IH]; simpl; [reflexivity |].
  rewrite andb_true_iff. intros [Ha Hl].
  destruct (P a); [discriminate | auto].
Qed.

Lemma filter_all {A} (P : A -> bool) (l : list A) :
  forallb P l = true -> filter P l = l.
Proof.
  induction l as [| a l IH]; simpl; [reflexivity |].
  rewrite andb_true_iff. intros [Ha Hl]. rewrite Ha. f_equal. auto.
Qed.

Lemma map_untouched {A} (P : A -> bool) (f : A -> A) (l : list A) :
  forallb (fun y => negb (P y)) l = true ->
  map (fun x => if P x then f x else x) l = l.
Proof.
  induction l as [| a l IH]; simpl; [reflexivity |].
  rewrite andb_true_iff. intros [Ha Hl].
  destruct (P a); [discriminate |]. f_equal. auto.
Qed.

Lemma remove_target (u h : Id) (l1 l2 : list HouseMember) (m : HouseMember) :
  isTarget u h m = true ->
  forallb (fun y => negb (isTarget u h y)) l1 = true ->
  forallb (fun y => negb (isTarget u h y)) l2 = true ->
  filter (fun x => negb (isTarget u h x)) (l1 ++ m :: l2) = l1 ++ l2.
Proof.
  intros Hm H1 H2. rewrite filter_app. simpl. rewrite Hm. simpl.
  now rewrite !filter_all.
Qed.

Lemma retarget (u h : Id) (f : HouseMember -> HouseMember)
      (l1 l2 : list HouseMember) (m : HouseMember) :
  isTarget u h m = true ->
  forallb (fun y => negb (isTarget u h y)) l1 = true ->
  forallb (fun y => negb (isTarget u h y)) l2 = true ->
  map (fun x => if isTarget u h x then f x else x) (l1 ++ m :: l2) = l1 ++ f m :: l2.
Proof.
  intros Hm H1 H2. rewrite map_app. simpl. rewrite Hm.
  now rewrite !map_untouched.
Qed.

Lemma owners_app (h : Id) (l1 l2 : list HouseMember) :
  owners h (l1 ++ l2) = owners h l1 + owners h l2.
Proof. unfold owners. now rewrite filter_app, length_app. Qed.

Lemma owners_cons (h : Id) (m : HouseMember) (l : list HouseMember) :
  owners h (m :: l) = (if isOwnerOf h m then 1 else 0) + owners h l.
Proof. unfold owners. simpl. now destruct (isOwnerOf h m). Qed.

Lemma countOwners_owners (s : Store) (h : Id) :
  countOwners s h = owners h (houseMembers s).
Proof. reflexivity. Qed.

(** ** HouseService: what each method computes *)

Lemma removeMember_run (h u : Id) (s : Store) :
  HouseService.removeMember h u s =
  match findMember s u h with
  | None =>
      (Err (NotFoundError "User is not a member of this house"), s,
       [houseMember_findUnique])
  | Some m =>
      if Role_eqb (hm_role m) OWNER then
        if (countOwners s h <=? 1)%nat then
          (Err (UnprocessableEntityError "Cannot remove the last owner of the house"), s,
           [houseMember_findUnique; houseMember_count])
        else
          match deleteHouseMember u h s with
          | Ok (_, s') =>
              (Ok true, s', [houseMember_findUnique; houseMember_count; houseMember_delete])
          | Err e =>
              (Err e, s, [houseMember_findUnique; houseMember_count; houseMember_delete])
          end
      else
        match deleteHouseMember u h s with
        | Ok (_, s') => (Ok true, s', [houseMember_findUnique; houseMember_delete])
        | Err e => (Err e, s, [houseMember_findUnique; houseMember_delete])
        end
  end.
Proof.
  unfold HouseService.removeMember. run_monad.
  destruct (findMember s u h) as [m |]; [| reflexivity].
  destruct (Role_eqb (hm_role m) OWNER); simpl.
  - destruct (countOwners s h <=? 1)%nat; simpl; [reflexivity |].
    destruct (deleteHouseMember u h s) as [[[] s'] | e]; reflexivity.
  - destruct (deleteHouseMember u h s) as [[[] s'] | e]; reflexivity.
Qed.

Lemma updateMemberRole_run (h u : Id) (r : Role) (s : Store) :
  HouseService.updateMemberRole h u r s =
  match findMember s u h with
  | None =>
      (Err (NotFoundError "User is not a member of this house"), s,
       [houseMember_findUnique])
  | Some m =>
      if Role_eqb (hm_role m) OWNER && negb (Role_eqb r OWNER) then
        if (countOwners s h <=? 1)%nat then
          (Err (UnprocessableEntityError "Cannot demote the last owner of the house"), s,
           [houseMember_findUnique; houseMember_count])
        else
          match updateHouseMemberRole u h r s with
          | Ok (m', s') =>
              (Ok m', s', [houseMember_findUnique; houseMember_count; houseMember_update])
          | Err e =>
              (Err e, s, [houseMember_findUnique; houseMember_count; houseMember_update])
          end
      else
        match updateHouseMemberRole u h r s with
        | Ok (m', s') => (Ok m', s', [houseMember_findUnique; houseMember_update])
        | Err e => (Err e, s, [houseMember_findUnique; houseMember_update])
        end
  end.
Proof.
  unfold HouseService.updateMemberRole. run_monad.
  destruct (findMember s u h) as [m |]; [| reflexivity].
  destruct (Role_eqb (hm_role m) OWNER && negb (Role_eqb r OWNER)); simpl.
  - destruct (countOwners s h <=? 1)%nat; simpl; [reflexivity |].
    destruct (updateHouseMemberRole u h r s) as [[m' s'] | e]; reflexivity.
  - destruct (updateHouseMemberRole u h r s) as [[m' s'] | e]; reflexivity.
Qed.

(** A member listed in the table is the one its key finds. *)
Lemma findMember_listed (s : Store) (m : HouseMember) :
  uniqueMembership s ->
  In m (houseMembers s) ->
  findMember s (hm_userId m) (hm_houseId m) = Some m.
Proof.
  unfold uniqueMembership, findMember. intros U I.
  induction (houseMembers s) as [| a l IH]; simpl in *; [contradiction |].
  inversion U as [| ? ? Ha Ul]; subst.
  destruct I as [-> | I].
  - now rewrite !String.eqb_refl.
  - destruct ((hm_userId a =? hm_userId m) && (hm_houseId a =? hm_houseId m)) eqn:K.
    + exfalso. apply Ha.
      apply andb_true_iff in K. destruct K as [K1 K2].
      apply String.eqb_eq in K1, K2. rewrite K1, K2.
      apply in_map_iff. exists m. split; [reflexivity | assumption].
    + auto.
Qed.

(** The delete of a membership either is refused by the store or removes
    the target rows and their assignments. *)
Lemma deleteHouseMember_outcome (u h : Id) (s : Store) (m : HouseMember) :
  findMember s u h = Some m ->
  (exists e, deleteHouseMember u h s = Err e)
  \/ deleteHouseMember u h s
     = Ok (tt, set_taskAssignees
                 (set_houseMembers s
                    (filter (fun x => negb (isTarget u h x)) (houseMembers s)))
                 (filter (fun a => negb (idIn (ta_houseMemberId a)
                            (map hm_id (filter (isTarget u h) (houseMembers s)))))
                         (taskAssignees s))).
Proof.
  intros F. unfold deleteHouseMember. rewrite F. cbv zeta.
  destruct (existsb _ (tasks s)); eauto.
Qed.

(** Neither method takes the last owner away from any house. *)
Lemma removeMember_keeps_owner (h u h' : Id) (s : Store) :
  uniqueMembership s ->
  1 <= countOwners s h' ->
  1 <= countOwners (store_of (HouseService.removeMember h u s)) h'.
Proof.
  intros U C. rewrite removeMember_run.
  destruct (findMember s u h) as [m |] eqn:F; [| exact C].
  pose proof (deleteHouseMember_outcome u h s m F) as D.
  destruct (target_split _ _ _ _ U F) as (l1 & l2 & E & Tm & H1 & H2).
  assert (K : forall s', houseMembers s' = l1 ++ l2 ->
                (isOwnerOf h' m = true -> 2 <= countOwners s h') ->
                1 <= countOwners s' h').
  { intros s' Hs' Hm.
    assert (Cs : countOwners s h'
                 = owners h' l1 + ((if isOwnerOf h' m then 1 else 0) + owners h' l2))
      by (now rewrite countOwners_owners, E, owners_app, owners_cons).
    assert (Cs' : countOwners s' h' = owners h' l1 + owners h' l2)
      by (now rewrite countOwners_owners, Hs', owners_app).
    rewrite Cs in *. rewrite Cs'.
    destruct (isOwnerOf h' m); [specialize (Hm eq_refl) |]; lia. }
  assert (Hh : hm_houseId m = h).
  { apply isTarget_key in Tm. now inversion Tm. }
  destruct (Role_eqb (hm_role m) OWNER) eqn:R.
  - destruct (countOwners s h <=? 1)%nat eqn:L; [exact C |].
    destruct D as [[e ->] | ->]; [exact C |].
    unfold store_of. simpl. apply K.
    + simpl. rewrite E. now apply remove_target.
    + intros O. apply Nat.leb_gt in L.
      unfold isOwnerOf in O. apply andb_true_iff in O. destruct O as [O _].
      apply String.eqb_eq in O. rewrite <- O, Hh. lia.
  - destruct D as [[e ->] | ->]; [exact C |].
    unfold store_of. simpl. apply K.
    + simpl. rewrite E. now apply remove_target.
    + unfold isOwnerOf. rewrite R, andb_false_r. discriminate.
Qed.

Lemma updateMemberRole_keeps_owner (h u h' : Id) (r : Role) (s : Store) :
  uniqueMembership s ->
  1 <= countOwners s h' ->
  1 <= countOwners (store_of (HouseService.updateMemberRole h u r s)) h'.
Proof.
  intros U C. rewrite updateMemberRole_run.
  destruct (findMember s u h) as [m |] eqn:F; [| exact C].
  assert (D : updateHouseMemberRole u h r s =
              Ok (setRole r m,
                  set_houseMembers s
                    (map (fun x => if isTarget u h x then setRole r x else x)
                         (houseMembers s))))
    by (unfold updateHouseMemberRole; now rewrite F).
  destruct (target_split _ _ _ _ U F) as (l1 & l2 & E & Tm & H1 & H2).
  assert (K : forall s', houseMembers s' = l1 ++ setRole r m :: l2 ->
                (isOwnerOf h' m = true -> isOwnerOf h' (setRole r m) = false ->
                 2 <= countOwners s h') ->
                1 <= countOwners s' h').
  { intros s' Hs' Hm.
    assert (Cs : countOwners s h'
                 = owners h' l1 + ((if isOwnerOf h' m then 1 else 0) + owners h' l2))
      by (now rewrite countOwners_owners, E, owners_app, owners_cons).
    assert (Cs' : countOwners s' h'
                  = owners h' l1
                    + ((if isOwnerOf h' (setRole r m) then 1 else 0) + owners h' l2))
      by (now rewrite countOwners_owners, Hs', owners_app, owners_cons).
    rewrite Cs in *. rewrite Cs'.
    destruct (isOwnerOf h' m), (isOwnerOf h' (setRole r m));
      try specialize (Hm eq_refl eq_refl); lia. }
  assert (Hh : hm_houseId m = h).
  { apply isTarget_key in Tm. now inversion Tm. }
  assert (S : houseMembers (set_houseMembers s
                 (map (fun x => if isTarget u h x then setRole r x else x)
                      (houseMembers s))) = l1 ++ setRole r m :: l2).
  { simpl. rewrite E. now apply retarget. }
  destruct (Role_eqb (hm_role m) OWNER && negb (Role_eqb r OWNER)) eqn:G.
  - destruct (countOwners s h <=? 1)%nat eqn:L; [exact C |].
    rewrite D. unfold store_of. simpl fst. simpl snd. apply (K _ S).
    intros O _. apply Nat.leb_gt in L.
    unfold isOwnerOf in O. apply andb_true_iff in O. destruct O as [O _].
    apply String.eqb_eq in O. rewrite <- O, Hh. lia.
  - rewrite D. unfold store_of. simpl fst. simpl snd. apply (K _ S).
    intros O O'. exfalso.
    unfold isOwnerOf, setRole in *. simpl in O'.
    apply andb_true_iff in O. destruct O as [O1 O2].
    rewrite O1 in O'. simpl in O'. rewrite O2 in G. simpl in G.
    destruct r; simpl in *; congruence.
Qed.

Lemma sample_uniqueMembership : uniqueMembership Sample.store.
Proof.
  unfold uniqueMembership. vm_compute.
  repeat constructor; simpl; intuition congruence.
Qed.

Lemma sample_uniqueMemberIds : uniqueMemberIds Sample.store.
Proof.
  unfold uniqueMemberIds. vm_compute.
  repeat constructor; simpl; intuition congruence.
Qed.

Lemma sample_membersReferHouses : membersReferHouses Sample.store.
Proof.
  intros m I. apply idIn_In. simpl in I.
  destruct I as [<- | [<- | [<- | [<- | []]]]]; reflexivity.
Qed.

(** C2.  In a house whose only OWNER membership is [M], removing [M]'s user
    and demoting [M]'s user to MEMBER both fail with the unprocessable
    business-rule error and leave the store as it was; and no call of
    [removeMember] or [updateMemberRole], on any house, user and role,
    leaves a house that had an owner without one, whether the call goes
    through or is refused by the service or by the store (the delete of a
    membership that created a task). *)
Theorem last_owner_protected (s : Store) :
  uniqueMembership s ->
  (forall (houseId : Id) (M : HouseMember),
      In M (houseMembers s) ->
      hm_houseId M = houseId ->
      hm_role M = OWNER ->
      countOwners s houseId = 1 ->
      HouseService.removeMember houseId (hm_userId M) s
      = (Err (UnprocessableEntityError "Cannot remove the last owner of the house"), s,
         [houseMember_findUnique; houseMember_count])
      /\ HouseService.updateMemberRole houseId (hm_userId M) MEMBER s
         = (Err (UnprocessableEntityError "Cannot demote the last owner of the house"), s,
            [houseMember_findUnique; houseMember_count]))
  /\ (forall (h u h' : Id),
         1 <= countOwners s h' ->
         1 <= countOwners (store_of (HouseService.removeMember h u s)) h')
  /\ (forall (h u h' : Id) (r : Role),
         1 <= countOwners s h' ->
         1 <= countOwners (store_of (HouseService.updateMemberRole h u r s)) h').
Proof.
  intros U. split; [| split].
  - intros houseId M I Hh Hr Hc.
    pose proof (findMember_listed _ _ U I) as F. rewrite Hh in F.
    rewrite removeMember_run, updateMemberRole_run, F, Hr, Hc. simpl. auto.
  - intros h u h'. now apply removeMember_keeps_owner.
  - intros h u h' r. now apply updateMemberRole_keeps_owner.
Qed.

(** In the sample home Dad is the only owner: removing or demoting him is
    refused.  Kid, who created no task, is removed, and Dad remains. *)
Lemma last_owner_protected_witness :
  uniqueMembership Sample.store
  /\ HouseService.removeMember Sample.home Sample.userA Sample.store
     = (Err (UnprocessableEntityError "Cannot remove the last owner of the house"),
        Sample.store, [houseMember_findUnique; houseMember_count])
  /\ HouseService.updateMemberRole Sample.home Sample.userA MEMBER Sample.store
     = (Err (UnprocessableEntityError "Cannot demote the last owner of the house"),
        Sample.store, [houseMember_findUnique; houseMember_count])
  /\ result_of (HouseService.removeMember Sample.home Sample.userC Sample.store) = Ok true
  /\ map hm_id
         (houseMembers
            (store_of (HouseService.removeMember Sample.home Sample.userC Sample.store)))
     = [Sample.dadId; Sample.momId; Sample.guestId]
  /\ 1 <= countOwners
            (store_of (HouseService.removeMember Sample.home Sample.userC Sample.store))
            Sample.home.
Proof.
  pose proof (last_owner_protected _ sample_uniqueMembership) as [P [Q _]].
  split; [exact sample_uniqueMembership |].
  assert (I : In Sample.dad (houseMembers Sample.store)) by (simpl; auto).
  destruct (P Sample.home Sample.dad I eq_refl eq_refl eq_refl) as [P1 P2].
  split; [exact P1 | split; [exact P2 |]].
  split; [reflexivity |]. split; [reflexivity |].
  apply Q. vm_compute. lia.
Defined.

(** ** C10: a promotion never reads the owner count *)

Lemma set_houseMembers_same (s : Store) : set_houseMembers s (houseMembers s) = s.
Proof. now destruct s. Qed.

Lemma setRole_same (m : HouseMember) : setRole (hm_role m) m = m.
Proof. now destruct m. Qed.

(** C10.  For an existing target, [updateMemberRole] with newRole OWNER
    reads the target and writes the role without counting owners, and
    returns the membership with role OWNER; the count is read exactly when
    the target is an OWNER and the new role is not OWNER.  On a target that
    is already OWNER, the sole owner included, the returned membership and
    the store are unchanged. *)
Theorem promote_skips_owner_count (s : Store) (h u : Id) (m : HouseMember) :
  findMember s u h = Some m ->
  (exists s',
      HouseService.updateMemberRole h u OWNER s
      = (Ok (setRole OWNER m), s', [houseMember_findUnique; houseMember_update])
      /\ hm_role (setRole OWNER m) = OWNER
      /\ (hm_role m = OWNER -> setRole OWNER m = m /\ (uniqueMembership s -> s' = s)))
  /\ (forall r : Role,
         existsb (Call_eqb houseMember_count)
                 (calls_of (HouseService.updateMemberRole h u r s))
         = Role_eqb (hm_role m) OWNER && negb (Role_eqb r OWNER)).
Proof.
  intros F. split.
  - rewrite updateMemberRole_run, F. simpl Role_eqb. rewrite andb_false_r.
    unfold updateHouseMemberRole. rewrite F.
    eexists. split; [reflexivity |]. split; [reflexivity |].
    intros R. split.
    + rewrite <- R. apply setRole_same.
    + intros U.
      destruct (target_split _ _ _ _ U F) as (l1 & l2 & E & Tm & H1 & H2).
      rewrite E at 1. rewrite (retarget _ _ _ _ _ _ Tm H1 H2).
      rewrite <- R, setRole_same, <- E. apply set_houseMembers_same.
  - intros r. rewrite updateMemberRole_run, F.
    unfold updateHouseMemberRole. rewrite F.
    destruct (Role_eqb (hm_role m) OWNER && negb (Role_eqb r OWNER)).
    + destruct (countOwners s h <=? 1)%nat; reflexivity.
    + reflexivity.
Qed.

Lemma promote_skips_owner_count_witness :
  HouseService.updateMemberRole Sample.home Sample.userA OWNER Sample.store
  = (Ok Sample.dad, Sample.store, [houseMember_findUnique; houseMember_update])
  /\ countOwners Sample.store Sample.home = 1.
Proof.
  destruct (promote_skips_owner_count Sample.store Sample.home Sample.userA Sample.dad eq_refl)
    as [[s' [E [_ K]]] _].
  destruct (K eq_refl) as [_ S]. rewrite (S sample_uniqueMembership) in E.
  split; [exact E | reflexivity].
Defined.

(** ** C4: house creation *)

Lemma createHouse_run (hid mid uid : Id) (data : CreateHouseInput) (dn : string) (s : Store) :
  HouseService.createHouse hid mid uid data dn s =
  match insertHouse (mkHouse hid (chi_name data) (chi_description data)) s with
  | Err e => (Err e, s, [tx_begin; house_create; tx_rollback])
  | Ok (h, s1) =>
      match insertHouseMember (mkHouseMember mid dn OWNER uid (house_id h)) s1 with
      | Err e => (Err e, s, [tx_begin; house_create; houseMember_create; tx_rollback])
      | Ok (_, s2) => (Ok h, s2, [tx_begin; house_create; houseMember_create; tx_commit])
      end
  end.
Proof.
  unfold HouseService.createHouse. run_monad.
  destruct (insertHouse _ s) as [[h s1] | e]; [| reflexivity].
  destruct (insertHouseMember _ s1) as [[m s2] | e]; reflexivity.
Qed.

(** No membership refers to a house id that is not in use. *)
Lemma fresh_house_has_no_members (s : Store) (hid : Id) :
  membersReferHouses s ->
  ~ In hid (map house_id (houses s)) ->
  forallb (fun m => negb (String.eqb (hm_houseId m) hid)) (houseMembers s) = true.
Proof.
  intros R N. apply forallb_forall. intros m I.
  destruct (String.eqb_spec (hm_houseId m) hid) as [E | _]; [| reflexivity].
  exfalso. apply N. rewrite <- E. now apply R.
Qed.

Lemma existsb_none {A} (P Q : A -> bool) (l : list A) :
  forallb (fun y => negb (Q y)) l = true ->
  existsb (fun x => P x && Q x) l = false.
Proof.
  induction l as [| a l IH]; simpl; [reflexivity |].
  rewrite andb_true_iff. intros [Ha Hl].
  destruct (Q a); [discriminate |]. rewrite andb_false_r. simpl. auto.
Qed.

(** C4.  [createHouse] either commits both rows, the house and one
    membership of the actor with role OWNER and the given display name,
    after which that membership is the only membership of the new house, or
    it fails and leaves the store as it was: a house row never stays
    without its owner row.  It commits whenever the generated ids are fresh
    and the actor is a known user. *)
Theorem createHouse_atomic (hid mid uid : Id) (data : CreateHouseInput) (dn : string)
        (s : Store) :
  membersReferHouses s ->
  let house := mkHouse hid (chi_name data) (chi_description data) in
  let owner := mkHouseMember mid dn OWNER uid hid in
  let o := HouseService.createHouse hid mid uid data dn s in
  ((result_of o = Ok house
    /\ store_of o = set_houseMembers (set_houses s (houses s ++ [house]))
                                     (houseMembers s ++ [owner])
    /\ membersOfHouse (store_of o) hid = [owner]
    /\ countOwners (store_of o) hid = 1
    /\ calls_of o = [tx_begin; house_create; houseMember_create; tx_commit])
   \/ (exists e, result_of o = Err e /\ store_of o = s))
  /\ (~ In hid (map house_id (houses s)) ->
      ~ In mid (map hm_id (houseMembers s)) ->
      In uid (users s) ->
      result_of o = Ok house).
Proof.
  intros R house owner o. subst o.
  rewrite createHouse_run. unfold insertHouse. simpl.
  destruct (idIn hid (map house_id (houses s))) eqn:Fh.
  { split.
    - right. eexists. split; reflexivity.
    - intros N. apply idIn_In in Fh. contradiction. }
  apply idIn_false in Fh.
  pose proof (fresh_house_has_no_members s hid R Fh) as NoM.
  unfold insertHouseMember. simpl. fold house. fold owner.
  rewrite (existsb_none (fun x => String.eqb (hm_userId x) uid) _ _ NoM).
  rewrite (existsb_none (fun x => String.eqb (hm_displayName x) dn) _ _ NoM).
  assert (Hin : idIn hid (map house_id (houses s ++ [house])) = true).
  { apply idIn_In. rewrite map_app. apply in_or_app. right. simpl. auto. }
  rewrite Hin. simpl.
  destruct (idIn mid (map hm_id (houseMembers s))) eqn:Fm.
  { split.
    - right. eexists. split; reflexivity.
    - intros _ N. apply idIn_In in Fm. contradiction. }
  destruct (idIn uid (users s)) eqn:Fu; simpl.
  - split.
    + left. unfold result_of, store_of, calls_of. simpl.
      assert (Ms : membersOfHouse
                     (set_houseMembers (set_houses s (houses s ++ [house]))
                                       (houseMembers s ++ [owner])) hid = [owner]).
      { unfold membersOfHouse. simpl. rewrite filter_app.
        rewrite (filter_none _ _ NoM). simpl. now rewrite String.eqb_refl. }
      repeat split; try assumption.
      unfold countOwners. simpl. rewrite filter_app. simpl.
      unfold isOwnerOf at 2. simpl. rewrite String.eqb_refl. simpl.
      rewrite length_app. simpl.
      rewrite filter_none; [reflexivity |].
      apply forallb_forall. intros m I.
      rewrite forallb_forall in NoM. specialize (NoM m I).
      unfold isOwnerOf. destruct (hm_houseId m =? hid); [discriminate | reflexivity].
    + intros _ _ _. reflexivity.
  - split.
    + right. eexists. split; reflexivity.
    + intros _ _ N. apply idIn_false in Fu. contradiction.
Qed.

Lemma createHouse_atomic_witness :
  membersReferHouses Sample.store
  /\ result_of (HouseService.createHouse Sample.flat Sample.newMemberId Sample.userB
                  (mkCreateHouseInput "Flat" None) "Mum" Sample.store)
     = Ok (mkHouse Sample.flat "Flat" None)
  /\ (membersOfHouse
        (store_of (HouseService.createHouse Sample.flat Sample.newMemberId Sample.userB
                     (mkCreateHouseInput "Flat" None) "Mum" Sample.store)) Sample.flat
      = [mkHouseMember Sample.newMemberId "Mum" OWNER Sample.userB Sample.flat]
      \/ store_of (HouseService.createHouse Sample.flat Sample.newMemberId Sample.userB
                     (mkCreateHouseInput "Flat" None) "Mum" Sample.store)
         = Sample.store).
Proof.
  split; [exact sample_membersReferHouses |].
  destruct (createHouse_atomic Sample.flat Sample.newMemberId Sample.userB
              (mkCreateHouseInput "Flat" None) "Mum"
              Sample.store sample_membersReferHouses) as [D S].
  split.
  - apply S; vm_compute; intuition congruence.
  - destruct D as [(_ & _ & Ms & _) | (e & _ & St)]; [left; exact Ms | right; exact St].
Defined.

(** The owner row is refused (the actor is not a known user): the house row
    inserted before it is rolled back. *)
Example createHouse_rolls_back :
  HouseService.createHouse Sample.flat Sample.newMemberId Sample.userZ
                           (mkCreateHouseInput "Flat" None) "Mum"
                           Sample.store
  = (Err (StoreError "Foreign key constraint failed on house_members.userId"),
     Sample.store, [tx_begin; house_create; houseMember_create; tx_rollback]).
Proof. reflexivity. Qed.

(** ** TaskService: permission checks *)

Lemma getTaskById_run (taskId houseId : Id) (s : Store) :
  TaskService.getTaskById taskId houseId s =
  match findTaskInHouse s taskId houseId with
  | Some t => (Ok (viewTask s t), s, [task_findFirst])
  | None => (Err (NotFoundError "Task not found"), s, [task_findFirst])
  end.
Proof.
  unfold TaskService.getTaskById. run_monad.
  destruct (findTaskInHouse s taskId houseId); reflexivity.
Qed.

(** Who [canUserModifyTask] lets through: the creator and the assignees,
    whatever the role. *)
Lemma canUserModifyTask_iff (task : TaskView) (m : Id) :
  TaskService.canUserModifyTask task m = true
  <-> task_createdById (tv_task task) = m
      \/ In m (map ta_houseMemberId (tv_assignees task)).
Proof.
  unfold TaskService.canUserModifyTask.
  destruct (String.eqb_spec (task_createdById (tv_task task)) m) as [E | N].
  - split; auto.
  - destruct (existsb _ (tv_assignees task)) eqn:X.
    + split; [| reflexivity]. intros _. right.
      apply existsb_exists in X. destruct X as [a [Ia Ea]].
      apply String.eqb_eq in Ea. rewrite <- Ea. now apply in_map.
    + split; [discriminate |]. intros [E | I]; [contradiction |].
      apply in_map_iff in I. destruct I as [a [Ea Ia]].
      assert (existsb (fun assignment => ta_houseMemberId assignment =? m)
                      (tv_assignees task) = true).
      { apply existsb_exists. exists a. split; [assumption |].
        rewrite Ea. apply String.eqb_refl. }
      congruence.
Qed.

Section Refusals.

Variable parseDate : string -> Date.
Variables (s : Store) (taskId houseId M : Id) (T : Task).
Hypothesis found : findTaskInHouse s taskId houseId = Some T.
Hypothesis refused : TaskService.canUserModifyTask (viewTask s T) M = false.

Lemma updateTask_refused (data : UpdateTaskInput) :
  TaskService.updateTask parseDate taskId houseId M data s
  = (Err (ForbiddenError
            "Only task creator, assignees, or house owner can update this task"),
     s, [task_findFirst]).
Proof.
  unfold TaskService.updateTask, bind. rewrite getTaskById_run, found, refused.
  reflexivity.
Qed.

Lemma updateTaskStatus_refused (now : Date) (data : UpdateTaskStatusInput) :
  TaskService.updateTaskStatus now taskId houseId M data s
  = (Err (ForbiddenError
            "Only task creator, assignees, or house owner can update task status"),
     s, [task_findFirst]).
Proof.
  unfold TaskService.updateTaskStatus, bind. rewrite getTaskById_run, found, refused.
  reflexivity.
Qed.

Lemma updateTaskAssignees_refused (data : UpdateTaskAssigneesInput) :
  TaskService.updateTaskAssignees taskId houseId M data s
  = (Err (ForbiddenError
            "Only task creator, assignees, or house owner can update task assignees"),
     s, [task_findFirst]).
Proof.
  unfold TaskService.updateTaskAssignees, bind. rewrite getTaskById_run, found, refused.
  reflexivity.
Qed.

End Refusals.

(** C1.  The three task-modification methods let the creator and the
    assignees through and nobody else: the owner of the sample house, who
    neither created the sample task nor is assigned to it, is refused by
    each of them with Forbidden, while its creator and its assignee pass
    the check. *)
Theorem owner_cannot_modify_task :
  findMemberById Sample.store Sample.dadId = Some Sample.dad
  /\ hm_role Sample.dad = OWNER
  /\ TaskService.canUserModifyTask (viewTask Sample.store Sample.chores) Sample.dadId = false
  /\ TaskService.canUserModifyTask (viewTask Sample.store Sample.chores) Sample.momId = true
  /\ TaskService.canUserModifyTask (viewTask Sample.store Sample.chores) Sample.kidId = true
  /\ TaskService.updateTask Sample.noDate Sample.choresId Sample.home Sample.dadId
       (mkUpdateTaskInput (Some "Dry up") None None None None) Sample.store
     = (Err (ForbiddenError
               "Only task creator, assignees, or house owner can update this task"),
        Sample.store, [task_findFirst])
  /\ TaskService.updateTaskStatus 7000%Z Sample.choresId Sample.home Sample.dadId
       (mkUpdateTaskStatusInput COMPLETED) Sample.store
     = (Err (ForbiddenError
               "Only task creator, assignees, or house owner can update task status"),
        Sample.store, [task_findFirst])
  /\ TaskService.updateTaskAssignees Sample.choresId Sample.home Sample.dadId
       (mkUpdateTaskAssigneesInput [Sample.dadId]) Sample.store
     = (Err (ForbiddenError
               "Only task creator, assignees, or house owner can update task assignees"),
        Sample.store, [task_findFirst]).
Proof. repeat split; reflexivity. Qed.

(** ** C3: deleting a task *)

Lemma deleteTask_run (taskId houseId M : Id) (s : Store) :
  TaskService.deleteTask taskId houseId M s =
  match findTaskInHouse s taskId houseId with
  | None => (Err (NotFoundError "Task not found"), s, [task_findFirst])
  | Some t =>
      if String.eqb (task_createdById t) M
         || match findMemberById s M with
            | Some m => Role_eqb (hm_role m) OWNER
            | None => false
            end
      then
        match deleteTaskRow taskId s with
        | Ok (_, s') => (Ok true, s', [task_findFirst; houseMember_findUnique; task_delete])
        | Err e => (Err e, s, [task_findFirst; houseMember_findUnique; task_delete])
        end
      else
        (Err (ForbiddenError "Only task creator or house owner can delete this task"), s,
         [task_findFirst; houseMember_findUnique])
  end.
Proof.
  unfold TaskService.deleteTask, bind at 1. rewrite getTaskById_run.
  destruct (findTaskInHouse s taskId houseId) as [t |]; [| reflexivity].
  run_monad.
  destruct ((task_createdById t =? M)
            || match findMemberById s M with
               | Some m => Role_eqb (hm_role m) OWNER
               | None => false
               end); simpl; [| reflexivity].
  destruct (deleteTaskRow taskId s) as [[[] s'] | e]; reflexivity.
Qed.

Lemma findTaskInHouse_findTask (s : Store) (taskId houseId : Id) (t : Task) :
  findTaskInHouse s taskId houseId = Some t ->
  exists t', findTask s taskId = Some t'.
Proof.
  unfold findTaskInHouse, findTask.
  induction (tasks s) as [| a l IH]; simpl; [discriminate |].
  destruct (task_id a =? taskId); simpl.
  - eauto.
  - auto.
Qed.

(** C3.  With the task in the house and the actor's membership [actor]
    stored under id [M]: [deleteTask] deletes exactly when [M] created the
    task or [actor] is an OWNER; otherwise, an assignee of the task
    included, it fails with Forbidden and leaves the store as it was. *)
Theorem deleteTask_creator_or_owner (s : Store) (taskId houseId M : Id)
        (T : Task) (actor : HouseMember) :
  findTaskInHouse s taskId houseId = Some T ->
  findMemberById s M = Some actor ->
  (task_createdById T = M \/ hm_role actor = OWNER ->
   exists s',
     TaskService.deleteTask taskId houseId M s
     = (Ok true, s', [task_findFirst; houseMember_findUnique; task_delete])
     /\ findTask s' taskId = None
     /\ assigneesOf s' taskId = [])
  /\ (~ (task_createdById T = M \/ hm_role actor = OWNER) ->
      TaskService.deleteTask taskId houseId M s
      = (Err (ForbiddenError "Only task creator or house owner can delete this task"), s,
         [task_findFirst; houseMember_findUnique]))
  /\ ((exists s', result_of (TaskService.deleteTask taskId houseId M s) = Ok true
                  /\ store_of (TaskService.deleteTask taskId houseId M s) = s')
      <-> task_createdById T = M \/ hm_role actor = OWNER)
  /\ (In M (map ta_houseMemberId (assigneesOf s taskId)) ->
      task_createdById T <> M ->
      hm_role actor = MEMBER ->
      TaskService.deleteTask taskId houseId M s
      = (Err (ForbiddenError "Only task creator or house owner can delete this task"), s,
         [task_findFirst; houseMember_findUnique])).
Proof.
  intros F A.
  assert (Dec : (task_createdById T =? M) || Role_eqb (hm_role actor) OWNER = true
                <-> task_createdById T = M \/ hm_role actor = OWNER).
  { rewrite orb_true_iff, String.eqb_eq, Role_eqb_eq. reflexivity. }
  assert (Yes : task_createdById T = M \/ hm_role actor = OWNER ->
                exists s',
                  TaskService.deleteTask taskId houseId M s
                  = (Ok true, s', [task_findFirst; houseMember_findUnique; task_delete])
                  /\ findTask s' taskId = None
                  /\ assigneesOf s' taskId = []).
  { intros C. apply Dec in C. rewrite deleteTask_run, F, A, C.
    destruct (findTaskInHouse_findTask _ _ _ _ F) as [t' Ft].
    unfold deleteTaskRow. rewrite Ft. eexists. split; [reflexivity |]. split.
    - unfold findTask. simpl.
      destruct (find _ (filter _ (tasks s))) as [x |] eqn:X; [| reflexivity].
      apply find_some in X. destruct X as [X1 X2].
      apply filter_In in X1. destruct X1 as [_ X1]. rewrite X2 in X1. discriminate.
    - unfold assigneesOf. simpl.
      apply filter_none. apply forallb_forall. intros a Ia.
      apply filter_In in Ia. destruct Ia as [_ Ia]. exact Ia. }
  assert (No : ~ (task_createdById T = M \/ hm_role actor = OWNER) ->
               TaskService.deleteTask taskId houseId M s
               = (Err (ForbiddenError
                         "Only task creator or house owner can delete this task"), s,
                  [task_findFirst; houseMember_findUnique])).
  { intros C. rewrite deleteTask_run, F, A.
    destruct ((task_createdById T =? M) || Role_eqb (hm_role actor) OWNER) eqn:B;
      [| reflexivity].
    exfalso. apply C. now apply Dec. }
  split; [exact Yes |]. split; [exact No |]. split.
  - split.
    + intros [s' [Hr _]].
      destruct ((task_createdById T =? M) || Role_eqb (hm_role actor) OWNER) eqn:B.
      * now apply Dec.
      * assert (C : ~ (task_createdById T = M \/ hm_role actor = OWNER)).
        { intros C. apply Dec in C. congruence. }
        rewrite (No C) in Hr. discriminate.
    + intros C. destruct (Yes C) as [s' [E _]]. exists s'. rewrite E. auto.
  - intros _ NC RM. apply No. intros [C | C]; [contradiction | congruence].
Qed.

Lemma deleteTask_creator_or_owner_witness :
  TaskService.deleteTask Sample.choresId Sample.home Sample.kidId Sample.store
  = (Err (ForbiddenError "Only task creator or house owner can delete this task"),
     Sample.store, [task_findFirst; houseMember_findUnique])
  /\ exists s',
       TaskService.deleteTask Sample.choresId Sample.home Sample.dadId Sample.store
       = (Ok true, s', [task_findFirst; houseMember_findUnique; task_delete])
       /\ findTask s' Sample.choresId = None.
Proof.
  split.
  - destruct (deleteTask_creator_or_owner Sample.store Sample.choresId Sample.home Sample.kidId
                Sample.chores Sample.kid eq_refl eq_refl) as (_ & _ & _ & A).
    apply A; [simpl; auto | discriminate | reflexivity].
  - destruct (deleteTask_creator_or_owner Sample.store Sample.choresId Sample.home Sample.dadId
                Sample.chores Sample.dad eq_refl eq_refl) as (Y & _).
    destruct (Y (or_intror eq_refl)) as [s' [E [N _]]].
    exists s'. split; assumption.
Defined.

(** ** TaskService: what a status update computes *)

Lemma find_map_keep {A} (P : A -> bool) (f : A -> A) (l : list A) :
  (forall x, P (f x) = P x) ->
  find P (map f l) = option_map f (find P l).
Proof.
  intros K. induction l as [| a l IH]; simpl; [reflexivity |].
  rewrite K. destruct (P a); [reflexivity | exact IH].
Qed.

Lemma findTaskInHouse_patched (s : Store) (taskId houseId : Id) (p : TaskPatch) (T : Task) :
  findTaskInHouse s taskId houseId = Some T ->
  findTaskInHouse
    (set_tasks s (map (fun x => if task_id x =? taskId then applyPatch p x else x) (tasks s)))
    taskId houseId
  = Some (applyPatch p T).
Proof.
  unfold findTaskInHouse. simpl. intros F.
  rewrite find_map_keep.
  - rewrite F. simpl.
    apply find_some in F. destruct F as [_ F].
    apply andb_true_iff in F. destruct F as [F _]. now rewrite F.
  - intros x. destruct (task_id x =? taskId) eqn:B; simpl; rewrite ?B; reflexivity.
Qed.

Lemma updateTaskStatus_ok (now : Date) (s : Store) (taskId houseId M : Id)
      (T : Task) (st : TaskStatus) :
  findTaskInHouse s taskId houseId = Some T ->
  TaskService.canUserModifyTask (viewTask s T) M = true ->
  let p := mkTaskPatch None None (Some st) None None
             (match st with COMPLETED => Some (Some now) | PENDING => Some None end)
             None in
  let s' := set_tasks s (map (fun x => if task_id x =? taskId then applyPatch p x else x)
                             (tasks s)) in
  exists t0,
    findTask s taskId = Some t0
    /\ TaskService.updateTaskStatus now taskId houseId M (mkUpdateTaskStatusInput st) s
       = (Ok (viewTask s' (applyPatch p t0)), s', [task_findFirst; task_update])
    /\ findTaskInHouse s' taskId houseId = Some (applyPatch p T)
    /\ TaskService.canUserModifyTask (viewTask s' (applyPatch p T)) M = true.
Proof.
  intros F C p s'.
  destruct (findTaskInHouse_findTask _ _ _ _ F) as [t0 Ft].
  exists t0. split; [exact Ft |]. split; [| split].
  - unfold TaskService.updateTaskStatus, bind at 1.
    rewrite getTaskById_run, F, C.
    unfold bind, command, ret, TaskService.updateTaskRowView, updateTaskRow.
    simpl. rewrite Ft.
    destruct st; reflexivity.
  - now apply findTaskInHouse_patched.
  - exact C.
Qed.

(** ** C6 and C7: assignee validation *)

Lemma checkAssignees_run (houseId : Id) (ids : list string) (s : Store) :
  TaskService.checkAssignees houseId ids s =
  if (length (findMembersIn s ids houseId) =? length ids)%nat
  then (Ok tt, s, [houseMember_findMany])
  else (Err (UnprocessableEntityError "Some assignees are not members of this house"), s,
        [houseMember_findMany]).
Proof.
  unfold TaskService.checkAssignees. run_monad.
  destruct (length (findMembersIn s ids houseId) =? length ids)%nat; reflexivity.
Qed.

Lemma checkCategory_reads (houseId c : Id) (s : Store) :
  exists r t, TaskService.checkCategory houseId c s = (r, s, t).
Proof.
  unfold TaskService.checkCategory. run_monad.
  destruct (findCategory s c) as [k |]; [| eauto].
  destruct (negb (cat_houseId k =? houseId)); eauto.
Qed.

Lemma NoDup_map_filter {A B} (f : A -> B) (P : A -> bool) (l : list A) :
  NoDup (map f l) -> NoDup (map f (filter P l)).
Proof.
  induction l as [| a l IH]; simpl; [auto |].
  intros N. inversion N as [| ? ? Ha Nl]; subst.
  destruct (P a); simpl; [| auto].
  constructor; [| auto].
  intros I. apply Ha. apply in_map_iff in I. destruct I as [x [Ex Ix]].
  apply filter_In in Ix. destruct Ix as [Ix _].
  rewrite <- Ex. now apply in_map.
Qed.

(** An id of the list that no membership of the house carries makes the
    lookup come back short. *)
Lemma foreign_assignee_short (s : Store) (houseId : Id) (ids : list string) (bad : Id) :
  uniqueMemberIds s ->
  In bad ids ->
  (forall m, In m (houseMembers s) -> hm_id m = bad -> hm_houseId m <> houseId) ->
  length (findMembersIn s ids houseId) < length ids.
Proof.
  intros U I B. unfold findMembersIn.
  set (valid := filter _ (houseMembers s)).
  assert (N : NoDup (map hm_id valid)) by (apply NoDup_map_filter; exact U).
  assert (Inc : incl (map hm_id valid) (remove string_dec bad ids)).
  { intros x Hx. apply in_map_iff in Hx. destruct Hx as [m [Em Im]].
    apply filter_In in Im. destruct Im as [Im Pm].
    apply andb_true_iff in Pm. destruct Pm as [P1 P2].
    apply idIn_In in P1. apply String.eqb_eq in P2.
    apply in_in_remove.
    - intros E. apply (B m Im); congruence.
    - now rewrite <- Em. }
  pose proof (NoDup_incl_length N Inc) as L1.
  pose proof (remove_length_lt string_dec ids bad I) as L2.
  rewrite length_map in L1. unfold Id in *. lia.
Qed.

(** Distinct ids that all resolve to memberships of the house come back in
    full. *)
Lemma resolved_assignees_full (s : Store) (houseId : Id) (ids : list string) :
  uniqueMemberIds s ->
  NoDup ids ->
  (forall id, In id ids ->
              exists m, In m (houseMembers s) /\ hm_id m = id /\ hm_houseId m = houseId) ->
  length (findMembersIn s ids houseId) = length ids.
Proof.
  intros U N R. unfold findMembersIn.
  set (valid := filter _ (houseMembers s)).
  assert (Nv : NoDup (map hm_id valid)) by (apply NoDup_map_filter; exact U).
  assert (I1 : incl (map hm_id valid) ids).
  { intros x Hx. apply in_map_iff in Hx. destruct Hx as [m [Em Im]].
    apply filter_In in Im. destruct Im as [_ Pm].
    apply andb_true_iff in Pm. destruct Pm as [P1 _].
    apply idIn_In in P1. now rewrite <- Em. }
  assert (I2 : incl ids (map hm_id valid)).
  { intros x Hx. destruct (R x Hx) as (m & Im & Em & Hm).
    apply in_map_iff. exists m. split; [assumption |].
    apply filter_In. split; [assumption |].
    apply andb_true_iff. split.
    - apply idIn_In. now rewrite Em.
    - rewrite Hm. apply String.eqb_refl. }
  pose proof (NoDup_incl_length Nv I1) as L1.
  pose proof (NoDup_incl_length N I2) as L2.
  rewrite length_map in *. unfold Id in *. lia.
Qed.

(** [createTask] fails only with the store as it was. *)
Lemma createTask_all_or_nothing (parseDate : string -> Date) (newTaskId : Id) (now : Date)
      (houseId createdById : Id) (data : CreateTaskInput) (s : Store) (e : AppError) :
  result_of (TaskService.createTask parseDate newTaskId now houseId createdById data s)
  = Err e ->
  store_of (TaskService.createTask parseDate newTaskId now houseId createdById data s) = s.
Proof.
  remember (TaskService.createTask parseDate newTaskId now houseId createdById data s)
    as o eqn:Eo.
  unfold TaskService.createTask in Eo.
  unfold bind at 1 in Eo.
  assert (P1 : exists r t,
             (match cti_assigneeIds data with
              | Some ids => if (0 <? length ids)%nat
                            then TaskService.checkAssignees houseId ids else ret tt
              | None => ret tt
              end) s = (r, s, t)).
  { destruct (cti_assigneeIds data) as [ids |]; [| unfold ret; eauto].
    destruct (0 <? length ids)%nat; [| unfold ret; eauto].
    rewrite checkAssignees_run.
    destruct (length (findMembersIn s ids houseId) =? length ids)%nat; eauto. }
  destruct P1 as (r1 & t1 & E1). rewrite E1 in Eo. clear E1.
  destruct r1 as [[] | e1]; [| now subst o].
  unfold bind at 1 in Eo.
  assert (P2 : exists r t,
             (match cti_categoryId data with
              | Some c => if truthy (Some c)
                          then TaskService.checkCategory houseId c else ret tt
              | None => ret tt
              end) s = (r, s, t)).
  { destruct (cti_categoryId data) as [c |]; [| unfold ret; eauto].
    destruct (truthy (Some c)); [apply checkCategory_reads | unfold ret; eauto]. }
  destruct P2 as (r2 & t2 & E2). rewrite E2 in Eo. clear E2.
  destruct r2 as [[] | e2]; [| now subst o].
  unfold bind at 1, transaction in Eo.
  match type of Eo with
  | context [match ?b s with _ => _ end] => destruct (b s) as [[[v | e3] s3] t3]
  end.
  - subst o. unfold ret, result_of. simpl. discriminate.
  - now subst o.
Qed.

(** C6.  When one of the requested assignee ids is not the id of a
    membership of the target house, [createTask] fails with the
    unprocessable business-rule error after a single read and before any
    write, with the store unchanged; and whenever [createTask] fails, at
    the checks or inside its transaction, no task row and no assignment row
    remains. *)
Theorem createTask_rejects_foreign_assignee (parseDate : string -> Date)
        (newTaskId : Id) (now : Date) (houseId createdById : Id)
        (data : CreateTaskInput) (s : Store) (ids : list string) (bad : Id) :
  uniqueMemberIds s ->
  cti_assigneeIds data = Some ids ->
  In bad ids ->
  (forall m, In m (houseMembers s) -> hm_id m = bad -> hm_houseId m <> houseId) ->
  TaskService.createTask parseDate newTaskId now houseId createdById data s
  = (Err (UnprocessableEntityError "Some assignees are not members of this house"), s,
     [houseMember_findMany])
  /\ forallb (fun c => negb (mutating c))
             (calls_of (TaskService.createTask parseDate newTaskId now houseId
                          createdById data s)) = true
  /\ (forall (data' : CreateTaskInput) (e : AppError),
         result_of (TaskService.createTask parseDate newTaskId now houseId
                      createdById data' s) = Err e ->
         store_of (TaskService.createTask parseDate newTaskId now houseId
                     createdById data' s) = s).
Proof.
  intros U D I B.
  pose proof (foreign_assignee_short s houseId ids bad U I B) as L.
  assert (Run : TaskService.createTask parseDate newTaskId now houseId createdById data s
                = (Err (UnprocessableEntityError
                          "Some assignees are not members of this house"), s,
                   [houseMember_findMany])).
  { unfold TaskService.createTask. unfold bind at 1. rewrite D.
    assert (Z : (0 <? length ids)%nat = true) by (apply Nat.ltb_lt; lia).
    rewrite Z, checkAssignees_run.
    assert (Ne : (length (findMembersIn s ids houseId) =? length ids)%nat = false)
      by (apply Nat.eqb_neq; lia).
    now rewrite Ne. }
  split; [exact Run |]. split.
  - rewrite Run. reflexivity.
  - intros data' e. apply createTask_all_or_nothing.
Qed.

Lemma createTask_rejects_foreign_assignee_witness :
  TaskService.createTask Sample.noDate Sample.mowId 2000%Z Sample.home Sample.dadId
    (mkCreateTaskInput "Mow" None LOW None None (Some [Sample.kidId; Sample.guestId])) Sample.store
  = (Err (UnprocessableEntityError "Some assignees are not members of this house"),
     Sample.store, [houseMember_findMany]).
Proof.
  apply (createTask_rejects_foreign_assignee Sample.noDate Sample.mowId 2000%Z
           Sample.home Sample.dadId
           (mkCreateTaskInput "Mow" None LOW None None (Some [Sample.kidId; Sample.guestId]))
           Sample.store [Sample.kidId; Sample.guestId] Sample.guestId
           sample_uniqueMemberIds eq_refl).
  - simpl. auto.
  - intros m. simpl.
    intros [<- | [<- | [<- | [<- | []]]]]; simpl; intros E; discriminate.
Defined.

(** A task row whose assignment rows are refused does not stay: here the
    second check is passed by an empty category id, which the store then
    refuses. *)
Example createTask_rolls_back :
  TaskService.createTask Sample.noDate Sample.mowId 2000%Z Sample.home Sample.dadId
    (mkCreateTaskInput "Mow" None LOW None (Some "") (Some [Sample.kidId])) Sample.store
  = (Err (StoreError "Foreign key constraint failed on tasks.categoryId"),
     Sample.store, [houseMember_findMany; tx_begin; task_create; tx_rollback]).
Proof. reflexivity. Qed.

Lemma distinct_rows (taskId : Id) (ids : list string) :
  NoDup ids -> distinctb (TaskService.assignmentRows taskId ids) = true.
Proof.
  induction ids as [| a l IH]; simpl; [reflexivity |].
  intros N. inversion N as [| ? ? Ha Nl]; subst.
  rewrite (IH Nl), andb_true_r. apply negb_true_iff.
  destruct (existsb _ (TaskService.assignmentRows taskId l)) eqn:X; [| reflexivity].
  exfalso. apply Ha.
  apply existsb_exists in X. destruct X as [r [Ir Er]].
  apply in_map_iff in Ir. destruct Ir as [x [Ex Ix]]. subst r.
  unfold TaskAssignee_eqb in Er. simpl in Er.
  apply andb_true_iff in Er. destruct Er as [_ Er].
  apply String.eqb_eq in Er. now rewrite Er.
Qed.

Lemma insertTaskAssignees_ok (s : Store) (taskId : Id) (ids : list string) :
  In taskId (map task_id (tasks s)) ->
  (forall id, In id ids -> In id (map hm_id (houseMembers s))) ->
  NoDup ids ->
  (forall a, In a (taskAssignees s) -> ta_taskId a <> taskId) ->
  insertTaskAssignees (TaskService.assignmentRows taskId ids) s
  = Ok (length (TaskService.assignmentRows taskId ids),
        set_taskAssignees s (taskAssignees s ++ TaskService.assignmentRows taskId ids)).
Proof.
  intros Ht Hm N Free. unfold insertTaskAssignees.
  assert (A1 : forallb (fun a => idIn (ta_taskId a) (map task_id (tasks s)))
                       (TaskService.assignmentRows taskId ids) = true).
  { apply forallb_forall. intros a Ia.
    apply in_map_iff in Ia. destruct Ia as [x [Ex _]]. subst a. simpl.
    now apply idIn_In. }
  assert (A2 : forallb (fun a => idIn (ta_houseMemberId a) (map hm_id (houseMembers s)))
                       (TaskService.assignmentRows taskId ids) = true).
  { apply forallb_forall. intros a Ia.
    apply in_map_iff in Ia. destruct Ia as [x [Ex Ix]]. subst a. simpl.
    apply idIn_In. now apply Hm. }
  assert (A3 : existsb (fun a => existsb (TaskAssignee_eqb a) (taskAssignees s))
                       (TaskService.assignmentRows taskId ids) = false).
  { destruct (existsb _ (TaskService.assignmentRows taskId ids)) eqn:X; [| reflexivity].
    exfalso. apply existsb_exists in X. destruct X as [a [Ia Ea]].
    apply existsb_exists in Ea. destruct Ea as [b [Ib Eb]].
    apply in_map_iff in Ia. destruct Ia as [x [Ex _]]. subst a.
    unfold TaskAssignee_eqb in Eb. simpl in Eb.
    apply andb_true_iff in Eb. destruct Eb as [Eb _].
    apply String.eqb_eq in Eb. now apply (Free b Ib). }
  rewrite A1, A2, A3, (distinct_rows taskId ids N). reflexivity.
Qed.

Lemma findTask_listed (s : Store) (taskId : Id) (t : Task) :
  findTask s taskId = Some t -> In taskId (map task_id (tasks s)).
Proof.
  unfold findTask. intros F. apply find_some in F. destruct F as [I E].
  apply String.eqb_eq in E. rewrite <- E. now apply in_map.
Qed.

Lemma rows_of_task (taskId : Id) (ids : list string) :
  filter (fun a => ta_taskId a =? taskId) (TaskService.assignmentRows taskId ids)
  = TaskService.assignmentRows taskId ids
  /\ map ta_houseMemberId (TaskService.assignmentRows taskId ids) = ids.
Proof.
  split.
  - apply filter_all. apply forallb_forall. intros a Ia.
    apply in_map_iff in Ia. destruct Ia as [x [Ex _]]. subst a. simpl.
    apply String.eqb_refl.
  - unfold TaskService.assignmentRows. rewrite map_map. simpl. apply map_id.
Qed.

Lemma filter_filter_neg {A} (P : A -> bool) (l : list A) :
  filter P (filter (fun a => negb (P a)) l) = []
  /\ filter (fun a => negb (P a)) (filter (fun a => negb (P a)) l)
     = filter (fun a => negb (P a)) l.
Proof.
  induction l as [| a l [IH1 IH2]]; simpl; [auto |].
  destruct (P a) eqn:Pa; simpl; [auto |].
  rewrite Pa. simpl. rewrite IH1, IH2. auto.
Qed.

(** The accepted replacement: the store after it. *)
Lemma updateTaskAssignees_ok (s : Store) (taskId houseId M : Id) (T : Task)
      (ids : list string) :
  findTaskInHouse s taskId houseId = Some T ->
  TaskService.canUserModifyTask (viewTask s T) M = true ->
  uniqueMemberIds s ->
  NoDup ids ->
  (forall id, In id ids ->
              exists m, In m (houseMembers s) /\ hm_id m = id /\ hm_houseId m = houseId) ->
  let s' := set_taskAssignees s
              (filter (fun a => negb (ta_taskId a =? taskId)) (taskAssignees s)
               ++ TaskService.assignmentRows taskId ids) in
  exists t0 calls,
    findTask s taskId = Some t0
    /\ TaskService.updateTaskAssignees taskId houseId M (mkUpdateTaskAssigneesInput ids) s
       = (Ok (Some (viewTask s' t0)), s', calls)
    /\ assigneesOf s' taskId = TaskService.assignmentRows taskId ids.
Proof.
  intros F C U N R s'.
  destruct (findTaskInHouse_findTask _ _ _ _ F) as [t0 Ft].
  assert (As : assigneesOf s' taskId = TaskService.assignmentRows taskId ids).
  { unfold assigneesOf, s'. simpl. rewrite filter_app.
    rewrite (proj1 (filter_filter_neg (fun a => ta_taskId a =? taskId) _)).
    simpl. apply rows_of_task. }
  exists t0.
  assert (Start : forall out,
             (((if (0 <? length ids)%nat
                then TaskService.checkAssignees houseId ids else ret tt) ;;;
               updatedTask <- transaction (
                 command taskAssignee_deleteMany (deleteTaskAssignees taskId) ;;;
                 (if (0 <? length ids)%nat
                  then command taskAssignee_createMany
                         (insertTaskAssignees (TaskService.assignmentRows taskId ids)) ;;;
                       ret tt
                  else ret tt) ;;;
                 TaskService.findTaskView taskId) ;;
               ret updatedTask) s = out) ->
             TaskService.updateTaskAssignees taskId houseId M
               (mkUpdateTaskAssigneesInput ids) s
             = (fst (fst out), snd (fst out), [task_findFirst] ++ snd out)).
  { intros out <-. unfold TaskService.updateTaskAssignees, bind at 1.
    rewrite getTaskById_run, F, C.
    change (negb true) with false. cbn [utai_assigneeIds]. cbv beta iota zeta.
    match goal with |- context [?m s] => destruct (m s) as [[r s2] t2] end.
    reflexivity. }
  destruct ids as [| i ids'].
  - eexists. split; [exact Ft |]. split; [| exact As].
    erewrite Start; [| reflexivity].
    unfold s'. simpl. rewrite app_nil_r.
    run_monad. unfold TaskService.findTaskView, query, findTask. simpl.
    unfold findTask in Ft. rewrite Ft. reflexivity.
  - set (ids := i :: ids') in *.
    assert (Run :
      ((if (0 <? length ids)%nat
        then TaskService.checkAssignees houseId ids else ret tt) ;;;
       updatedTask <- transaction (
         command taskAssignee_deleteMany (deleteTaskAssignees taskId) ;;;
         (if (0 <? length ids)%nat
          then command taskAssignee_createMany
                 (insertTaskAssignees (TaskService.assignmentRows taskId ids)) ;;;
               ret tt
          else ret tt) ;;;
         TaskService.findTaskView taskId) ;;
       ret updatedTask) s
      = (Ok (Some (viewTask s' t0)), s',
         [houseMember_findMany; tx_begin; taskAssignee_deleteMany;
          taskAssignee_createMany; task_findUnique; tx_commit])).
    { assert (Z : (0 <? length ids)%nat = true) by reflexivity.
      rewrite Z.
      unfold bind at 1. rewrite checkAssignees_run.
      rewrite (resolved_assignees_full s houseId ids U N R), Nat.eqb_refl.
      unfold bind at 1, transaction, bind at 1, command at 1, deleteTaskAssignees.
      unfold bind at 1, bind at 1, command at 1.
      rewrite insertTaskAssignees_ok.
      + unfold ret, TaskService.findTaskView, query, findTask. simpl.
        unfold findTask in Ft. rewrite Ft. reflexivity.
      + simpl. now apply findTask_listed with t0.
      + simpl. intros id Hid. destruct (R id Hid) as (m & Im & Em & _).
        rewrite <- Em. now apply in_map.
      + exact N.
      + simpl. intros a Ia. apply filter_In in Ia. destruct Ia as [_ Ia].
        apply negb_true_iff in Ia. now apply String.eqb_neq. }
    eexists. split; [exact Ft |]. split; [| exact As].
    rewrite (Start _ Run). reflexivity.
Qed.

(** [updateTaskAssignees] fails only with the store as it was. *)
Lemma updateTaskAssignees_all_or_nothing (taskId houseId M : Id)
      (data : UpdateTaskAssigneesInput) (s : Store) (e : AppError) :
  result_of (TaskService.updateTaskAssignees taskId houseId M data s) = Err e ->
  store_of (TaskService.updateTaskAssignees taskId houseId M data s) = s.
Proof.
  remember (TaskService.updateTaskAssignees taskId houseId M data s) as o eqn:Eo.
  unfold TaskService.updateTaskAssignees, bind at 1 in Eo.
  rewrite getTaskById_run in Eo.
  destruct (findTaskInHouse s taskId houseId) as [t |]; [| now subst o].
  cbv beta iota zeta in Eo.
  destruct (negb (TaskService.canUserModifyTask (viewTask s t) M)); [now subst o |].
  unfold bind at 1 in Eo.
  assert (P1 : exists r c,
             (if (0 <? length (utai_assigneeIds data))%nat
              then TaskService.checkAssignees houseId (utai_assigneeIds data)
              else ret tt) s = (r, s, c)).
  { destruct (0 <? length (utai_assigneeIds data))%nat; [| unfold ret; eauto].
    rewrite checkAssignees_run.
    destruct (length (findMembersIn s (utai_assigneeIds data) houseId)
              =? length (utai_assigneeIds data))%nat; eauto. }
  destruct P1 as (r1 & c1 & E1). rewrite E1 in Eo. clear E1.
  destruct r1 as [[] | e1]; [| now subst o].
  unfold bind at 1, transaction in Eo.
  match type of Eo with
  | context [match ?b s with _ => _ end] => destruct (b s) as [[[v | e3] s3] t3]
  end.
  - subst o. unfold ret, result_of. simpl. discriminate.
  - now subst o.
Qed.

Section AssigneeCap.

Variable isUuid : string -> bool.

Lemma uuidSchema_outcome (msg : string) (j : option Json) :
  (exists x, Schema.uuidSchema isUuid msg j = Ok x)
  \/ (exists m, Schema.uuidSchema isUuid msg j = Err (ZodError m)).
Proof.
  unfold Schema.uuidSchema, Schema.zString.
  destruct j as [[| b | n | x | l] |]; eauto.
  destruct (isUuid x); eauto.
Qed.

Lemma parseEach_uuid (msg : string) (l : list Json) :
  (exists ids, Schema.parseEach (Schema.uuidSchema isUuid msg) l = Ok ids
               /\ length ids = length l)
  \/ (exists m, Schema.parseEach (Schema.uuidSchema isUuid msg) l = Err (ZodError m)).
Proof.
  induction l as [| j l IH]; cbn [Schema.parseEach].
  - left. exists []. auto.
  - destruct (uuidSchema_outcome msg (Some j)) as [[x ->] | [m ->]]; cbn [rbind].
    + destruct IH as [(ids & -> & L) | (m & ->)]; cbn [rbind].
      * left. exists (x :: ids). simpl. auto.
      * right. eauto.
    + right. eauto.
Qed.

(** More than ten entries never pass [updateTaskAssigneesSchema]. *)
Lemma assignees_over_cap (body : JObject) (l : list Json) :
  field "assigneeIds" body = Some (JArr l) ->
  10 < length l ->
  exists m, Schema.updateTaskAssigneesSchema isUuid body = Err (ZodError m).
Proof.
  intros Fl Len. unfold Schema.updateTaskAssigneesSchema. rewrite Fl.
  unfold Schema.zDefault, Schema.assigneeIdsSchema, Schema.zOptional.
  destruct (parseEach_uuid "Invalid assignee ID" l) as [(ids & -> & L) | (m & ->)]; simpl.
  - assert (Z : (10 <? length ids)%nat = true) by (apply Nat.ltb_lt; lia).
    rewrite Z. simpl. eauto.
  - eauto.
Qed.

Lemma controller_rejects_over_cap (req : Request) (s : Store) (l : list Json) :
  field "assigneeIds" (req_body req) = Some (JArr l) ->
  10 < length l ->
  exists m, TaskController.updateTaskAssignees isUuid req s = (Err (ZodError m), s, []).
Proof.
  intros Fl Len. unfold TaskController.updateTaskAssignees, bind at 1, parse.
  unfold Schema.houseIdParamSchema.
  destruct (uuidSchema_outcome "Invalid house ID format" (field "id" (req_params req)))
    as [[h ->] | [m ->]]; [| eauto].
  unfold bind at 1. unfold Schema.taskIdParamSchema.
  destruct (uuidSchema_outcome "Invalid task ID format" (field "taskId" (req_params req)))
    as [[t ->] | [m ->]]; [| eauto].
  unfold bind at 1.
  destruct (assignees_over_cap _ _ Fl Len) as [m ->]. eauto.
Qed.

End AssigneeCap.

(** C7.  For a task of the house and an actor that passes the modification
    check, [updateTaskAssignees] with a list of distinct ids of memberships
    of the house replaces the task's assignment rows by one row per listed
    id, in the order of the list, whatever rows the task had before, and
    leaves the rows of other tasks alone; the empty list leaves the task
    with no row; a failing call leaves all rows as they were; and a request
    body with more than ten assignee ids is rejected by the schema before
    the service is called. *)
Theorem updateTaskAssignees_full_replace (isUuid : string -> bool) (s : Store)
        (taskId houseId M : Id) (T : Task) :
  findTaskInHouse s taskId houseId = Some T ->
  TaskService.canUserModifyTask (viewTask s T) M = true ->
  uniqueMemberIds s ->
  (forall ids : list string,
      NoDup ids ->
      (forall id, In id ids ->
                  exists m, In m (houseMembers s) /\ hm_id m = id /\ hm_houseId m = houseId) ->
      exists v s' calls,
        TaskService.updateTaskAssignees taskId houseId M (mkUpdateTaskAssigneesInput ids) s
        = (Ok (Some v), s', calls)
        /\ map ta_houseMemberId (assigneesOf s' taskId) = ids
        /\ tv_assignees v = assigneesOf s' taskId
        /\ length (assigneesOf s' taskId) = length ids
        /\ (forall a, ta_taskId a <> taskId ->
                      (In a (taskAssignees s') <-> In a (taskAssignees s))))
  /\ (exists v s' calls,
         TaskService.updateTaskAssignees taskId houseId M (mkUpdateTaskAssigneesInput []) s
         = (Ok (Some v), s', calls)
         /\ assigneesOf s' taskId = []
         /\ tv_assignees v = [])
  /\ (forall (data : UpdateTaskAssigneesInput) (e : AppError),
         result_of (TaskService.updateTaskAssignees taskId houseId M data s) = Err e ->
         store_of (TaskService.updateTaskAssignees taskId houseId M data s) = s)
  /\ (forall (req : Request) (s0 : Store) (l : list Json),
         field "assigneeIds" (req_body req) = Some (JArr l) ->
         10 < length l ->
         exists m, TaskController.updateTaskAssignees isUuid req s0
                   = (Err (ZodError m), s0, [])).
Proof.
  intros F C U.
  assert (Main : forall ids : list string,
      NoDup ids ->
      (forall id, In id ids ->
                  exists m, In m (houseMembers s) /\ hm_id m = id /\ hm_houseId m = houseId) ->
      exists v s' calls,
        TaskService.updateTaskAssignees taskId houseId M (mkUpdateTaskAssigneesInput ids) s
        = (Ok (Some v), s', calls)
        /\ map ta_houseMemberId (assigneesOf s' taskId) = ids
        /\ tv_assignees v = assigneesOf s' taskId
        /\ length (assigneesOf s' taskId) = length ids
        /\ (forall a, ta_taskId a <> taskId ->
                      (In a (taskAssignees s') <-> In a (taskAssignees s)))).
  { intros ids N R.
    destruct (updateTaskAssignees_ok s taskId houseId M T ids F C U N R)
      as (t0 & calls & Ft & Run & As).
    eexists. eexists. exists calls. split; [exact Run |].
    assert (Tid : task_id t0 = taskId).
    { unfold findTask in Ft. apply find_some in Ft. now apply String.eqb_eq. }
    split; [rewrite As; apply rows_of_task |].
    split; [simpl; now rewrite Tid |].
    split.
    { rewrite As. unfold TaskService.assignmentRows. apply length_map. }
    intros a Na. simpl. rewrite in_app_iff, filter_In. split.
    - intros [[Ia _] | Ia]; [exact Ia |].
      apply in_map_iff in Ia. destruct Ia as [x [Ex _]]. subst a. now elim Na.
    - intros Ia. left. split; [exact Ia |].
      apply negb_true_iff. now apply String.eqb_neq. }
  split; [exact Main |]. split; [| split].
  - destruct (Main [] (NoDup_nil _)) as (v & s' & calls & Run & Ids & Tv & _).
    { intros id []. }
    exists v, s', calls. split; [exact Run |].
    apply map_eq_nil in Ids. split; [exact Ids | now rewrite Tv].
  - intros data e. apply updateTaskAssignees_all_or_nothing.
  - intros req s0 l. apply controller_rejects_over_cap.
Qed.

Lemma updateTaskAssignees_full_replace_witness :
  exists v s' calls,
    TaskService.updateTaskAssignees Sample.choresId Sample.home Sample.kidId
      (mkUpdateTaskAssigneesInput [Sample.dadId; Sample.momId]) Sample.store
    = (Ok (Some v), s', calls)
    /\ map ta_houseMemberId (assigneesOf s' Sample.choresId) = [Sample.dadId; Sample.momId].
Proof.
  destruct (updateTaskAssignees_full_replace Sample.isUuid Sample.store
              Sample.choresId Sample.home Sample.kidId Sample.chores eq_refl eq_refl
              sample_uniqueMemberIds)
    as [Main _].
  destruct (Main [Sample.dadId; Sample.momId]) as (v & s' & calls & Run & Ids & _).
  - vm_compute. repeat constructor; simpl; intuition congruence.
  - simpl. intros id [<- | [<- | []]].
    + exists Sample.dad. simpl. auto.
    + exists Sample.mom. simpl. auto.
  - exists v, s', calls. split; assumption.
Defined.

(** ** C8: partial update through the controller *)

Lemma zodOnly_rbind {A B} (r : Result A) (f : A -> Result B) :
  zodOnly r -> (forall a, zodOnly (f a)) -> zodOnly (rbind r f).
Proof. destruct r as [a | e]; simpl; auto. Qed.

Lemma zodOnly_zString {A} (k : string -> Result A) (j : option Json) :
  (forall x, zodOnly (k x)) -> zodOnly (Schema.zString k j).
Proof. intros K. destruct j as [[| b | n | x | l] |]; simpl; auto. Qed.

Lemma zodOnly_zOptional {A} (p : option Json -> Result A) (j : option Json) :
  (forall i, zodOnly (p i)) -> zodOnly (Schema.zOptional p j).
Proof.
  intros K. destruct j as [v |]; simpl; [| exact I].
  apply zodOnly_rbind; [apply K | intros a; exact I].
Qed.

Lemma zodOnly_inv {A} (r : Result A) (e : AppError) :
  zodOnly r -> r = Err e -> exists m, e = ZodError m.
Proof. intros Z ->. destruct e; simpl in Z; try contradiction. eauto. Qed.

(** What an accepted optional string field was in the body. *)
Lemma zOptional_zString_ok {A} (k : string -> Result A) (j : option Json) (o : option A) :
  Schema.zOptional (Schema.zString k) j = Ok o ->
  (j = None /\ o = None)
  \/ (exists x a, j = Some (JStr x) /\ k x = Ok a /\ o = Some a).
Proof.
  destruct j as [[| b | n | x | l] |]; simpl; try discriminate.
  - destruct (k x) as [a | e] eqn:K; simpl; [| discriminate].
    intros E. inversion E. right. eauto.
  - intros E. inversion E. auto.
Qed.

Section UpdateThroughController.

Variable isUuid : string -> bool.
Variable isDatetime : string -> bool.
Variable parseDate : string -> Date.

Lemma updateTaskSchema_zodOnly (now : Date) (body : JObject) :
  zodOnly (Schema.updateTaskSchema isUuid isDatetime parseDate now body).
Proof.
  unfold Schema.updateTaskSchema, Schema.taskDescriptionSchema, Schema.dueDateSchema,
    Schema.taskTitleSchema, Schema.taskPrioritySchema, Schema.uuidSchema.
  repeat (apply zodOnly_rbind; [| intros ?]);
    try (apply zodOnly_zOptional; intros ?; apply zodOnly_zString; intros x);
    try exact I.
  - destruct (jsLength x <? 1)%nat; [exact I |].
    destruct (100 <? jsLength x)%nat; exact I.
  - destruct (500 <? jsLength x)%nat; exact I.
  - destruct (x =? "LOW"); [exact I |].
    destruct (x =? "MEDIUM"); [exact I |].
    destruct (x =? "HIGH"); exact I.
  - destruct (negb (isDatetime x)); [exact I |].
    destruct (negb (now <? parseDate x)%Z); exact I.
  - destruct (isUuid x); exact I.
Qed.

(** The update schema has no place for null. *)
Lemma updateTaskSchema_rejects_null (now : Date) (body : JObject) :
  field "description" body = Some JNull
  \/ field "dueDate" body = Some JNull
  \/ field "categoryId" body = Some JNull ->
  exists m, Schema.updateTaskSchema isUuid isDatetime parseDate now body
            = Err (ZodError m).
Proof.
  intros H.
  assert (E : exists e, Schema.updateTaskSchema isUuid isDatetime parseDate now body
                        = Err e).
  { unfold Schema.updateTaskSchema.
    destruct (Schema.zOptional Schema.taskTitleSchema (field "title" body))
      as [t | e]; cbn [rbind]; [| eauto].
    destruct H as [H | H].
    { rewrite H. simpl. eauto. }
    destruct (Schema.taskDescriptionSchema (field "description" body))
      as [d | e]; cbn [rbind]; [| eauto].
    destruct (Schema.zOptional Schema.taskPrioritySchema (field "priority" body))
      as [pr | e]; cbn [rbind]; [| eauto].
    destruct H as [H | H].
    { rewrite H. simpl. eauto. }
    destruct (Schema.dueDateSchema isDatetime parseDate now (field "dueDate" body))
      as [dd | e]; cbn [rbind]; [| eauto].
    rewrite H. simpl. eauto. }
  destruct E as [e E].
  destruct (zodOnly_inv _ e (updateTaskSchema_zodOnly now body) E) as [m ->].
  eauto.
Qed.

(** An accepted body gives the service each field as it was sent: absent
    as undefined, a string as a string. *)
Lemma updateTaskSchema_fields (now : Date) (body : JObject) (data : UpdateTaskInput) :
  Schema.updateTaskSchema isUuid isDatetime parseDate now body = Ok data ->
  ((field "title" body = None /\ uti_title data = None)
   \/ (exists x, field "title" body = Some (JStr x) /\ uti_title data = Some (trim x)))
  /\ ((field "description" body = None /\ uti_description data = None)
      \/ (exists x, field "description" body = Some (JStr x)
                    /\ uti_description data = Some (trim x)))
  /\ ((field "priority" body = None /\ uti_priority data = None)
      \/ (exists x pr, field "priority" body = Some (JStr x)
                       /\ uti_priority data = Some pr
                       /\ ((x = "LOW" /\ pr = LOW) \/ (x = "MEDIUM" /\ pr = MEDIUM)
                           \/ (x = "HIGH" /\ pr = HIGH))))
  /\ ((field "dueDate" body = None /\ uti_dueDate data = None)
      \/ (exists x, field "dueDate" body = Some (JStr x)
                    /\ isDatetime x = true /\ uti_dueDate data = Some x))
  /\ ((field "categoryId" body = None /\ uti_categoryId data = None)
      \/ (exists x, field "categoryId" body = Some (JStr x)
                    /\ uti_categoryId data = Some x)).
Proof.
  unfold Schema.updateTaskSchema.
  destruct (Schema.zOptional Schema.taskTitleSchema (field "title" body))
    as [t | e] eqn:Et; cbn [rbind]; [| discriminate].
  destruct (Schema.taskDescriptionSchema (field "description" body))
    as [d | e] eqn:Ed; cbn [rbind]; [| discriminate].
  destruct (Schema.zOptional Schema.taskPrioritySchema (field "priority" body))
    as [pr | e] eqn:Ep; cbn [rbind]; [| discriminate].
  destruct (Schema.dueDateSchema isDatetime parseDate now (field "dueDate" body))
    as [dd | e] eqn:Edd; cbn [rbind]; [| discriminate].
  destruct (Schema.zOptional (Schema.uuidSchema isUuid "Invalid category ID")
                             (field "categoryId" body))
    as [c | e] eqn:Ec; cbn [rbind]; [| discriminate].
  intros E. inversion E. subst data. clear E. simpl.
  apply zOptional_zString_ok in Et, Ed, Ep, Edd, Ec.
  repeat split.
  - destruct Et as [[-> ->] | (x & a & -> & K & ->)]; [auto |]. right. exists x.
    split; [reflexivity |].
    destruct (jsLength x <? 1)%nat; [discriminate |].
    destruct (100 <? jsLength x)%nat; [discriminate |]. now inversion K.
  - destruct Ed as [[-> ->] | (x & a & -> & K & ->)]; [auto |]. right. exists x.
    split; [reflexivity |].
    destruct (500 <? jsLength x)%nat; [discriminate |]. now inversion K.
  - destruct Ep as [[-> ->] | (x & a & -> & K & ->)]; [auto |]. right.
    exists x, a. split; [reflexivity |]. split; [reflexivity |].
    destruct (String.eqb_spec x "LOW"); [inversion K; auto |].
    destruct (String.eqb_spec x "MEDIUM"); [inversion K; auto |].
    destruct (String.eqb_spec x "HIGH"); [inversion K; auto | discriminate].
  - destruct Edd as [[-> ->] | (x & a & -> & K & ->)]; [auto |]. right. exists x.
    split; [reflexivity |].
    destruct (isDatetime x); simpl in K; [| discriminate].
    destruct (negb (now <? parseDate x)%Z); [discriminate |].
    inversion K. auto.
  - destruct Ec as [[-> ->] | (x & a & -> & K & ->)]; [auto |]. right. exists x.
    split; [reflexivity |].
    destruct (isUuid x); [| discriminate]. now inversion K.
Qed.

(** A successful [updateTask] applies its data object to the rows of that
    id and touches nothing else. *)
Lemma updateTask_result (taskId houseId M : Id) (data : UpdateTaskInput)
      (s s' : Store) (v : TaskView) (calls : list Call) :
  TaskService.updateTask parseDate taskId houseId M data s = (Ok v, s', calls) ->
  s' = set_tasks s
         (map (fun x => if task_id x =? taskId
                        then applyPatch (TaskService.updateTaskData parseDate data) x
                        else x) (tasks s)).
Proof.
  unfold TaskService.updateTask, bind at 1. rewrite getTaskById_run.
  destruct (findTaskInHouse s taskId houseId) as [t |]; [| discriminate].
  cbv beta iota zeta.
  destruct (negb (TaskService.canUserModifyTask (viewTask s t) M)); [discriminate |].
  unfold bind at 1.
  assert (Pre : exists r c,
             (match uti_categoryId data with
              | Some c => if truthy (Some c)
                          then TaskService.checkCategory houseId c else ret tt
              | None => ret tt
              end) s = (r, s, c)).
  { destruct (uti_categoryId data) as [c |]; [| unfold ret; eauto].
    destruct (truthy (Some c)); [apply checkCategory_reads | unfold ret; eauto]. }
  destruct Pre as (r & c & ->).
  destruct r as [[] | e]; [| discriminate].
  unfold bind, command, ret, TaskService.updateTaskRowView, updateTaskRow.
  destruct (findTask s taskId) as [t1 |]; [| discriminate].
  match goal with
  | |- context [if ?b then Err _ else _] => destruct b
  end; [discriminate |].
  intros E. inversion E. reflexivity.
Qed.

End UpdateThroughController.

Section PartialUpdate.

Variable isUuid : string -> bool.
Variable isDatetime : string -> bool.
Variable parseDate : string -> Date.

(** The controller reaches the service only with an accepted body, for
    the task id of the path. *)
Lemma controller_updateTask_ok (now : Date) (req : Request) (s s' : Store)
      (v : TaskView) (calls : list Call) :
  TaskController.updateTask isUuid isDatetime parseDate now req s = (Ok v, s', calls) ->
  exists houseId taskId data calls',
    field "taskId" (req_params req) = Some (JStr taskId)
    /\ Schema.updateTaskSchema isUuid isDatetime parseDate now (req_body req) = Ok data
    /\ TaskService.updateTask parseDate taskId houseId (req_houseMemberId req) data s
       = (Ok v, s', calls').
Proof.
  unfold TaskController.updateTask, bind at 1, parse.
  destruct (Schema.houseIdParamSchema isUuid (req_params req)) as [h | e];
    [| discriminate].
  unfold bind at 1.
  destruct (Schema.taskIdParamSchema isUuid (req_params req)) as [t | e] eqn:Et;
    [| discriminate].
  unfold bind at 1.
  destruct (Schema.updateTaskSchema isUuid isDatetime parseDate now (req_body req))
    as [data | e]; [| discriminate].
  destruct (TaskService.updateTask parseDate t h (req_houseMemberId req) data s)
    as [[r s2] c2] eqn:Run.
  assert (Par : field "taskId" (req_params req) = Some (JStr t)).
  { unfold Schema.taskIdParamSchema, Schema.uuidSchema, Schema.zString in Et.
    destruct (field "taskId" (req_params req)) as [[| | | x |] |]; try discriminate.
    destruct (isUuid x); inversion Et. reflexivity. }
  simpl. intros E. inversion E. subst. eauto 10.
Qed.

Lemma controller_updateTask_rejects_null (now : Date) (req : Request) (s : Store) :
  field "description" (req_body req) = Some JNull
  \/ field "dueDate" (req_body req) = Some JNull
  \/ field "categoryId" (req_body req) = Some JNull ->
  exists m, TaskController.updateTask isUuid isDatetime parseDate now req s
            = (Err (ZodError m), s, []).
Proof.
  intros H. unfold TaskController.updateTask, bind at 1, parse.
  unfold Schema.houseIdParamSchema.
  destruct (uuidSchema_outcome isUuid "Invalid house ID format"
              (field "id" (req_params req))) as [[h ->] | [m ->]]; [| eauto].
  unfold bind at 1. unfold Schema.taskIdParamSchema.
  destruct (uuidSchema_outcome isUuid "Invalid task ID format"
              (field "taskId" (req_params req))) as [[t ->] | [m ->]]; [| eauto].
  unfold bind at 1.
  destruct (updateTaskSchema_rejects_null isUuid isDatetime parseDate now _ H) as [m ->].
  eauto.
Qed.

(** A call of the service that fails has written nothing. *)
Lemma updateTask_fails_clean (taskId houseId M : Id) (data : UpdateTaskInput)
      (s s' : Store) (e : AppError) (calls : list Call) :
  TaskService.updateTask parseDate taskId houseId M data s = (Err e, s', calls) ->
  s' = s.
Proof.
  unfold TaskService.updateTask, bind at 1. rewrite getTaskById_run.
  destruct (findTaskInHouse s taskId houseId) as [t |];
    [| intros E; now inversion E].
  cbv beta iota zeta.
  destruct (negb (TaskService.canUserModifyTask (viewTask s t) M));
    [intros E; now inversion E |].
  unfold bind at 1.
  assert (Pre : exists r c,
             (match uti_categoryId data with
              | Some c => if truthy (Some c)
                          then TaskService.checkCategory houseId c else ret tt
              | None => ret tt
              end) s = (r, s, c)).
  { destruct (uti_categoryId data) as [c |]; [| unfold ret; eauto].
    destruct (truthy (Some c)); [apply checkCategory_reads | unfold ret; eauto]. }
  destruct Pre as (r & c & ->).
  destruct r as [[] | e0]; [| intros E; now inversion E].
  unfold bind, command, ret.
  destruct (TaskService.updateTaskRowView taskId _ s) as [[v1 s1] | e1];
    intros E; now inversion E.
Qed.

Lemma controller_updateTask_fails_clean (now : Date) (req : Request) (s s' : Store)
      (e : AppError) (calls : list Call) :
  TaskController.updateTask isUuid isDatetime parseDate now req s = (Err e, s', calls) ->
  s' = s.
Proof.
  unfold TaskController.updateTask, bind at 1, parse.
  destruct (Schema.houseIdParamSchema isUuid (req_params req)) as [h | e0];
    [| intros E; now inversion E].
  unfold bind at 1.
  destruct (Schema.taskIdParamSchema isUuid (req_params req)) as [t | e0];
    [| intros E; now inversion E].
  unfold bind at 1.
  destruct (Schema.updateTaskSchema isUuid isDatetime parseDate now (req_body req))
    as [data | e0]; [| intros E; now inversion E].
  destruct (TaskService.updateTask parseDate t h (req_houseMemberId req) data s)
    as [[r s2] c2] eqn:Run.
  simpl. intros E. inversion E. subst.
  now apply updateTask_fails_clean in Run.
Qed.

(** The row that a successful [updateTask] returns is a row of the
    updated table, with the id asked for. *)
Lemma updateTask_returns_row (taskId houseId M : Id) (data : UpdateTaskInput)
      (s s' : Store) (v : TaskView) (calls : list Call) :
  TaskService.updateTask parseDate taskId houseId M data s = (Ok v, s', calls) ->
  In (tv_task v) (tasks s') /\ task_id (tv_task v) = taskId.
Proof.
  unfold TaskService.updateTask, bind at 1. rewrite getTaskById_run.
  destruct (findTaskInHouse s taskId houseId) as [t |]; [| discriminate].
  cbv beta iota zeta.
  destruct (negb (TaskService.canUserModifyTask (viewTask s t) M)); [discriminate |].
  unfold bind at 1.
  assert (Pre : exists r c,
             (match uti_categoryId data with
              | Some c => if truthy (Some c)
                          then TaskService.checkCategory houseId c else ret tt
              | None => ret tt
              end) s = (r, s, c)).
  { destruct (uti_categoryId data) as [c |]; [| unfold ret; eauto].
    destruct (truthy (Some c)); [apply checkCategory_reads | unfold ret; eauto]. }
  destruct Pre as (r & c & ->).
  destruct r as [[] | e]; [| discriminate].
  unfold bind, command, ret, TaskService.updateTaskRowView, updateTaskRow.
  destruct (findTask s taskId) as [t1 |] eqn:F1; [| discriminate].
  match goal with
  | |- context [if ?b then Err _ else _] => destruct b
  end; [discriminate |].
  intros E. inversion E. subst. clear E. simpl.
  unfold findTask in F1. apply find_some in F1. destruct F1 as [I1 E1].
  split.
  - apply in_map_iff. exists t1. rewrite E1. auto.
  - now apply String.eqb_eq.
Qed.

(** C8, as the code has it.  A request body that gives null for
    description, dueDate or categoryId is rejected by the update schema
    with a validation error, before any store call and with the store
    unchanged; and every request that fails, for whatever reason, leaves
    the store unchanged.  When a request succeeds, every table but tasks
    is unchanged, every task with another id than the one in the path is
    unchanged, and the row returned is the updated row.  A row with that
    id keeps its id, status, completedAt and creation data; each of title,
    description, priority, dueDate and categoryId whose key is absent from
    the body keeps its value; each one given in the body takes the value
    given: the trimmed title unless that is empty (the title then stays),
    the trimmed description, the priority named, the instant of the date
    string, the category id.  No description or categoryId (and, valid
    date strings being non-empty, no dueDate) that was set becomes null. *)
Theorem updateTask_partial_without_null (now : Date) (req : Request) (s : Store) :
  (field "description" (req_body req) = Some JNull
   \/ field "dueDate" (req_body req) = Some JNull
   \/ field "categoryId" (req_body req) = Some JNull ->
   exists m, TaskController.updateTask isUuid isDatetime parseDate now req s
             = (Err (ZodError m), s, []))
  /\ (forall (e : AppError) (s' : Store) (calls : list Call),
         TaskController.updateTask isUuid isDatetime parseDate now req s
         = (Err e, s', calls) ->
         s' = s)
  /\ (forall (v : TaskView) (s' : Store) (calls : list Call),
         TaskController.updateTask isUuid isDatetime parseDate now req s
         = (Ok v, s', calls) ->
         exists taskId : Id,
           field "taskId" (req_params req) = Some (JStr taskId)
           /\ In (tv_task v) (tasks s') /\ task_id (tv_task v) = taskId
           /\ users s' = users s /\ houses s' = houses s
           /\ houseMembers s' = houseMembers s
           /\ taskAssignees s' = taskAssignees s /\ categories s' = categories s
           /\ Forall2
                (fun t t' =>
                   (task_id t <> taskId -> t' = t)
                   /\ task_id t' = task_id t
                   /\ task_status t' = task_status t
                   /\ task_completedAt t' = task_completedAt t
                   /\ task_createdAt t' = task_createdAt t
                   /\ task_houseId t' = task_houseId t
                   /\ task_createdById t' = task_createdById t
                   /\ (field "title" (req_body req) = None -> task_title t' = task_title t)
                   /\ (field "description" (req_body req) = None ->
                       task_description t' = task_description t)
                   /\ (field "priority" (req_body req) = None ->
                       task_priority t' = task_priority t)
                   /\ (field "dueDate" (req_body req) = None ->
                       task_dueDate t' = task_dueDate t)
                   /\ (field "categoryId" (req_body req) = None ->
                       task_categoryId t' = task_categoryId t)
                   /\ (task_id t = taskId ->
                       (forall x, field "title" (req_body req) = Some (JStr x) ->
                                  (trim x <> "" -> task_title t' = trim x)
                                  /\ (trim x = "" -> task_title t' = task_title t))
                       /\ (forall x, field "description" (req_body req) = Some (JStr x) ->
                                     task_description t' = Some (trim x))
                       /\ (forall x, field "priority" (req_body req) = Some (JStr x) ->
                                     (x = "LOW" /\ task_priority t' = LOW)
                                     \/ (x = "MEDIUM" /\ task_priority t' = MEDIUM)
                                     \/ (x = "HIGH" /\ task_priority t' = HIGH))
                       /\ (forall x, field "dueDate" (req_body req) = Some (JStr x) ->
                                     x <> "" -> task_dueDate t' = Some (parseDate x))
                       /\ (forall x, field "categoryId" (req_body req) = Some (JStr x) ->
                                     task_categoryId t' = Some x))
                   /\ (task_description t <> None -> task_description t' <> None)
                   /\ (task_categoryId t <> None -> task_categoryId t' <> None)
                   /\ (isDatetime "" = false ->
                       task_dueDate t <> None -> task_dueDate t' <> None))
                (tasks s) (tasks s')).
Proof.
  split; [apply controller_updateTask_rejects_null |].
  split; [intros e s' calls; apply (controller_updateTask_fails_clean now req s s' e calls) |].
  intros v s' calls Run.
  destruct (controller_updateTask_ok _ _ _ _ _ _ Run)
    as (houseId & taskId & data & calls' & Par & Sch & Srv).
  exists taskId. split; [exact Par |].
  destruct (updateTask_returns_row _ _ _ _ _ _ _ _ Srv) as [Iv Ev].
  split; [exact Iv |]. split; [exact Ev |].
  apply updateTask_result in Srv. subst s'. simpl.
  repeat (split; [reflexivity |]).
  destruct (updateTaskSchema_fields isUuid isDatetime parseDate now _ _ Sch)
    as (Ft & Fd & Fp & Fdd & Fc).
  clear Run Iv Ev.
  induction (tasks s) as [| t l IH]; simpl; [constructor |].
  constructor; [| exact IH].
  destruct (String.eqb_spec (task_id t) taskId) as [Eid | Nid];
    [| repeat split; auto; intros; contradiction].
  unfold applyPatch, TaskService.updateTaskData. simpl.
  split; [intros; contradiction |].
  repeat (split; [reflexivity |]).
  split.
  { intros N. destruct Ft as [[_ ->] | (y & Ey & _)]; [reflexivity | congruence]. }
  split.
  { intros N. destruct Fd as [[_ ->] | (y & Ey & _)]; [reflexivity | congruence]. }
  split.
  { intros N. destruct Fp as [[_ ->] | (y & pr & Ey & _)]; [reflexivity | congruence]. }
  split.
  { intros N. destruct Fdd as [[_ ->] | (y & Ey & _)]; [reflexivity | congruence]. }
  split.
  { intros N. destruct Fc as [[_ ->] | (y & Ey & _)]; [reflexivity | congruence]. }
  split.
  { intros _. split; [| split; [| split; [| split]]].
    - intros x Ex. destruct Ft as [[N _] | (y & Ey & ->)]; [congruence |].
      assert (y = x) by congruence. subst y. simpl.
      destruct (String.eqb_spec (trim x) ""); simpl; split; intros; congruence.
    - intros x Ex. destruct Fd as [[N _] | (y & Ey & ->)]; [congruence |].
      assert (y = x) by congruence. now subst y.
    - intros x Ex. destruct Fp as [[N _] | (y & pr & Ey & -> & P)]; [congruence |].
      assert (y = x) by congruence. subst y. simpl. exact P.
    - intros x Ex Nx. destruct Fdd as [[N _] | (y & Ey & _ & ->)]; [congruence |].
      assert (y = x) by congruence. subst y. simpl.
      apply String.eqb_neq in Nx. now rewrite Nx.
    - intros x Ex. destruct Fc as [[N _] | (y & Ey & ->)]; [congruence |].
      assert (y = x) by congruence. now subst y. }
  split.
  { destruct (uti_description data); simpl; [discriminate | auto]. }
  split.
  { destruct (uti_categoryId data); simpl; [discriminate | auto]. }
  intros Empty. destruct Fdd as [[_ ->] | (y & _ & Dy & ->)]; simpl; [auto |].
  destruct (String.eqb_spec y "") as [-> | _]; simpl; [congruence | discriminate].
Qed.

End PartialUpdate.

(** C8, as the specification states it, fails: the sample task has a
    description, a due date and a category; a request by its creator that gives null for
    one of them is refused by validation and the field stays set. *)
Lemma null_does_not_clear :
  (TaskController.updateTask Sample.isUuid Sample.anyString Sample.noDate 6000%Z
     SampleRequests.describedNull Sample.store
   = (Err (ZodError "Expected string"), Sample.store, [])
   /\ TaskController.updateTask Sample.isUuid Sample.anyString Sample.noDate 6000%Z
        SampleRequests.dueNull Sample.store
      = (Err (ZodError "Expected string"), Sample.store, [])
   /\ TaskController.updateTask Sample.isUuid Sample.anyString Sample.noDate 6000%Z
        SampleRequests.categoryNull Sample.store
      = (Err (ZodError "Expected string"), Sample.store, []))
  /\ option_map task_description (findTask Sample.store Sample.choresId)
     = Some (Some "after dinner")
  /\ ~ (forall req : Request,
           field "description" (req_body req) = Some JNull ->
           option_map task_description
             (findTask
                (store_of (TaskController.updateTask Sample.isUuid Sample.anyString
                             Sample.noDate 6000%Z req Sample.store)) Sample.choresId)
           = Some None).
Proof.
  split; [repeat split; reflexivity |]. split; [reflexivity |].
  intros H. specialize (H SampleRequests.describedNull eq_refl).
  vm_compute in H. discriminate.
Qed.

(** On the sample task: null for the description is refused; a new title
    is written, and the description stays. *)
Lemma updateTask_partial_without_null_witness :
  (exists m,
      TaskController.updateTask Sample.isUuid Sample.anyString Sample.noDate 6000%Z
        SampleRequests.describedNull Sample.store
      = (Err (ZodError m), Sample.store, []))
  /\ (exists v s' calls,
         TaskController.updateTask Sample.isUuid Sample.anyString Sample.noDate 6000%Z
           SampleRequests.retitle Sample.store
         = (Ok v, s', calls)
         /\ map task_title (tasks s') = ["Dry up"]
         /\ map task_description (tasks s') = [Some "after dinner"]
         /\ task_id (tv_task v) = Sample.choresId).
Proof.
  split.
  - destruct (updateTask_partial_without_null Sample.isUuid Sample.anyString
                Sample.noDate 6000%Z SampleRequests.describedNull Sample.store) as [N _].
    apply N. left. reflexivity.
  - destruct (updateTask_partial_without_null Sample.isUuid Sample.anyString
                Sample.noDate 6000%Z SampleRequests.retitle Sample.store) as (_ & _ & P).
    eexists. eexists. eexists. split; [vm_compute; reflexivity |].
    split; [reflexivity |]. split; [reflexivity |].
    destruct (P _ _ _ ltac:(vm_compute; reflexivity)) as (tid & Par & _ & Ev & _).
    rewrite Ev. simpl in Par. now inversion Par.
Defined.

(** A request that is accepted: only the title changes. *)
Example retitle_changes_title_only :
  exists v calls,
    TaskController.updateTask Sample.isUuid Sample.anyString Sample.noDate 6000%Z
      SampleRequests.retitle Sample.store
    = (Ok v,
       set_tasks Sample.store
         [mkTask Sample.choresId "Dry up" (Some "after dinner") PENDING MEDIUM (Some 5000%Z) None
                 1000%Z Sample.home (Some Sample.cleaningId) Sample.momId],
       calls).
Proof. eexists. eexists. reflexivity. Qed.

(** ** C9: ordering and pagination of the task list *)

Lemma taskBefore_total (a b : Task) : taskBefore a b = true \/ taskBefore b a = true.
Proof.
  unfold taskBefore.
  destruct (Nat.ltb_spec (priorityRank (task_priority b)) (priorityRank (task_priority a)));
    [auto |].
  destruct (Nat.ltb_spec (priorityRank (task_priority a)) (priorityRank (task_priority b)));
    [auto |].
  destruct (task_dueDate a) as [x |], (task_dueDate b) as [y |]; auto.
  - destruct (Z.ltb_spec x y); [auto |].
    destruct (Z.ltb_spec y x); [auto |].
    destruct (Z.leb_spec (task_createdAt b) (task_createdAt a)); [auto |].
    right. apply Z.leb_le. lia.
  - destruct (Z.leb_spec (task_createdAt b) (task_createdAt a)); [auto |].
    right. apply Z.leb_le. lia.
Qed.

Lemma insertSorted_perm (t : Task) (l : list Task) :
  Permutation (t :: l) (insertSorted t l).
Proof.
  induction l as [| x r IH]; simpl; [reflexivity |].
  destruct (taskBefore t x); [reflexivity |].
  rewrite perm_swap. now constructor.
Qed.

Lemma insertSorted_sorted (t : Task) (l : list Task) :
  Sorted (fun a b => taskBefore a b = true) l ->
  Sorted (fun a b => taskBefore a b = true) (insertSorted t l).
Proof.
  induction l as [| x r IH]; simpl; intros S.
  - repeat constructor.
  - destruct (taskBefore t x) eqn:B.
    + constructor; [assumption |]. now constructor.
    + inversion S as [| ? ? Sr Hx]; subst.
      constructor; [now apply IH |].
      destruct r as [| y r']; simpl.
      * constructor. destruct (taskBefore_total t x); congruence.
      * destruct (taskBefore t y).
        -- constructor. destruct (taskBefore_total t x); congruence.
        -- constructor. now inversion Hx.
Qed.

(** [orderTasks] gives the rows it was given, in the order of [orderBy]. *)
Lemma orderTasks_sorts (l : list Task) :
  Permutation l (orderTasks l)
  /\ Sorted (fun a b => taskBefore a b = true) (orderTasks l).
Proof.
  induction l as [| t l [P S]]; simpl.
  - split; constructor.
  - split.
    + rewrite <- insertSorted_perm. now constructor.
    + now apply insertSorted_sorted.
Qed.

Lemma orderTasks_length (l : list Task) : length (orderTasks l) = length l.
Proof. symmetry. apply Permutation_length, orderTasks_sorts. Qed.

Lemma matchesWhere_house_only (s : Store) (houseId : Id) (t : Task) :
  matchesWhere s (mkTaskWhere houseId None None None None None None) t
  = (task_houseId t =? houseId).
Proof. unfold matchesWhere. simpl. now rewrite !andb_true_r. Qed.

Lemma ceilDiv_is_ceiling (total limit : Z) :
  (0 < limit)%Z ->
  exists p, ceilDiv total limit = Some p
            /\ ((p - 1) * limit < total <= p * limit)%Z.
Proof.
  intros L. unfold ceilDiv.
  destruct (Z.eqb_spec limit 0) as [E | _]; [lia |].
  eexists. split; [reflexivity |].
  pose proof (Z.div_mod (- total) limit ltac:(lia)) as D.
  pose proof (Z.mod_pos_bound (- total) limit L) as B.
  nia.
Qed.

Lemma taskBefore_trans (a b c : Task) :
  taskBefore a b = true -> taskBefore b c = true -> taskBefore a c = true.
Proof.
  unfold taskBefore.
  destruct (task_priority a), (task_priority b), (task_priority c); simpl;
    try congruence;
    destruct (task_dueDate a) as [x |], (task_dueDate b) as [y |],
             (task_dueDate c) as [z |];
    try congruence;
    repeat match goal with
           | |- context [(?p <? ?q)%Z] => destruct (Z.ltb_spec p q)
           | |- context [(?p <=? ?q)%Z] => destruct (Z.leb_spec p q)
           end;
    intros; try reflexivity; try discriminate; lia.
Qed.

(** The comparator, spelled out on the three sort keys. *)
Lemma taskBefore_keys (a b : Task) :
  taskBefore a b = true ->
  match task_priority a, task_priority b with
  | HIGH, MEDIUM | HIGH, LOW | MEDIUM, LOW => True
  | HIGH, HIGH | MEDIUM, MEDIUM | LOW, LOW =>
      match task_dueDate a, task_dueDate b with
      | Some x, Some y =>
          (x < y)%Z \/ (x = y /\ (task_createdAt b <= task_createdAt a)%Z)
      | Some _, None => True
      | None, Some _ => False
      | None, None => (task_createdAt b <= task_createdAt a)%Z
      end
  | _, _ => False
  end.
Proof.
  unfold taskBefore.
  destruct (task_priority a), (task_priority b); simpl; try congruence; try exact (fun _ => I);
    destruct (task_dueDate a) as [x |], (task_dueDate b) as [y |];
    try congruence; try exact (fun _ => I);
    repeat match goal with
           | |- context [(?p <? ?q)%Z] => destruct (Z.ltb_spec p q)
           | |- context [(?p <=? ?q)%Z] => destruct (Z.leb_spec p q)
           end;
    intros; try discriminate; lia.
Qed.

Lemma StronglySorted_nth {A} (R : A -> A -> Prop) (l : list A) :
  StronglySorted R l ->
  forall i j a b, i < j -> nth_error l i = Some a -> nth_error l j = Some b -> R a b.
Proof.
  induction 1 as [| x l S IH F]; intros i j a b Lt Ea Eb.
  - destruct i; discriminate.
  - destruct j as [| j]; [lia |]. simpl in Eb. destruct i as [| i]; simpl in Ea.
    + inversion Ea. subst a. apply nth_error_In in Eb.
      now apply (proj1 (Forall_forall _ _) F).
    + apply (IH i j); [lia | assumption | assumption].
Qed.

(** Any two rows of the ordered list stand in the order that [orderBy]
    asks for: priority from HIGH to LOW; within a priority the earlier due
    date first and rows without a due date last; within a due date the
    later creation first. *)
Lemma orderTasks_in_order (l : list Task) (i j : nat) (a b : Task) :
  i < j ->
  nth_error (orderTasks l) i = Some a ->
  nth_error (orderTasks l) j = Some b ->
  match task_priority a, task_priority b with
  | HIGH, MEDIUM | HIGH, LOW | MEDIUM, LOW => True
  | HIGH, HIGH | MEDIUM, MEDIUM | LOW, LOW =>
      match task_dueDate a, task_dueDate b with
      | Some x, Some y =>
          (x < y)%Z \/ (x = y /\ (task_createdAt b <= task_createdAt a)%Z)
      | Some _, None => True
      | None, Some _ => False
      | None, None => (task_createdAt b <= task_createdAt a)%Z
      end
  | _, _ => False
  end.
Proof.
  intros Lt Ea Eb. apply taskBefore_keys.
  pose proof (proj2 (orderTasks_sorts l)) as S.
  apply Sorted_StronglySorted in S.
  - exact (StronglySorted_nth _ _ S i j a b Lt Ea Eb).
  - intros x y z. apply taskBefore_trans.
Qed.

(** Within the range of [Int] and from a non-negative offset, a page is a
    window of the rows. *)
Lemma page_of_window {A} (skip take : Z) (l : list A) :
  (0 <= skip <= 9223372036854775807)%Z ->
  (0 <= take <= 9223372036854775807)%Z ->
  page_of skip take l = Ok (firstn (Z.to_nat take) (skipn (Z.to_nat skip) l)).
Proof.
  intros Hs Ht. unfold page_of, isInt.
  destruct (Z.leb_spec (-9223372036854775808) skip); [| lia].
  destruct (Z.leb_spec skip 9223372036854775807); [| lia].
  destruct (Z.leb_spec (-9223372036854775808) take); [| lia].
  destruct (Z.leb_spec take 9223372036854775807); [| lia].
  simpl.
  destruct (Z.ltb_spec skip 0); [lia |].
  destruct (Z.ltb_spec take 0); [lia |]. reflexivity.
Qed.

Section Listing.

Variable isUuid : string -> bool.
Variable parseInt : string -> option Z.

(** The limit that leaves [taskFilterSchema] is
    [Math.min(parseInt(val) || 20, 100)] of the text given, and undefined
    when the query gives none. *)
Lemma limitSchema_cap (j : option Json) (o : option Z) :
  Schema.limitSchema parseInt j = Ok o ->
  (j = None /\ o = None)
  \/ (exists x, j = Some (JStr x)
                /\ o = Some (Z.min (match parseInt x with
                                    | Some n => if (n =? 0)%Z then 20 else n
                                    | None => 20
                                    end) 100)%Z).
Proof.
  unfold Schema.limitSchema. intros H.
  apply zOptional_zString_ok in H.
  destruct H as [[-> ->] | (x & a & -> & K & ->)]; [auto |].
  inversion K. subst a. right. exists x. split; reflexivity.
Qed.

Lemma taskFilterSchema_limit (q : JObject) (f : TaskFilterInput) :
  Schema.taskFilterSchema isUuid parseInt q = Ok f ->
  Schema.limitSchema parseInt (field "limit" q) = Ok (f_limit f).
Proof.
  unfold Schema.taskFilterSchema.
  repeat match goal with
         | |- rbind ?r _ = Ok _ -> _ => destruct r; cbn [rbind]; [| discriminate]
         end.
  intros E. inversion E. reflexivity.
Qed.

End Listing.

Lemma getHouseTasks_unfiltered (now : Date) (houseId userId : Id) (page limit : Z)
      (s : Store) (cm : HouseMember) :
  findMember s userId houseId = Some cm ->
  (0 <= (page - 1) * limit <= 9223372036854775807)%Z ->
  (0 <= limit <= 9223372036854775807)%Z ->
  let all := orderTasks (filter (fun t => task_houseId t =? houseId) (tasks s)) in
  TaskService.getHouseTasks now houseId userId
    (mkTaskFilterInput None None None None None None (Some page) (Some limit)) s
  = (Ok (mkTaskList
           (map (viewTask s)
                (firstn (Z.to_nat limit) (skipn (Z.to_nat ((page - 1) * limit)) all)))
           (mkPagination page limit
              (Z.of_nat (length (filter (fun t => task_houseId t =? houseId) (tasks s))))
              (ceilDiv
                 (Z.of_nat (length (filter (fun t => task_houseId t =? houseId) (tasks s))))
                 limit))),
     s, [houseMember_findUnique; task_findMany; task_count]).
Proof.
  intros F Hs Hl all.
  unfold TaskService.getHouseTasks. cbv beta iota zeta. simpl f_page. simpl f_limit.
  unfold bind at 1, query at 1. rewrite F. simpl.
  unfold bind, command, query, ret, findTasksPage, countTasks.
  assert (Hf : filter (matchesWhere s (mkTaskWhere houseId None None None None None None))
                      (tasks s)
               = filter (fun t => task_houseId t =? houseId) (tasks s))
    by (apply filter_ext, matchesWhere_house_only).
  rewrite (page_of_window _ _ _ Hs Hl).
  simpl. rewrite !Hf. reflexivity.
Qed.

Lemma getHouseTasks_pagination (now : Date) (houseId userId : Id)
      (filters : TaskFilterInput) (s s' : Store) (tl : TaskList) (calls : list Call) :
  TaskService.getHouseTasks now houseId userId filters s = (Ok tl, s', calls) ->
  pg_page (tl_pagination tl) = match f_page filters with Some p => p | None => 1%Z end
  /\ pg_limit (tl_pagination tl) = match f_limit filters with Some l => l | None => 20%Z end
  /\ pg_pages (tl_pagination tl)
     = ceilDiv (pg_total (tl_pagination tl)) (pg_limit (tl_pagination tl)).
Proof.
  unfold TaskService.getHouseTasks. cbv beta iota zeta.
  unfold bind at 1, query at 1.
  destruct (findMember s userId houseId) as [cm |]; [| discriminate].
  unfold bind, command, query, ret.
  match goal with
  | |- context [findTasksPage ?w ?sk ?tk s] => destruct (findTasksPage w sk tk s) as [[l s1] | e]
  end; [| discriminate].
  intros E. inversion E. simpl. auto.
Qed.

(** C9.  In a house with 45 tasks, the unfiltered list with page 2 and
    limit 20 returns the 21st to the 40th task of the ordered list, with
    total 45 and 3 pages.  The ordered list holds the tasks of the house,
    each once, and any two of its rows stand in the order of the sort keys:
    priority from HIGH to LOW, then the earlier due date first with the
    rows without a due date last, then the later creation first.  The limit
    that leaves the query schema is the smaller of 100 and the number in
    the query (20 when the text is not a number or is 0), so it never
    exceeds 100; a missing limit stays undefined and the service then takes
    20; and the page count is the ceiling of total over limit. *)
Theorem listing_page_two_of_45 (isUuid : string -> bool) (parseInt : string -> option Z)
        (now : Date) (s : Store) (houseId userId : Id) (cm : HouseMember) :
  findMember s userId houseId = Some cm ->
  length (filter (fun t => task_houseId t =? houseId) (tasks s)) = 45 ->
  let all := orderTasks (filter (fun t => task_houseId t =? houseId) (tasks s)) in
  (exists tl,
      TaskService.getHouseTasks now houseId userId
        (mkTaskFilterInput None None None None None None (Some 2%Z) (Some 20%Z)) s
      = (Ok tl, s, [houseMember_findUnique; task_findMany; task_count])
      /\ map tv_task (tl_tasks tl) = firstn 20 (skipn 20 all)
      /\ length (tl_tasks tl) = 20
      /\ (forall i, i < 20 ->
                    nth_error (map tv_task (tl_tasks tl)) i = nth_error all (20 + i))
      /\ tl_pagination tl = mkPagination 2 20 45 (Some 3%Z))
  /\ Permutation (filter (fun t => task_houseId t =? houseId) (tasks s)) all
  /\ (forall i j a b,
         i < j -> nth_error all i = Some a -> nth_error all j = Some b ->
         match task_priority a, task_priority b with
         | HIGH, MEDIUM | HIGH, LOW | MEDIUM, LOW => True
         | HIGH, HIGH | MEDIUM, MEDIUM | LOW, LOW =>
             match task_dueDate a, task_dueDate b with
             | Some x, Some y =>
                 (x < y)%Z \/ (x = y /\ (task_createdAt b <= task_createdAt a)%Z)
             | Some _, None => True
             | None, Some _ => False
             | None, None => (task_createdAt b <= task_createdAt a)%Z
             end
         | _, _ => False
         end)
  /\ (forall (q : JObject) (f : TaskFilterInput),
         Schema.taskFilterSchema isUuid parseInt q = Ok f ->
         (field "limit" q = None -> f_limit f = None)
         /\ (forall x, field "limit" q = Some (JStr x) ->
                       f_limit f
                       = Some (Z.min (match parseInt x with
                                      | Some n => if (n =? 0)%Z then 20 else n
                                      | None => 20
                                      end) 100)%Z)
         /\ (forall l, f_limit f = Some l -> (l <= 100)%Z))
  /\ (forall (filters : TaskFilterInput) (tl : TaskList) (s' : Store) (calls : list Call),
         TaskService.getHouseTasks now houseId userId filters s = (Ok tl, s', calls) ->
         (f_limit filters = None -> pg_limit (tl_pagination tl) = 20%Z)
         /\ pg_pages (tl_pagination tl)
            = ceilDiv (pg_total (tl_pagination tl)) (pg_limit (tl_pagination tl)))
  /\ (forall total limit : Z,
         (0 < limit)%Z ->
         exists p, ceilDiv total limit = Some p
                   /\ ((p - 1) * limit < total <= p * limit)%Z).
Proof.
  intros F Len all. split; [| split; [| split; [| split; [| split]]]].
  - eexists. split.
    + apply (getHouseTasks_unfiltered now houseId userId 2 20 s cm F); lia.
    + fold all. rewrite Len. cbn [tl_tasks tl_pagination].
      change (Z.to_nat 20) with 20. change (Z.to_nat ((2 - 1) * 20)) with 20.
      assert (La : length all = 45).
      { unfold all. now rewrite orderTasks_length. }
      split; [| split; [| split]].
      * rewrite map_map. simpl. apply map_id.
      * rewrite length_map, length_firstn, length_skipn, La. reflexivity.
      * intros i Hi. rewrite map_map.
        rewrite (map_ext _ (fun x => x)) by reflexivity. rewrite map_id.
        rewrite nth_error_firstn, nth_error_skipn.
        destruct (Nat.ltb_spec i 20); [reflexivity | lia].
      * reflexivity.
  - apply orderTasks_sorts.
  - intros i j a b. apply orderTasks_in_order.
  - intros q f Sch.
    apply (taskFilterSchema_limit isUuid parseInt) in Sch.
    apply limitSchema_cap in Sch.
    destruct Sch as [[Eq Ef] | (x & Eq & Ef)]; rewrite Eq, Ef.
    + split; [reflexivity |]. split; [discriminate | discriminate].
    + split; [discriminate |]. split.
      * intros y Ey. inversion Ey. reflexivity.
      * intros l El. inversion El. lia.
  - intros filters tl s' calls Run.
    apply getHouseTasks_pagination in Run. destruct Run as (_ & Hl & Hp).
    split; [| exact Hp]. intros N. now rewrite Hl, N.
  - apply ceilDiv_is_ceiling.
Qed.

(** The busy house: 15 HIGH, 15 MEDIUM and 15 LOW tasks.  Page one holds
    the HIGH tasks and the five MEDIUM tasks that are due first; page two
    goes on with the MEDIUM tasks due later, those without a due date from
    the newest on, and then the LOW tasks. *)
Lemma listing_page_two_of_45_witness :
  exists tl,
    TaskService.getHouseTasks 0%Z Sample.home Sample.userB
      (mkTaskFilterInput None None None None None None (Some 2%Z) (Some 20%Z)) Sample.busy
    = (Ok tl, Sample.busy, [houseMember_findUnique; task_findMany; task_count])
    /\ map (fun v => task_id (tv_task v)) (tl_tasks tl)
       = map (fun i => String (ascii_of_nat (48 + i)) EmptyString)
             [14; 8; 2; 41; 35; 29; 23; 17; 11; 5; 42; 36; 30; 24; 18; 12; 6; 0; 39; 33]
    /\ tl_pagination tl = mkPagination 2 20 45 (Some 3%Z)
    /\ Schema.taskFilterSchema Sample.isUuid (fun _ => Some 50%Z) [("limit", JStr "50")]
       = Ok (mkTaskFilterInput None None None None None None None (Some 50%Z))
    /\ Schema.taskFilterSchema Sample.isUuid (fun _ => Some 500%Z) [("limit", JStr "500")]
       = Ok (mkTaskFilterInput None None None None None None None (Some 100%Z)).
Proof.
  destruct (listing_page_two_of_45 Sample.isUuid Sample.noInt 0%Z Sample.busy
              Sample.home Sample.userB Sample.mom eq_refl eq_refl)
    as [(tl & Run & Rows & _ & _ & Pg) _].
  exists tl. split; [exact Run |]. split; [| split; [exact Pg |]].
  - rewrite <- (map_map tv_task task_id), Rows. vm_compute. reflexivity.
  - split; reflexivity.
Defined.

(** ** C5: completedAt follows the status *)

Lemma updateTask_store (parseDate : string -> Date) (taskId houseId M : Id)
      (data : UpdateTaskInput) (s : Store) :
  store_of (TaskService.updateTask parseDate taskId houseId M data s) = s
  \/ store_of (TaskService.updateTask parseDate taskId houseId M data s)
     = set_tasks s
         (map (fun x => if task_id x =? taskId
                        then applyPatch (TaskService.updateTaskData parseDate data) x
                        else x) (tasks s)).
Proof.
  destruct (TaskService.updateTask parseDate taskId houseId M data s)
    as [[[v | e] s'] calls] eqn:Run.
  - right. now apply updateTask_result in Run.
  - left. revert Run.
    unfold TaskService.updateTask, bind at 1. rewrite getTaskById_run.
    destruct (findTaskInHouse s taskId houseId) as [t |];
      [| intros E; now inversion E].
    cbv beta iota zeta.
    destruct (negb (TaskService.canUserModifyTask (viewTask s t) M));
      [intros E; now inversion E |].
    unfold bind at 1.
    assert (Pre : exists r c,
               (match uti_categoryId data with
                | Some c => if truthy (Some c)
                            then TaskService.checkCategory houseId c else ret tt
                | None => ret tt
                end) s = (r, s, c)).
    { destruct (uti_categoryId data) as [c |]; [| unfold ret; eauto].
      destruct (truthy (Some c)); [apply checkCategory_reads | unfold ret; eauto]. }
    destruct Pre as (r & c & ->).
    destruct r as [[] | e1]; [| intros E; now inversion E].
    unfold bind, command, ret.
    destruct (TaskService.updateTaskRowView taskId
                (TaskService.updateTaskData parseDate data) s) as [[v1 s1] | e1];
      simpl; intros E; inversion E; reflexivity.
Qed.

Lemma updateTaskStatus_store (now : Date) (taskId houseId M : Id)
      (data : UpdateTaskStatusInput) (s : Store) :
  store_of (TaskService.updateTaskStatus now taskId houseId M data s) = s
  \/ store_of (TaskService.updateTaskStatus now taskId houseId M data s)
     = set_tasks s
         (map (fun x =>
                 if task_id x =? taskId
                 then applyPatch
                        (mkTaskPatch None None (Some (utsi_status data)) None None
                           (match utsi_status data with
                            | COMPLETED => Some (Some now)
                            | PENDING => Some None
                            end) None) x
                 else x) (tasks s)).
Proof.
  remember (TaskService.updateTaskStatus now taskId houseId M data s) as o eqn:Eo.
  unfold TaskService.updateTaskStatus, bind at 1 in Eo. rewrite getTaskById_run in Eo.
  destruct (findTaskInHouse s taskId houseId) as [t |]; [| subst o; now left].
  cbv beta iota zeta in Eo.
  destruct (negb (TaskService.canUserModifyTask (viewTask s t) M)); [subst o; now left |].
  unfold bind, command, ret, TaskService.updateTaskRowView, updateTaskRow in Eo.
  destruct (findTask s taskId) as [t1 |]; [| subst o; now left].
  right. subst o. destruct data as [[|]]; reflexivity.
Qed.

Lemma updateTaskAssignees_tasks (taskId houseId M : Id)
      (data : UpdateTaskAssigneesInput) (s : Store) :
  tasks (store_of (TaskService.updateTaskAssignees taskId houseId M data s)) = tasks s.
Proof.
  remember (TaskService.updateTaskAssignees taskId houseId M data s) as o eqn:Eo.
  unfold TaskService.updateTaskAssignees, bind at 1 in Eo.
  rewrite getTaskById_run in Eo.
  destruct (findTaskInHouse s taskId houseId) as [t |]; [| now subst o].
  cbv beta iota zeta in Eo.
  destruct (negb (TaskService.canUserModifyTask (viewTask s t) M)); [now subst o |].
  unfold bind at 1 in Eo.
  assert (P1 : exists r c,
             (if (0 <? length (utai_assigneeIds data))%nat
              then TaskService.checkAssignees houseId (utai_assigneeIds data)
              else ret tt) s = (r, s, c)).
  { destruct (0 <? length (utai_assigneeIds data))%nat; [| unfold ret; eauto].
    rewrite checkAssignees_run.
    destruct (length (findMembersIn s (utai_assigneeIds data) houseId)
              =? length (utai_assigneeIds data))%nat; eauto. }
  destruct P1 as (r1 & c1 & E1). rewrite E1 in Eo. clear E1.
  destruct r1 as [[] | e1]; [| now subst o].
  unfold bind, transaction, command, ret, deleteTaskAssignees,
    TaskService.findTaskView, query in Eo.
  destruct (0 <? length (utai_assigneeIds data))%nat; [| now subst o].
  unfold insertTaskAssignees in Eo.
  repeat match type of Eo with
         | context [if ?b then Err _ else _] => destruct b
         end; now subst o.
Qed.

Lemma createTask_tasks (parseDate : string -> Date) (newTaskId : Id) (now : Date)
      (houseId createdById : Id) (data : CreateTaskInput) (s : Store) :
  tasks (store_of (TaskService.createTask parseDate newTaskId now houseId createdById
                     data s)) = tasks s
  \/ tasks (store_of (TaskService.createTask parseDate newTaskId now houseId createdById
                        data s))
     = tasks s
       ++ [mkTask newTaskId (cti_title data) (cti_description data) PENDING
             (cti_priority data) (TaskService.optDate parseDate (cti_dueDate data)) None
             now houseId (cti_categoryId data) createdById].
Proof.
  remember (TaskService.createTask parseDate newTaskId now houseId createdById data s)
    as o eqn:Eo.
  unfold TaskService.createTask in Eo.
  unfold bind at 1 in Eo.
  assert (P1 : exists r t,
             (match cti_assigneeIds data with
              | Some ids => if (0 <? length ids)%nat
                            then TaskService.checkAssignees houseId ids else ret tt
              | None => ret tt
              end) s = (r, s, t)).
  { destruct (cti_assigneeIds data) as [ids |]; [| unfold ret; eauto].
    destruct (0 <? length ids)%nat; [| unfold ret; eauto].
    rewrite checkAssignees_run.
    destruct (length (findMembersIn s ids houseId) =? length ids)%nat; eauto. }
  destruct P1 as (r1 & t1 & E1). rewrite E1 in Eo. clear E1.
  destruct r1 as [[] | e1]; [| subst o; now left].
  unfold bind at 1 in Eo.
  assert (P2 : exists r t,
             (match cti_categoryId data with
              | Some c => if truthy (Some c)
                          then TaskService.checkCategory houseId c else ret tt
              | None => ret tt
              end) s = (r, s, t)).
  { destruct (cti_categoryId data) as [c |]; [| unfold ret; eauto].
    destruct (truthy (Some c)); [apply checkCategory_reads | unfold ret; eauto]. }
  destruct P2 as (r2 & t2 & E2). rewrite E2 in Eo. clear E2.
  destruct r2 as [[] | e2]; [| subst o; now left].
  unfold bind, transaction, command, ret, TaskService.createTaskRow, insertTask,
    TaskService.findTaskView, query in Eo.
  repeat match type of Eo with
         | context [if ?b then Err _ else _] => destruct b
         end; try (subst o; now left).
  cbn [tv_task viewTask task_id] in Eo.
  destruct (cti_assigneeIds data) as [ids |]; [| subst o; now right].
  destruct (0 <? length ids)%nat; [| subst o; now right].
  unfold insertTaskAssignees in Eo.
  repeat match type of Eo with
         | context [if ?b then Err _ else _] => destruct b
         end; subst o; (now left) || (now right).
Qed.

Lemma deleteTask_tasks (taskId houseId M : Id) (s : Store) :
  tasks (store_of (TaskService.deleteTask taskId houseId M s)) = tasks s
  \/ tasks (store_of (TaskService.deleteTask taskId houseId M s))
     = filter (fun t => negb (task_id t =? taskId)) (tasks s).
Proof.
  rewrite deleteTask_run.
  destruct (findTaskInHouse s taskId houseId) as [t |]; [| now left].
  match goal with |- context [if ?b then _ else _] => destruct b end; [| now left].
  unfold deleteTaskRow. destruct (findTask s taskId); [now right | now left].
Qed.

Section Stamps.

Variable s : Store.
Hypothesis wasStamped : allStamped s.

Lemma patched_rows_stamped (taskId : Id) (p : TaskPatch) :
  (forall x, stamped x -> stamped (applyPatch p x)) ->
  allStamped (set_tasks s (map (fun x => if task_id x =? taskId then applyPatch p x else x)
                               (tasks s))).
Proof.
  intros K. unfold allStamped. simpl. apply Forall_map.
  unfold allStamped in wasStamped.
  eapply Forall_impl; [| exact wasStamped].
  intros x Sx. destruct (task_id x =? taskId); auto.
Qed.

Lemma updateTaskStatus_stamped (now : Date) (taskId houseId M : Id)
      (data : UpdateTaskStatusInput) :
  allStamped (store_of (TaskService.updateTaskStatus now taskId houseId M data s)).
Proof.
  destruct (updateTaskStatus_store now taskId houseId M data s) as [-> | ->];
    [exact wasStamped |].
  apply patched_rows_stamped. intros x _. unfold stamped, applyPatch. simpl.
  destruct (utsi_status data); simpl; split; congruence.
Qed.

Lemma updateTask_stamped (parseDate : string -> Date) (taskId houseId M : Id)
      (data : UpdateTaskInput) :
  allStamped (store_of (TaskService.updateTask parseDate taskId houseId M data s)).
Proof.
  destruct (updateTask_store parseDate taskId houseId M data s) as [-> | ->];
    [exact wasStamped |].
  apply patched_rows_stamped. intros x Sx. exact Sx.
Qed.

Lemma updateTaskAssignees_stamped (taskId houseId M : Id)
      (data : UpdateTaskAssigneesInput) :
  allStamped (store_of (TaskService.updateTaskAssignees taskId houseId M data s)).
Proof.
  unfold allStamped. rewrite updateTaskAssignees_tasks. exact wasStamped.
Qed.

Lemma createTask_stamped (parseDate : string -> Date) (newTaskId : Id) (now : Date)
      (houseId createdById : Id) (data : CreateTaskInput) :
  allStamped (store_of (TaskService.createTask parseDate newTaskId now houseId
                          createdById data s)).
Proof.
  unfold allStamped.
  destruct (createTask_tasks parseDate newTaskId now houseId createdById data s)
    as [-> | ->]; [exact wasStamped |].
  apply Forall_app. split; [exact wasStamped |].
  constructor; [| constructor].
  unfold stamped. simpl. split; [congruence | discriminate].
Qed.

Lemma deleteTask_stamped (taskId houseId M : Id) :
  allStamped (store_of (TaskService.deleteTask taskId houseId M s)).
Proof.
  unfold allStamped.
  destruct (deleteTask_tasks taskId houseId M s) as [-> | ->]; [exact wasStamped |].
  apply Forall_forall. intros x Ix. apply filter_In in Ix. destruct Ix as [Ix _].
  unfold allStamped in wasStamped. rewrite Forall_forall in wasStamped. auto.
Qed.

End Stamps.

(** C5.  For a task of the house and an actor that passes the modification
    check, [updateTaskStatus] stores the requested status together with
    completedAt = the current instant for COMPLETED and completedAt = null
    for PENDING, on every row of that id and on nothing else, so that
    completedAt is non-null exactly when the status is COMPLETED; a second
    COMPLETED call stamps the instant of the second call; [updateTask]
    changes neither the status nor completedAt of any task; and when
    completedAt is non-null exactly on the COMPLETED tasks of the store, it
    is so again after any call of a TaskService method that writes. *)
Theorem status_drives_completedAt (parseDate : string -> Date) (now : Date) (s : Store)
        (taskId houseId M : Id) (T : Task) (st : TaskStatus) :
  findTaskInHouse s taskId houseId = Some T ->
  TaskService.canUserModifyTask (viewTask s T) M = true ->
  let stamp := fun (at_ : Date) (x : TaskStatus) =>
                 match x with COMPLETED => Some at_ | PENDING => None end in
  (exists v s',
      TaskService.updateTaskStatus now taskId houseId M (mkUpdateTaskStatusInput st) s
      = (Ok v, s', [task_findFirst; task_update])
      /\ task_status (tv_task v) = st
      /\ task_completedAt (tv_task v) = stamp now st
      /\ (task_completedAt (tv_task v) <> None <-> task_status (tv_task v) = COMPLETED)
      /\ (exists T', findTaskInHouse s' taskId houseId = Some T'
                     /\ task_status T' = st /\ task_completedAt T' = stamp now st)
      /\ (forall t, In t (tasks s') -> task_id t = taskId ->
                    task_status t = st /\ task_completedAt t = stamp now st)
      /\ (forall t, In t (tasks s') -> task_id t <> taskId -> In t (tasks s))
      /\ (forall later : Date,
             exists v2 s2,
               TaskService.updateTaskStatus later taskId houseId M
                 (mkUpdateTaskStatusInput COMPLETED) s'
               = (Ok v2, s2, [task_findFirst; task_update])
               /\ task_completedAt (tv_task v2) = Some later))
  /\ (forall (who : Id) (data : UpdateTaskInput),
         map (fun t => (task_id t, task_status t, task_completedAt t))
             (tasks (store_of (TaskService.updateTask parseDate taskId houseId who data s)))
         = map (fun t => (task_id t, task_status t, task_completedAt t)) (tasks s))
  /\ (allStamped s ->
      forall (tid hid who : Id),
        (forall (at_ : Date) (data : UpdateTaskStatusInput),
            allStamped (store_of (TaskService.updateTaskStatus at_ tid hid who data s)))
        /\ (forall data : UpdateTaskInput,
               allStamped (store_of (TaskService.updateTask parseDate tid hid who data s)))
        /\ (forall data : UpdateTaskAssigneesInput,
               allStamped (store_of (TaskService.updateTaskAssignees tid hid who data s)))
        /\ (forall (at_ : Date) (data : CreateTaskInput),
               allStamped (store_of (TaskService.createTask parseDate tid at_ hid who
                                       data s)))
        /\ allStamped (store_of (TaskService.deleteTask tid hid who s))).
Proof.
  intros F C stamp. split; [| split].
  - destruct (updateTaskStatus_ok now s taskId houseId M T st F C)
      as (t0 & Ft & Run & F' & C').
    eexists. eexists. split; [exact Run |].
    split; [reflexivity |].
    split; [destruct st; reflexivity |].
    split; [destruct st; simpl; split; congruence |].
    split.
    { eexists. split; [exact F' |]. destruct st; split; reflexivity. }
    split.
    { simpl. intros t I Ht. apply in_map_iff in I. destruct I as [x [Ex Ix]].
      destruct (task_id x =? taskId) eqn:B.
      - subst t. destruct st; split; reflexivity.
      - subst t. apply String.eqb_neq in B. contradiction. }
    split.
    { simpl. intros t I Ht. apply in_map_iff in I. destruct I as [x [Ex Ix]].
      destruct (task_id x =? taskId) eqn:B.
      - subst t. exfalso. apply Ht. simpl. now apply String.eqb_eq.
      - now subst t. }
    intros later.
    destruct (updateTaskStatus_ok later _ taskId houseId M _ COMPLETED F' C')
      as (t1 & _ & Run2 & _).
    eexists. eexists. split; [exact Run2 | reflexivity].
  - intros who data.
    unfold TaskService.updateTask, bind at 1. rewrite getTaskById_run.
    destruct (findTaskInHouse s taskId houseId) as [t |]; [| reflexivity].
    destruct (negb (TaskService.canUserModifyTask (viewTask s t) who)); [reflexivity |].
    unfold bind at 1.
    assert (Chk : forall c, exists r t',
               TaskService.checkCategory houseId c s = (r, s, t')).
    { intros c. unfold TaskService.checkCategory. run_monad.
      destruct (findCategory s c) as [k |]; [| eauto].
      destruct (negb (cat_houseId k =? houseId)); eauto. }
    assert (Pre : exists r t',
               (match uti_categoryId data with
                | Some c => if truthy (Some c)
                            then TaskService.checkCategory houseId c else ret tt
                | None => ret tt
                end) s = (r, s, t')).
    { destruct (uti_categoryId data) as [c |]; [| unfold ret; eauto].
      destruct (truthy (Some c)); [apply Chk | unfold ret; eauto]. }
    destruct Pre as (r & t' & ->).
    destruct r as [[] | e]; [| reflexivity].
    unfold bind, command, ret, TaskService.updateTaskRowView, updateTaskRow.
    destruct (findTask s taskId) as [t1 |]; [| reflexivity].
    match goal with
    | |- context [if ?b then Err _ else _] => destruct b
    end; [reflexivity |].
    unfold store_of. simpl. rewrite map_map.
    apply map_ext. intros x.
    destruct (task_id x =? taskId); reflexivity.
  - intros A tid hid who. repeat split; intros.
    + now apply updateTaskStatus_stamped.
    + now apply updateTask_stamped.
    + now apply updateTaskAssignees_stamped.
    + now apply createTask_stamped.
    + now apply deleteTask_stamped.
Qed.

Lemma status_drives_completedAt_witness :
  exists v s',
    TaskService.updateTaskStatus 7000%Z Sample.choresId Sample.home Sample.kidId
      (mkUpdateTaskStatusInput COMPLETED) Sample.store
    = (Ok v, s', [task_findFirst; task_update])
    /\ task_completedAt (tv_task v) = Some 7000%Z.
Proof.
  destruct (status_drives_completedAt Sample.noDate 7000%Z Sample.store
              Sample.choresId Sample.home Sample.kidId
              Sample.chores COMPLETED eq_refl eq_refl)
    as [(v & s' & Run & _ & St & _) _].
  exists v, s'. split; [exact Run | exact St].
Defined.


(** * Further properties of the services *)

(** ** HouseService: display names, update and delete *)

(** The unique index of house_members on (displayName, houseId). *)
Lemma keyed_rows_equal {A K} (key : A -> K) (l : list A) (a b : A) :
  NoDup (map key l) -> In a l -> In b l -> key a = key b -> a = b.
Proof.
  induction l as [| x l IH]; simpl; [contradiction |].
  intros N Ia Ib E. inversion N as [| ? ? Hx Nl]; subst.
  destruct Ia as [-> | Ia], Ib as [-> | Ib]; auto.
  - exfalso. apply Hx. rewrite E. now apply in_map.
  - exfalso. apply Hx. rewrite <- E. now apply in_map.
Qed.

Lemma isDisplayNameAvailable_run (houseId : Id) (name : string) (exclude : option string)
      (s : Store) :
  HouseService.isDisplayNameAvailable houseId name exclude s
  = (Ok (match findMemberByName s name houseId with
         | None => true
         | Some e =>
             match exclude with
             | Some u => negb (u =? "") && (hm_userId e =? u)
             | None => false
             end
         end), s, [houseMember_findUnique]).
Proof.
  unfold HouseService.isDisplayNameAvailable. run_monad.
  destruct (findMemberByName s name houseId) as [e |]; [| reflexivity].
  destruct exclude as [u |]; [| reflexivity].
  destruct (negb (u =? "") && (hm_userId e =? u)); reflexivity.
Qed.

(** X1.  [isDisplayNameAvailable] reads the store once and changes nothing.
    Under the unique index on (displayName, houseId) it answers true
    exactly when every member of the house that holds the name is the
    excluded user; an excluded user id that is missing or empty excludes
    nobody, so the answer is then true exactly when nobody in the house
    holds the name. *)
Theorem displayName_available_iff (s : Store) (houseId : Id) (name : string)
        (exclude : option string) :
  NoDup (map (fun m => (hm_displayName m, hm_houseId m)) (houseMembers s)) ->
  exists b,
    HouseService.isDisplayNameAvailable houseId name exclude s
    = (Ok b, s, [houseMember_findUnique])
    /\ (b = true <->
        forall m, In m (houseMembers s) -> hm_houseId m = houseId ->
                  hm_displayName m = name ->
                  exists u, exclude = Some u /\ u <> "" /\ hm_userId m = u)
    /\ (exclude = None \/ exclude = Some "" ->
        (b = true <->
         forall m, In m (houseMembers s) -> hm_houseId m = houseId ->
                   hm_displayName m <> name)).
Proof.
  intros U. rewrite isDisplayNameAvailable_run. eexists. split; [reflexivity |].
  assert (Holder : forall e, findMemberByName s name houseId = Some e ->
                             In e (houseMembers s) /\ hm_displayName e = name
                             /\ hm_houseId e = houseId).
  { intros e F. unfold findMemberByName in F. apply find_some in F.
    destruct F as [I F]. apply andb_true_iff in F. destruct F as [F1 F2].
    apply String.eqb_eq in F1, F2. auto. }
  assert (NoHolder : findMemberByName s name houseId = None ->
                     forall m, In m (houseMembers s) -> hm_houseId m = houseId ->
                               hm_displayName m <> name).
  { intros F m I Hh Hn. unfold findMemberByName in F.
    apply (find_none _ _ F) in I. rewrite Hh, Hn, !String.eqb_refl in I. discriminate. }
  destruct (findMemberByName s name houseId) as [e |] eqn:F.
  - destruct (Holder e eq_refl) as (Ie & Ne & He). split.
    + split.
      * intros B m I Hh Hn.
        assert (m = e).
        { apply (keyed_rows_equal (fun m => (hm_displayName m, hm_houseId m))
                   (houseMembers s)); auto. simpl. congruence. }
        subst m. destruct exclude as [u |]; [| discriminate].
        apply andb_true_iff in B. destruct B as [B1 B2].
        exists u. split; [reflexivity |]. split.
        -- apply negb_true_iff in B1. now apply String.eqb_neq.
        -- now apply String.eqb_eq.
      * intros H. destruct (H e Ie He Ne) as (u & -> & Nu & Eu).
        apply andb_true_iff. split.
        -- apply negb_true_iff. now apply String.eqb_neq.
        -- now apply String.eqb_eq.
    + intros [-> | ->].
      * split; [discriminate |]. intros H. exfalso. now apply (H e Ie He).
      * simpl. split; [discriminate |]. intros H. exfalso. now apply (H e Ie He).
  - split.
    + split; [| reflexivity]. intros _ m I Hh Hn. exfalso.
      now apply (NoHolder eq_refl m I Hh).
    + intros _. split; [| reflexivity]. intros _. now apply NoHolder.
Qed.

Lemma sample_uniqueDisplayNames :
  NoDup (map (fun m => (hm_displayName m, hm_houseId m)) (houseMembers Sample.store)).
Proof. vm_compute. repeat constructor; simpl; intuition congruence. Qed.

Lemma displayName_available_iff_witness :
  HouseService.isDisplayNameAvailable Sample.home "Mom" (Some Sample.userB) Sample.store
  = (Ok true, Sample.store, [houseMember_findUnique])
  /\ HouseService.isDisplayNameAvailable Sample.home "Mom" (Some Sample.userA) Sample.store
     = (Ok false, Sample.store, [houseMember_findUnique]).
Proof.
  destruct (displayName_available_iff Sample.store Sample.home "Mom" (Some Sample.userB)
              sample_uniqueDisplayNames) as (b & Run & Iff & _).
  assert (B : b = true).
  { apply Iff. intros m I Hh Hn. exists Sample.userB.
    split; [reflexivity |]. split; [discriminate |].
    simpl in I. destruct I as [<- | [<- | [<- | [<- | []]]]];
      try discriminate Hn; reflexivity. }
  subst b. split; [exact Run | reflexivity].
Defined.

Lemma updateHouse_run (houseId : Id) (data : UpdateHouseInput) (s : Store) :
  HouseService.updateHouse houseId data s =
  match findHouse s houseId with
  | None => (Err (NotFoundError "House not found"), s, [house_findUnique])
  | Some h =>
      let name := match uhi_name data with
                  | Some n => if n =? "" then None else Some n
                  | None => None
                  end in
      let description := match uhi_description data with
                         | Some d => Some (Some d)
                         | None => None
                         end in
      (Ok (patchHouse name description h),
       set_houses s (map (fun x => if house_id x =? houseId
                                   then patchHouse name description x else x)
                         (houses s)),
       [house_findUnique; house_update])
  end.
Proof.
  unfold HouseService.updateHouse. run_monad. unfold updateHouseRow.
  destruct (findHouse s houseId) as [h |] eqn:F; simpl; rewrite ?F; reflexivity.
Qed.

Lemma deleteHouse_run (houseId : Id) (s : Store) :
  HouseService.deleteHouse houseId s =
  match findHouse s houseId with
  | None => (Err (NotFoundError "House not found"), s, [house_findUnique])
  | Some h =>
      match deleteHouseRow houseId s with
      | Ok (_, s') => (Ok true, s', [house_findUnique; house_delete])
      | Err e => (Err e, s, [house_findUnique; house_delete])
      end
  end.
Proof.
  unfold HouseService.deleteHouse. run_monad.
  destruct (findHouse s houseId) as [h |]; [| reflexivity].
  destruct (deleteHouseRow houseId s) as [[[] s'] | e]; reflexivity.
Qed.

(** X2.  [updateHouse] on an id that is not a house fails with NotFound and
    changes nothing.  On a house it writes the name when one is given and
    not empty, and the description when one is given; a field that is not
    given keeps its value; the ids and the order of the houses, every
    other house and every other table stay as they were. *)
Theorem updateHouse_partial (s : Store) (houseId : Id) (data : UpdateHouseInput) :
  (findHouse s houseId = None ->
   HouseService.updateHouse houseId data s
   = (Err (NotFoundError "House not found"), s, [house_findUnique]))
  /\ (forall h, findHouse s houseId = Some h ->
        exists h' s',
          HouseService.updateHouse houseId data s
          = (Ok h', s', [house_findUnique; house_update])
          /\ house_id h' = houseId
          /\ findHouse s' houseId = Some h'
          /\ (uhi_name data = None \/ uhi_name data = Some "" ->
              house_name h' = house_name h)
          /\ (forall n, uhi_name data = Some n -> n <> "" -> house_name h' = n)
          /\ (uhi_description data = None -> house_description h' = house_description h)
          /\ (forall d, uhi_description data = Some d -> house_description h' = Some d)
          /\ map house_id (houses s') = map house_id (houses s)
          /\ (forall x, house_id x <> houseId -> (In x (houses s') <-> In x (houses s)))
          /\ s' = set_houses s (houses s')).
Proof.
  split.
  - intros F. now rewrite updateHouse_run, F.
  - intros h F. rewrite updateHouse_run, F. cbv zeta.
    set (name := match uhi_name data with
                 | Some n => if n =? "" then None else Some n
                 | None => None
                 end).
    set (description := match uhi_description data with
                        | Some d => Some (Some d)
                        | None => None
                        end).
    assert (Hid : house_id h = houseId).
    { unfold findHouse in F. apply find_some in F. now apply String.eqb_eq. }
    eexists. eexists. split; [reflexivity |].
    split; [exact Hid |]. split.
    { unfold findHouse in *. simpl. rewrite find_map_keep.
      - rewrite F. simpl. apply String.eqb_eq in Hid. now rewrite Hid.
      - intros x. destruct (house_id x =? houseId) eqn:B; simpl; rewrite ?B; reflexivity. }
    split.
    { intros [E | E]; unfold name; rewrite E; reflexivity. }
    split.
    { intros n E Nn. unfold name. rewrite E.
      apply String.eqb_neq in Nn. now rewrite Nn. }
    split.
    { intros E. unfold description. now rewrite E. }
    split.
    { intros d E. unfold description. now rewrite E. }
    split.
    { simpl. rewrite map_map. apply map_ext. intros x.
      destruct (house_id x =? houseId); reflexivity. }
    split; [| reflexivity].
    intros x Nx. simpl. rewrite in_map_iff. split.
    + intros [y [Ey Iy]]. destruct (house_id y =? houseId) eqn:B.
      * subst x. simpl in Nx. apply String.eqb_eq in B. contradiction.
      * now subst x.
    + intros I. exists x. split; [| assumption].
      apply String.eqb_neq in Nx. now rewrite Nx.
Qed.

Lemma updateHouse_partial_witness :
  exists h' s',
    HouseService.updateHouse Sample.home (mkUpdateHouseInput (Some "") (Some "ours"))
                             Sample.store
    = (Ok h', s', [house_findUnique; house_update])
    /\ house_name h' = "Home" /\ house_description h' = Some "ours".
Proof.
  destruct (updateHouse_partial Sample.store Sample.home
              (mkUpdateHouseInput (Some "") (Some "ours"))) as [_ P].
  destruct (P (mkHouse Sample.home "Home" None) eq_refl)
    as (h' & s' & Run & _ & _ & Kn & _ & _ & Sd & _).
  exists h', s'. split; [exact Run |]. split.
  - now rewrite Kn by (right; reflexivity).
  - now apply Sd.
Defined.

Lemma filter_filter_implied {A} (P Q : A -> bool) (l : list A) :
  (forall x, P x = true -> Q x = true) ->
  filter P (filter Q l) = filter P l.
Proof.
  intros K. induction l as [| a l IH]; simpl; [reflexivity |].
  destruct (Q a) eqn:Qa; simpl.
  - destruct (P a); [f_equal |]; exact IH.
  - destruct (P a) eqn:Pa; [| exact IH].
    apply K in Pa. congruence.
Qed.

Lemma find_filter_none {A} (P : A -> bool) (l : list A) :
  find P (filter (fun x => negb (P x)) l) = None.
Proof.
  induction l as [| a l IH]; simpl; [reflexivity |].
  destruct (P a) eqn:Pa; simpl; [exact IH |]. now rewrite Pa.
Qed.

(** The store refuses the delete of a house only for a task of another
    house that one of its memberships created. *)
Lemma deleteHouseRow_goes (s : Store) (houseId : Id) :
  (forall t m, In t (tasks s) -> In m (houseMembers s) -> hm_houseId m = houseId ->
               task_createdById t = hm_id m -> task_houseId t = houseId) ->
  existsb (fun t => negb (task_houseId t =? houseId)
                    && idIn (task_createdById t)
                            (map hm_id (filter (fun m => hm_houseId m =? houseId)
                                               (houseMembers s))))
          (tasks s) = false.
Proof.
  intros Own. apply not_true_is_false. intros X.
  apply existsb_exists in X. destruct X as (t & It & H).
  apply andb_true_iff in H. destruct H as [Ht H].
  apply negb_true_iff, String.eqb_neq in Ht.
  apply idIn_In, in_map_iff in H. destruct H as (m & Em & Im).
  apply filter_In in Im. destruct Im as [Im Hm]. apply String.eqb_eq in Hm.
  apply Ht. now apply (Own t m).
Qed.

(** X3.  [deleteHouse] on an id that is not a house fails with NotFound and
    changes nothing.  On a house, when every task created by one of its
    memberships is a task of this house, it removes the house together with
    its memberships, tasks and categories and with every assignment of one
    of those tasks or memberships; the tasks of other houses, the users,
    the other houses with their memberships and categories, and the owner
    count of every other house stay. *)
Theorem deleteHouse_cascade (s : Store) (houseId : Id) :
  (findHouse s houseId = None ->
   HouseService.deleteHouse houseId s
   = (Err (NotFoundError "House not found"), s, [house_findUnique]))
  /\ (forall h, findHouse s houseId = Some h ->
        (forall t m, In t (tasks s) -> In m (houseMembers s) ->
                     hm_houseId m = houseId -> task_createdById t = hm_id m ->
                     task_houseId t = houseId) ->
        exists s',
          HouseService.deleteHouse houseId s
          = (Ok true, s', [house_findUnique; house_delete])
          /\ findHouse s' houseId = None
          /\ membersOfHouse s' houseId = []
          /\ (forall t, In t (tasks s') -> task_houseId t <> houseId)
          /\ (forall t, In t (tasks s) -> task_houseId t <> houseId ->
                        exists t', In t' (tasks s') /\ task_id t' = task_id t)
          /\ (forall a, In a (taskAssignees s') ->
                In a (taskAssignees s)
                /\ (forall t, In t (tasks s) -> task_id t = ta_taskId a ->
                              task_houseId t <> houseId)
                /\ (forall m, In m (houseMembers s) -> hm_id m = ta_houseMemberId a ->
                              hm_houseId m <> houseId))
          /\ (forall x, In x (houses s') <-> In x (houses s) /\ house_id x <> houseId)
          /\ (forall m, In m (houseMembers s') <->
                        In m (houseMembers s) /\ hm_houseId m <> houseId)
          /\ (forall c, In c (categories s') <->
                        In c (categories s) /\ cat_houseId c <> houseId)
          /\ users s' = users s
          /\ (forall h', h' <> houseId -> countOwners s' h' = countOwners s h')).
Proof.
  split.
  - intros F. now rewrite deleteHouse_run, F.
  - intros h F Own. rewrite deleteHouse_run, F. unfold deleteHouseRow. rewrite F.
    cbv zeta. rewrite (deleteHouseRow_goes s houseId Own).
    eexists. split; [reflexivity |].
    assert (Neg : forall x y : Id, negb (x =? y) = true <-> x <> y).
    { intros x y. rewrite negb_true_iff. apply String.eqb_neq. }
    split.
    { unfold findHouse. simpl.
      apply (find_filter_none (fun x => house_id x =? houseId)). }
    split.
    { unfold membersOfHouse. simpl.
      apply (proj1 (filter_filter_neg (fun m => hm_houseId m =? houseId) _)). }
    split.
    { simpl. intros t I. apply in_map_iff in I. destruct I as [x [Ex Ix]].
      apply filter_In in Ix. destruct Ix as [_ Nx]. apply Neg in Nx.
      destruct (task_categoryId x) as [c |]; [| now subst t].
      destruct (idIn c _); now subst t. }
    split.
    { simpl. intros t It Nt.
      eexists. split.
      - apply in_map. apply filter_In. split; [exact It | now apply Neg].
      - destruct (task_categoryId t) as [c |]; [| reflexivity].
        destruct (idIn c _); reflexivity. }
    split.
    { simpl. intros a I. apply filter_In in I. destruct I as [I K].
      apply andb_true_iff in K. destruct K as [K1 K2].
      apply negb_true_iff in K1, K2. apply idIn_false in K1, K2.
      split; [exact I |]. split.
      - intros t It Et Ht. apply K1. rewrite <- Et.
        apply in_map. apply filter_In. split; [exact It |].
        now apply String.eqb_eq.
      - intros m Im Em Hm. apply K2. rewrite <- Em.
        apply in_map. apply filter_In. split; [exact Im |].
        now apply String.eqb_eq. }
    split.
    { intros x. simpl. rewrite filter_In, Neg. reflexivity. }
    split.
    { intros m. simpl. rewrite filter_In, Neg. reflexivity. }
    split.
    { intros c. simpl. rewrite filter_In, Neg. reflexivity. }
    split; [reflexivity |].
    intros h' Nh. unfold countOwners. simpl. f_equal.
    apply filter_filter_implied. intros x O.
    unfold isOwnerOf in O. apply andb_true_iff in O. destruct O as [O _].
    apply String.eqb_eq in O. apply Neg. congruence.
Qed.

(** The sample home, whose member Mom created its one task, is deleted
    with that task and its assignment. *)
Lemma deleteHouse_cascade_witness :
  exists s',
    HouseService.deleteHouse Sample.home Sample.store
    = (Ok true, s', [house_findUnique; house_delete])
    /\ membersOfHouse s' Sample.home = []
    /\ tasks s' = [] /\ taskAssignees s' = []
    /\ countOwners s' Sample.cabin = 1.
Proof.
  destruct (deleteHouse_cascade Sample.store Sample.home) as (_ & P).
  destruct (P (mkHouse Sample.home "Home" None) eq_refl)
    as (s' & Run & _ & Ms & _ & _ & _ & _ & _ & _ & _ & Co).
  - intros t m [<- | []] _ _ _. reflexivity.
  - exists s'. split; [exact Run |]. split; [exact Ms |].
    assert (E : s' = store_of (HouseService.deleteHouse Sample.home Sample.store))
      by now rewrite Run.
    split; [now rewrite E |]. split; [now rewrite E |].
    rewrite Co; [reflexivity | discriminate].
Defined.

(** ** HouseService keeps the constraints of house_members *)

Lemma NoDup_snoc {A} (l : list A) (x : A) : NoDup l -> ~ In x l -> NoDup (l ++ [x]).
Proof.
  intros N I. apply NoDup_app; [exact N | repeat constructor; simpl; tauto |].
  intros a Ia [<- | []]. contradiction.
Qed.

Lemma createHouse_store (hid mid uid : Id) (data : CreateHouseInput) (dn : string)
      (s : Store) :
  store_of (HouseService.createHouse hid mid uid data dn s) = s
  \/ (store_of (HouseService.createHouse hid mid uid data dn s)
       = set_houseMembers
           (set_houses s (houses s ++ [mkHouse hid (chi_name data) (chi_description data)]))
           (houseMembers s ++ [mkHouseMember mid dn OWNER uid hid])
       /\ ~ In mid (map hm_id (houseMembers s))
       /\ ~ In (uid, hid) (map (fun m => (hm_userId m, hm_houseId m)) (houseMembers s))).
Proof.
  remember (HouseService.createHouse hid mid uid data dn s) as o eqn:Eo.
  rewrite createHouse_run in Eo. unfold insertHouse in Eo. simpl in Eo.
  destruct (idIn hid (map house_id (houses s))); [subst o; now left |].
  unfold insertHouseMember in Eo. simpl in Eo.
  destruct (idIn mid (map hm_id (houseMembers s))) eqn:Fm; [subst o; now left |].
  destruct (negb (idIn uid (users s))); [subst o; now left |].
  destruct (negb (idIn hid _)); [subst o; now left |].
  destruct (existsb (fun x => (hm_userId x =? uid) && (hm_houseId x =? hid))
                    (houseMembers s)) eqn:Fk; [subst o; now left |].
  destruct (existsb (fun x => (hm_displayName x =? dn) && (hm_houseId x =? hid))
                    (houseMembers s)); [subst o; now left |].
  right. subst o. split; [reflexivity |]. split.
  - now apply idIn_false.
  - intros I. apply in_map_iff in I. destruct I as [m [Em Im]]. inversion Em.
    assert (existsb (fun x => (hm_userId x =? uid) && (hm_houseId x =? hid))
                    (houseMembers s) = true).
    { apply existsb_exists. exists m. split; [exact Im |].
      now rewrite H0, H1, !String.eqb_refl. }
    congruence.
Qed.

Section KeysKept.

Variable s : Store.
Hypothesis keys : memberKeysHold s.

Lemma createHouse_keeps_keys (hid mid uid : Id) (data : CreateHouseInput) (dn : string) :
  memberKeysHold (store_of (HouseService.createHouse hid mid uid data dn s)).
Proof.
  destruct keys as (U & I & R).
  destruct (createHouse_store hid mid uid data dn s) as [-> | (-> & Fm & Fk)];
    [exact keys |].
  unfold memberKeysHold, uniqueMembership, uniqueMemberIds, membersReferHouses. simpl.
  rewrite !map_app. simpl. split; [| split].
  - now apply NoDup_snoc.
  - now apply NoDup_snoc.
  - intros m Im. apply in_app_iff. apply in_app_iff in Im.
    destruct Im as [Im | [<- | []]]; [left; now apply R | right; simpl; auto].
Qed.

Lemma updateHouse_keeps_keys (houseId : Id) (data : UpdateHouseInput) :
  memberKeysHold (store_of (HouseService.updateHouse houseId data s)).
Proof.
  destruct keys as (U & I & R).
  rewrite updateHouse_run. destruct (findHouse s houseId) as [h |]; [| exact keys].
  unfold memberKeysHold, uniqueMembership, uniqueMemberIds, membersReferHouses,
    store_of. simpl.
  split; [exact U |]. split; [exact I |].
  intros m Im. rewrite map_map.
  rewrite (map_ext _ house_id); [now apply R |].
  intros x. destruct (house_id x =? houseId); reflexivity.
Qed.

Lemma deleteHouse_keeps_keys (houseId : Id) :
  memberKeysHold (store_of (HouseService.deleteHouse houseId s)).
Proof.
  destruct keys as (U & I & R).
  rewrite deleteHouse_run. destruct (findHouse s houseId) as [h |] eqn:F; [| exact keys].
  unfold deleteHouseRow. rewrite F. cbv zeta.
  destruct (existsb _ (tasks s)); [exact keys |].
  unfold memberKeysHold, uniqueMembership, uniqueMemberIds, membersReferHouses,
    store_of. simpl.
  split; [now apply NoDup_map_filter |]. split; [now apply NoDup_map_filter |].
  intros m Im. apply filter_In in Im. destruct Im as [Im Nm].
  apply negb_true_iff in Nm. specialize (R m Im).
  apply in_map_iff in R. destruct R as [x [Ex Ix]].
  apply in_map_iff. exists x. split; [exact Ex |].
  apply filter_In. split; [exact Ix |]. now rewrite Ex, Nm.
Qed.

Lemma removeMember_keeps_keys (houseId targetUserId : Id) :
  memberKeysHold (store_of (HouseService.removeMember houseId targetUserId s)).
Proof.
  destruct keys as (U & I & R).
  assert (K : forall s', deleteHouseMember targetUserId houseId s = Ok (tt, s') ->
                         memberKeysHold s').
  { unfold deleteHouseMember.
    intros s'. destruct (findMember s targetUserId houseId); [| discriminate].
    cbv zeta. destruct (existsb _ (tasks s)); [discriminate |].
    intros E. injection E as <-.
    unfold memberKeysHold, uniqueMembership, uniqueMemberIds, membersReferHouses. simpl.
    split; [now apply NoDup_map_filter |]. split; [now apply NoDup_map_filter |].
    intros m Im. apply filter_In in Im. now apply R. }
  rewrite removeMember_run.
  destruct (findMember s targetUserId houseId) as [m |]; [| exact keys].
  destruct (Role_eqb (hm_role m) OWNER);
    [destruct (countOwners s houseId <=? 1)%nat; [exact keys |] |];
    (destruct (deleteHouseMember targetUserId houseId s) as [[[] s'] | e] eqn:D;
     [now apply K | exact keys]).
Qed.

Lemma updateMemberRole_keeps_keys (houseId targetUserId : Id) (newRole : Role) :
  memberKeysHold (store_of (HouseService.updateMemberRole houseId targetUserId newRole s)).
Proof.
  destruct keys as (U & I & R).
  assert (K : forall m' s',
             updateHouseMemberRole targetUserId houseId newRole s = Ok (m', s') ->
             memberKeysHold s').
  { unfold updateHouseMemberRole.
    intros m' s'. destruct (findMember s targetUserId houseId); [| discriminate].
    intros E. injection E as _ <-.
    unfold memberKeysHold, uniqueMembership, uniqueMemberIds, membersReferHouses. simpl.
    rewrite !map_map.
    rewrite (map_ext _ (fun m => (hm_userId m, hm_houseId m)))
      by (intros x; destruct (isTarget targetUserId houseId x); reflexivity).
    rewrite (map_ext (fun x => hm_id (if isTarget targetUserId houseId x
                                      then setRole newRole x else x)) hm_id)
      by (intros x; destruct (isTarget targetUserId houseId x); reflexivity).
    split; [exact U |]. split; [exact I |].
    intros m Im. apply in_map_iff in Im. destruct Im as [x [Ex Ix]].
    destruct (isTarget targetUserId houseId x); subst m; simpl; now apply R. }
  rewrite updateMemberRole_run.
  destruct (findMember s targetUserId houseId) as [m |]; [| exact keys].
  destruct (Role_eqb (hm_role m) OWNER && negb (Role_eqb newRole OWNER));
    [destruct (countOwners s houseId <=? 1)%nat; [exact keys |] |];
    (destruct (updateHouseMemberRole targetUserId houseId newRole s)
       as [[m' s'] | e] eqn:D; [now apply (K m') | exact keys]).
Qed.

End KeysKept.

(** X4.  The constraints of house_members that the services rely on, one
    membership per user and house, distinct membership ids and every
    membership in an existing house, hold after every writing method of
    HouseService when they held before, whether the call goes through (a
    house deleted with its memberships and tasks, a membership removed) or
    is refused; and they hold in the empty store. *)
Theorem houseService_keeps_member_keys (s : Store) :
  memberKeysHold s ->
  (forall hid mid uid data dn,
      memberKeysHold (store_of (HouseService.createHouse hid mid uid data dn s)))
  /\ (forall houseId data,
         memberKeysHold (store_of (HouseService.updateHouse houseId data s)))
  /\ (forall houseId, memberKeysHold (store_of (HouseService.deleteHouse houseId s)))
  /\ (forall houseId targetUserId,
         memberKeysHold (store_of (HouseService.removeMember houseId targetUserId s)))
  /\ (forall houseId targetUserId newRole,
         memberKeysHold
           (store_of (HouseService.updateMemberRole houseId targetUserId newRole s)))
  /\ memberKeysHold (mkStore [] [] [] [] [] []).
Proof.
  intros K.
  split; [intros; now apply createHouse_keeps_keys |].
  split; [intros; now apply updateHouse_keeps_keys |].
  split; [intros; now apply deleteHouse_keeps_keys |].
  split; [intros; now apply removeMember_keeps_keys |].
  split; [intros; now apply updateMemberRole_keeps_keys |].
  repeat split; [constructor | constructor | intros m []].
Qed.

Lemma sample_memberKeysHold : memberKeysHold Sample.store.
Proof.
  split; [exact sample_uniqueMembership |].
  split; [exact sample_uniqueMemberIds | exact sample_membersReferHouses].
Qed.

(** Two writes that go through in the sample store: the home is deleted
    with its members, and Kid, who created no task, is removed. *)
Lemma houseService_keeps_member_keys_witness :
  result_of (HouseService.deleteHouse Sample.home Sample.store) = Ok true
  /\ memberKeysHold (store_of (HouseService.deleteHouse Sample.home Sample.store))
  /\ result_of (HouseService.removeMember Sample.home Sample.userC Sample.store) = Ok true
  /\ memberKeysHold
       (store_of (HouseService.removeMember Sample.home Sample.userC Sample.store)).
Proof.
  destruct (houseService_keeps_member_keys Sample.store sample_memberKeysHold)
    as (_ & _ & D & R & _).
  split; [reflexivity |]. split; [apply D |]. split; [reflexivity | apply R].
Defined.

(** ** The middleware chain *)

Lemma requireHouseMember_run (req : HttpRequest) (s : Store) :
  HousesMiddleware.requireHouseMember req s =
  if negb (truthy (http_user req))
  then (Err (ForbiddenError "Authentication required"), s, [])
  else if negb (truthy (param "id" (http_params req)))
  then (Err (NotFoundError "House ID is required"), s, [])
  else
    match http_user req, param "id" (http_params req) with
    | Some u, Some h =>
        match findMember s u h with
        | Some m => (Ok (withMember req m), s, [houseMember_findUnique])
        | None => (Err (ForbiddenError "You are not a member of this house"), s,
                   [houseMember_findUnique])
        end
    | _, _ => (Err (ForbiddenError "Authentication required"), s, [])
    end.
Proof.
  unfold HousesMiddleware.requireHouseMember.
  destruct (negb (truthy (http_user req))); [reflexivity |].
  destruct (negb (truthy (param "id" (http_params req)))); [reflexivity |].
  destruct (http_user req) as [u |]; [| reflexivity].
  destruct (param "id" (http_params req)) as [h |]; [| reflexivity].
  run_monad. destruct (findMember s u h); reflexivity.
Qed.

Lemma findMember_found (s : Store) (u h : Id) (m : HouseMember) :
  findMember s u h = Some m ->
  In m (houseMembers s) /\ hm_userId m = u /\ hm_houseId m = h.
Proof.
  unfold findMember. intros F. apply find_some in F. destruct F as [I F].
  apply andb_true_iff in F. destruct F as [F1 F2].
  apply String.eqb_eq in F1, F2. auto.
Qed.

(** X5.  [requireHouseMember] never writes.  It passes a request on
    exactly when the request carries a user, the path carries a house id
    and the store has the membership of that user in that house; the
    membership it attaches is that stored row, so it belongs to the caller
    and to the house of the path.  Otherwise it fails with 403, or with
    404 when the house id is missing. *)
Theorem requireHouseMember_attaches (req : HttpRequest) (s : Store) :
  store_of (HousesMiddleware.requireHouseMember req s) = s
  /\ forallb (fun c => negb (mutating c))
             (calls_of (HousesMiddleware.requireHouseMember req s)) = true
  /\ match result_of (HousesMiddleware.requireHouseMember req s) with
     | Ok req' =>
         exists u h m,
           http_user req = Some u /\ u <> ""
           /\ param "id" (http_params req) = Some h /\ h <> ""
           /\ findMember s u h = Some m
           /\ In m (houseMembers s) /\ hm_userId m = u /\ hm_houseId m = h
           /\ req' = withMember req m
     | Err e =>
         (er_code (errorHandler e) = 403
          /\ forall u h m, http_user req = Some u -> u <> "" ->
                           param "id" (http_params req) = Some h ->
                           findMember s u h <> Some m)
         \/ (er_code (errorHandler e) = 404
             /\ (param "id" (http_params req) = None
                 \/ param "id" (http_params req) = Some ""))
     end.
Proof.
  rewrite requireHouseMember_run.
  destruct (http_user req) as [u |]; simpl.
  2: { repeat split. left. split; [reflexivity |]. discriminate. }
  destruct (String.eqb_spec u "") as [-> | Nu]; simpl.
  { repeat split. left. split; [reflexivity |]. intros u h m E. inversion E. congruence. }
  destruct (param "id" (http_params req)) as [h |]; simpl.
  2: { repeat split. right. auto. }
  destruct (String.eqb_spec h "") as [-> | Nh]; simpl.
  { repeat split. right. auto. }
  destruct (findMember s u h) as [m |] eqn:F.
  - repeat split. destruct (findMember_found _ _ _ _ F) as (I & Hu & Hh).
    exists u, h, m. repeat split; auto.
  - repeat split. left. split; [reflexivity |].
    intros u' h' m E Nu' E'. inversion E. inversion E'. subst. congruence.
Qed.

Lemma hasRequiredRole_iff (userRole requiredRole : Role) :
  HousesMiddleware.hasRequiredRole userRole requiredRole = true
  <-> userRole = OWNER \/ requiredRole = MEMBER.
Proof.
  destruct userRole, requiredRole; simpl; split; intros H; auto;
    try discriminate; destruct H; discriminate.
Qed.

(** X6.  The role hierarchy is a total order with OWNER on top: every role
    satisfies itself, satisfaction is transitive, of two roles one
    satisfies the other, OWNER satisfies every requirement and MEMBER only
    the requirement MEMBER.  [requireHouseRole] passes the request on
    unchanged exactly when a membership is attached whose role satisfies
    the requirement, and fails with 403 otherwise; it never touches the
    store. *)
Theorem role_hierarchy_gate (required : Role) (req : HttpRequest) (s : Store) :
  (forall r, HousesMiddleware.hasRequiredRole r r = true)
  /\ (forall a b c, HousesMiddleware.hasRequiredRole a b = true ->
                    HousesMiddleware.hasRequiredRole b c = true ->
                    HousesMiddleware.hasRequiredRole a c = true)
  /\ (forall a b, HousesMiddleware.hasRequiredRole a b = true
                  \/ HousesMiddleware.hasRequiredRole b a = true)
  /\ (forall a b, HousesMiddleware.hasRequiredRole a b = true
                  <-> a = OWNER \/ b = MEMBER)
  /\ (HousesMiddleware.requireHouseRole required req s = (Ok req, s, [])
      <-> exists m, http_houseMember req = Some m
                    /\ (hm_role m = OWNER \/ required = MEMBER))
  /\ (HousesMiddleware.requireHouseRole required req s = (Ok req, s, [])
      \/ exists msg, HousesMiddleware.requireHouseRole required req s
                      = (Err (ForbiddenError msg), s, [])).
Proof.
  split; [intros []; reflexivity |].
  split; [intros [] [] []; cbv; intros; congruence |].
  split; [intros [] []; cbv; auto |].
  split; [apply hasRequiredRole_iff |].
  unfold HousesMiddleware.requireHouseRole.
  destruct (http_houseMember req) as [m |]; simpl.
  - destruct (HousesMiddleware.hasRequiredRole (hm_role m) required) eqn:H; simpl.
    + split; [| now left]. split; [| reflexivity].
      intros _. exists m. split; [reflexivity |]. now apply hasRequiredRole_iff.
    + split; [| right; eexists; reflexivity]. split; [discriminate |].
      intros (m' & E & K). inversion E; subst m'.
      apply hasRequiredRole_iff in K. congruence.
  - split; [| right; eexists; reflexivity]. split; [discriminate |].
    intros (m' & E & _). discriminate.
Qed.

(** ** The owner-only house routes *)






(** ** The task routes *)

Lemma member_route_run {A} (controller : Request -> M A) (req : HttpRequest) (s : Store) :
  route [HousesMiddleware.requireHouseMember] controller req s
  = match HousesMiddleware.requireHouseMember req s with
    | (Ok req', _, calls) =>
        match controller (attached req') s with
        | (r, s', calls') => (r, s', calls ++ calls')
        end
    | (Err e, _, calls) => (Err e, s, calls)
    end.
Proof.
  pose proof (requireHouseMember_attaches req s) as (St & _ & _).
  unfold route, chain, bind at 1, bind at 1.
  destruct (HousesMiddleware.requireHouseMember req s) as [[[req' | e] s1] calls];
    unfold store_of in St; simpl in St; subst s1; [| reflexivity].
  unfold ret. rewrite app_nil_r.
  destruct (controller (attached req') s) as [[r s'] calls']. reflexivity.
Qed.

Lemma findMemberById_listed (s : Store) (m : HouseMember) :
  uniqueMemberIds s -> In m (houseMembers s) -> findMemberById s (hm_id m) = Some m.
Proof.
  unfold uniqueMemberIds, findMemberById. intros U I.
  destruct (find (fun x => hm_id x =? hm_id m) (houseMembers s)) as [x |] eqn:F.
  - apply find_some in F. destruct F as [Ix Ex]. apply String.eqb_eq in Ex.
    f_equal. now apply (keyed_rows_equal hm_id (houseMembers s)).
  - apply (find_none _ _ F) in I. now rewrite String.eqb_refl in I.
Qed.

Lemma param_field (k : string) (o : JObject) (v : string) :
  param k o = Some v -> field k o = Some (JStr v).
Proof.
  unfold param. destruct (field k o) as [[| b | n | x | l] |]; try discriminate.
  intros E. now inversion E.
Qed.

(** X8.  DELETE /:id/tasks/:taskId through the chain.  A caller without a
    membership in the house of the path gets 403 and nothing changes,
    whatever the caller is elsewhere.  For a member of that house and a
    task of that house, the task is deleted exactly when the caller's
    membership in that house created it or has role OWNER; otherwise the
    answer is Forbidden and nothing changes. *)
Theorem deleteTask_route_checks_this_house (isUuid : string -> bool)
        (req : HttpRequest) (s : Store) (u h t : Id) :
  uniqueMemberIds s ->
  http_user req = Some u -> u <> "" ->
  param "id" (http_params req) = Some h -> h <> "" -> isUuid h = true ->
  param "taskId" (http_params req) = Some t -> isUuid t = true ->
  (findMember s u h = None ->
   TaskRoutes.deleteTask isUuid req s
   = (Err (ForbiddenError "You are not a member of this house"), s,
      [houseMember_findUnique]))
  /\ (forall (m : HouseMember) (T : Task),
         findMember s u h = Some m ->
         findTaskInHouse s t h = Some T ->
         (task_createdById T = hm_id m \/ hm_role m = OWNER ->
          exists s',
            TaskRoutes.deleteTask isUuid req s
            = (Ok true, s',
               [houseMember_findUnique; task_findFirst; houseMember_findUnique;
                task_delete])
            /\ findTask s' t = None)
         /\ (task_createdById T <> hm_id m -> hm_role m = MEMBER ->
             TaskRoutes.deleteTask isUuid req s
             = (Err (ForbiddenError
                       "Only task creator or house owner can delete this task"), s,
                [houseMember_findUnique; task_findFirst; houseMember_findUnique]))).
Proof.
  intros U Eu Nu Eh Nh Uh Et Ut.
  assert (Pre : HousesMiddleware.requireHouseMember req s
                          = match findMember s u h with
                            | Some m => (Ok (withMember req m), s, [houseMember_findUnique])
                            | None =>
                                (Err (ForbiddenError "You are not a member of this house"),
                                 s, [houseMember_findUnique])
                            end).
  { rewrite requireHouseMember_run, Eu, Eh.
    apply String.eqb_neq in Nu, Nh. simpl. now rewrite Nu, Nh. }
  unfold TaskRoutes.deleteTask. rewrite member_route_run, Pre.
  split.
  - intros F. now rewrite F.
  - intros m T F FT. rewrite F.
    destruct (findMember_found _ _ _ _ F) as (Im & _ & _).
    assert (Ctl : TaskController.deleteTask isUuid (attached (withMember req m)) s
                  = TaskService.deleteTask t h (hm_id m) s).
    { unfold TaskController.deleteTask, bind at 1, parse. simpl.
      unfold Schema.houseIdParamSchema, Schema.taskIdParamSchema, Schema.uuidSchema.
      rewrite (param_field _ _ _ Eh). simpl. rewrite Uh.
      unfold bind at 1. rewrite (param_field _ _ _ Et). simpl. rewrite Ut.
      destruct (TaskService.deleteTask t h (hm_id m) s) as [[r s'] c]. reflexivity. }
    rewrite Ctl, deleteTask_run, FT, (findMemberById_listed s m U Im).
    split.
    + intros C.
      assert (B : (task_createdById T =? hm_id m) || Role_eqb (hm_role m) OWNER = true).
      { apply orb_true_iff. rewrite String.eqb_eq, Role_eqb_eq. exact C. }
      rewrite B.
      destruct (findTaskInHouse_findTask _ _ _ _ FT) as [t' Ft].
      unfold deleteTaskRow. rewrite Ft. eexists. split; [reflexivity |].
      unfold findTask. simpl. apply (find_filter_none (fun x => task_id x =? t)).
    + intros NC RM.
      apply String.eqb_neq in NC. rewrite NC, RM. reflexivity.
Qed.

Lemma deleteTask_route_checks_this_house_witness :
  TaskRoutes.deleteTask Sample.isUuid
    (mkHttpRequest [("id", JStr Sample.home); ("taskId", JStr Sample.choresId)] [] []
                   (Some Sample.userC) None) Sample.store
  = (Err (ForbiddenError "Only task creator or house owner can delete this task"),
     Sample.store,
     [houseMember_findUnique; task_findFirst; houseMember_findUnique]).
Proof.
  destruct (deleteTask_route_checks_this_house Sample.isUuid
              (mkHttpRequest [("id", JStr Sample.home); ("taskId", JStr Sample.choresId)]
                             [] [] (Some Sample.userC) None)
              Sample.store Sample.userC Sample.home Sample.choresId
              sample_uniqueMemberIds eq_refl ltac:(discriminate) eq_refl
              ltac:(discriminate) eq_refl eq_refl eq_refl) as [_ P].
  destruct (P Sample.kid Sample.chores eq_refl eq_refl) as [_ N].
  apply N; [discriminate | reflexivity].
Defined.

(** ** Assignee lists: repeated ids, and the answers of the assignees endpoint *)

Lemma nodup_shorter (l : list string) :
  ~ NoDup l -> length (nodup string_dec l) < length l.
Proof.
  induction l as [| a l IH]; intros N.
  - exfalso. apply N. constructor.
  - simpl. destruct (in_dec string_dec a l) as [I | I].
    + assert (length (nodup string_dec l) <= length l).
      { apply NoDup_incl_length; [apply NoDup_nodup |].
        intros x Hx. now apply nodup_In in Hx. }
      lia.
    + simpl. apply -> Nat.succ_lt_mono. apply IH. intros Nl. apply N. now constructor.
Qed.

(** A list with a repeated id makes the lookup come back short, even when
    every id is a membership of the house. *)
Lemma repeated_assignee_short (s : Store) (houseId : Id) (ids : list string) :
  uniqueMemberIds s -> ~ NoDup ids ->
  length (findMembersIn s ids houseId) < length ids.
Proof.
  intros U N. unfold findMembersIn.
  set (valid := filter _ (houseMembers s)).
  assert (Nv : NoDup (map hm_id valid)) by (apply NoDup_map_filter; exact U).
  assert (Inc : incl (map hm_id valid) (nodup string_dec ids)).
  { intros x Hx. apply in_map_iff in Hx. destruct Hx as [m [Em Im]].
    apply filter_In in Im. destruct Im as [_ Pm].
    apply andb_true_iff in Pm. destruct Pm as [P1 _].
    apply idIn_In in P1. apply nodup_In. now rewrite <- Em. }
  pose proof (NoDup_incl_length Nv Inc) as L1.
  pose proof (nodup_shorter ids N) as L2.
  rewrite length_map in L1. unfold Id in *. lia.
Qed.

Lemma updateTaskAssignees_short (s : Store) (taskId houseId M : Id) (T : Task)
      (ids : list string) :
  findTaskInHouse s taskId houseId = Some T ->
  TaskService.canUserModifyTask (viewTask s T) M = true ->
  length (findMembersIn s ids houseId) < length ids ->
  TaskService.updateTaskAssignees taskId houseId M (mkUpdateTaskAssigneesInput ids) s
  = (Err (UnprocessableEntityError "Some assignees are not members of this house"), s,
     [task_findFirst; houseMember_findMany]).
Proof.
  intros F C L.
  unfold TaskService.updateTaskAssignees, bind at 1.
  rewrite getTaskById_run, F, C.
  change (negb true) with false. cbn [utai_assigneeIds]. cbv beta iota zeta.
  assert (Z : (0 <? length ids)%nat = true) by (apply Nat.ltb_lt; lia).
  rewrite Z. unfold bind at 1. rewrite checkAssignees_run.
  assert (Ne : (length (findMembersIn s ids houseId) =? length ids)%nat = false)
    by (apply Nat.eqb_neq; lia).
  now rewrite Ne.
Qed.

Lemma createTask_short (parseDate : string -> Date) (newTaskId : Id) (now : Date)
      (houseId createdById : Id) (data : CreateTaskInput) (s : Store) (ids : list string) :
  cti_assigneeIds data = Some ids ->
  length (findMembersIn s ids houseId) < length ids ->
  TaskService.createTask parseDate newTaskId now houseId createdById data s
  = (Err (UnprocessableEntityError "Some assignees are not members of this house"), s,
     [houseMember_findMany]).
Proof.
  intros D L. unfold TaskService.createTask. unfold bind at 1. rewrite D.
  assert (Z : (0 <? length ids)%nat = true) by (apply Nat.ltb_lt; lia).
  rewrite Z, checkAssignees_run.
  assert (Ne : (length (findMembersIn s ids houseId) =? length ids)%nat = false)
    by (apply Nat.eqb_neq; lia).
  now rewrite Ne.
Qed.

(** X9.  An assignee list in which an id occurs twice is refused as "not
    members of this house", by [createTask] and by [updateTaskAssignees],
    even when every id in it is a membership of the house; nothing is
    written. *)
Theorem repeated_assignee_rejected (parseDate : string -> Date) (s : Store)
        (houseId : Id) (ids : list string) :
  uniqueMemberIds s ->
  ~ NoDup ids ->
  (forall (newTaskId : Id) (now : Date) (createdById : Id) (data : CreateTaskInput),
      cti_assigneeIds data = Some ids ->
      TaskService.createTask parseDate newTaskId now houseId createdById data s
      = (Err (UnprocessableEntityError "Some assignees are not members of this house"), s,
         [houseMember_findMany]))
  /\ (forall (taskId M : Id) (T : Task),
         findTaskInHouse s taskId houseId = Some T ->
         TaskService.canUserModifyTask (viewTask s T) M = true ->
         TaskService.updateTaskAssignees taskId houseId M (mkUpdateTaskAssigneesInput ids) s
         = (Err (UnprocessableEntityError "Some assignees are not members of this house"),
            s, [task_findFirst; houseMember_findMany])).
Proof.
  intros U N. pose proof (repeated_assignee_short s houseId ids U N) as L. split.
  - intros newTaskId now createdById data D. now apply createTask_short with ids.
  - intros taskId M T F C. now apply updateTaskAssignees_short with T.
Qed.

Lemma repeated_assignee_rejected_witness :
  TaskService.updateTaskAssignees Sample.choresId Sample.home Sample.momId
    (mkUpdateTaskAssigneesInput [Sample.kidId; Sample.kidId]) Sample.store
  = (Err (UnprocessableEntityError "Some assignees are not members of this house"),
     Sample.store, [task_findFirst; houseMember_findMany])
  /\ In Sample.kid (membersOfHouse Sample.store Sample.home).
Proof.
  split; [| simpl; auto].
  destruct (repeated_assignee_rejected Sample.noDate Sample.store Sample.home
              [Sample.kidId; Sample.kidId] sample_uniqueMemberIds) as [_ P].
  - intros N. inversion N as [| ? ? Hx _]. apply Hx. simpl. auto.
  - apply (P Sample.choresId Sample.momId Sample.chores); reflexivity.
Defined.

Lemma parseEach_uuids (isUuid : string -> bool) (msg : string) (ids : list string) :
  forallb isUuid ids = true ->
  Schema.parseEach (Schema.uuidSchema isUuid msg) (map JStr ids) = Ok ids.
Proof.
  induction ids as [| i ids IH]; simpl; [reflexivity |].
  rewrite andb_true_iff. intros [Hi Hr]. rewrite Hi. simpl. now rewrite (IH Hr).
Qed.

(** A well-formed request reaches the service with the ids of its body. *)
Lemma controller_updateTaskAssignees_run (isUuid : string -> bool) (req : Request)
      (s : Store) (h t : Id) (ids : list string) :
  field "id" (req_params req) = Some (JStr h) -> isUuid h = true ->
  field "taskId" (req_params req) = Some (JStr t) -> isUuid t = true ->
  field "assigneeIds" (req_body req) = Some (JArr (map JStr ids)) ->
  forallb isUuid ids = true ->
  length ids <= 10 ->
  TaskController.updateTaskAssignees isUuid req s
  = TaskService.updateTaskAssignees t h (req_houseMemberId req)
      (mkUpdateTaskAssigneesInput ids) s.
Proof.
  intros Eh Uh Et Ut Eb Ub Len.
  unfold TaskController.updateTaskAssignees, bind at 1, parse.
  unfold Schema.houseIdParamSchema, Schema.taskIdParamSchema, Schema.uuidSchema.
  rewrite Eh. simpl. rewrite Uh. unfold bind at 1. rewrite Et. simpl. rewrite Ut.
  unfold bind at 1, Schema.updateTaskAssigneesSchema. rewrite Eb.
  unfold Schema.zDefault, Schema.assigneeIdsSchema, Schema.zOptional.
  rewrite parseEach_uuids by exact Ub. simpl.
  assert (Z : (10 <? length ids)%nat = false) by (apply Nat.ltb_ge; lia).
  rewrite Z. simpl.
  destruct (TaskService.updateTaskAssignees t h (req_houseMemberId req)
              (mkUpdateTaskAssigneesInput ids) s) as [[r s'] c].
  reflexivity.
Qed.

(** X10.  The answers of PUT /:id/tasks/:taskId/assignees when it fails.
    More than ten ids: the schema's error is not an application error, so
    the answer is 500 with the fixed message.  For a well-formed request
    of at most ten ids: 404 when the task is not in the house, 403 when
    the caller is neither creator nor assignee, 422 when an id is not a
    membership of the house.  In every case the store is unchanged. *)
Theorem assignees_endpoint_answers (isUuid : string -> bool) (req : Request) (s : Store)
        (h t : Id) (ids : list string) :
  field "id" (req_params req) = Some (JStr h) -> isUuid h = true ->
  field "taskId" (req_params req) = Some (JStr t) -> isUuid t = true ->
  (forall l, field "assigneeIds" (req_body req) = Some (JArr l) -> 10 < length l ->
             exists e, TaskController.updateTaskAssignees isUuid req s = (Err e, s, [])
                       /\ errorHandler e
                          = mkErrorResponse 500 "An unexpected error occurred")
  /\ (field "assigneeIds" (req_body req) = Some (JArr (map JStr ids)) ->
      forallb isUuid ids = true ->
      length ids <= 10 ->
      (findTaskInHouse s t h = None ->
       exists e calls,
         TaskController.updateTaskAssignees isUuid req s = (Err e, s, calls)
         /\ errorHandler e = mkErrorResponse 404 "Task not found")
      /\ (forall T, findTaskInHouse s t h = Some T ->
            TaskService.canUserModifyTask (viewTask s T) (req_houseMemberId req) = false ->
            exists e calls,
              TaskController.updateTaskAssignees isUuid req s = (Err e, s, calls)
              /\ errorHandler e
                 = mkErrorResponse 403
                     "Only task creator, assignees, or house owner can update task assignees")
      /\ (forall T bad, findTaskInHouse s t h = Some T ->
            TaskService.canUserModifyTask (viewTask s T) (req_houseMemberId req) = true ->
            uniqueMemberIds s ->
            In bad ids ->
            (forall m, In m (houseMembers s) -> hm_id m = bad -> hm_houseId m <> h) ->
            exists e calls,
              TaskController.updateTaskAssignees isUuid req s = (Err e, s, calls)
              /\ errorHandler e
                 = mkErrorResponse 422 "Some assignees are not members of this house")).
Proof.
  intros Eh Uh Et Ut. split.
  - intros l El Len.
    destruct (controller_rejects_over_cap isUuid req s l El Len) as [m Run].
    eexists. split; [exact Run | reflexivity].
  - intros Eb Ub Len.
    rewrite (controller_updateTaskAssignees_run isUuid req s h t ids Eh Uh Et Ut Eb Ub Len).
    split; [| split].
    + intros F. unfold TaskService.updateTaskAssignees, bind at 1.
      rewrite getTaskById_run, F. eexists. eexists. split; reflexivity.
    + intros T F C. rewrite (updateTaskAssignees_refused s t h _ T F C).
      eexists. eexists. split; reflexivity.
    + intros T bad F C U Ib Foreign.
      rewrite (updateTaskAssignees_short s t h _ T ids F C
                 (foreign_assignee_short s h ids bad U Ib Foreign)).
      eexists. eexists. split; reflexivity.
Qed.

Lemma assignees_endpoint_answers_witness :
  exists e calls,
    TaskController.updateTaskAssignees Sample.isUuid
      (mkRequest [("id", JStr Sample.home); ("taskId", JStr Sample.choresId)] []
                 [("assigneeIds", JArr (map JStr [Sample.guestId]))]
                 Sample.userB Sample.momId) Sample.store
    = (Err e, Sample.store, calls)
    /\ errorHandler e
       = mkErrorResponse 422 "Some assignees are not members of this house".
Proof.
  destruct (assignees_endpoint_answers Sample.isUuid
              (mkRequest [("id", JStr Sample.home); ("taskId", JStr Sample.choresId)] []
                         [("assigneeIds", JArr (map JStr [Sample.guestId]))]
                         Sample.userB Sample.momId) Sample.store
              Sample.home Sample.choresId [Sample.guestId]
              eq_refl eq_refl eq_refl eq_refl) as [_ P].
  destruct (P eq_refl eq_refl ltac:(simpl; lia)) as (_ & _ & Q).
  apply (Q Sample.chores Sample.guestId eq_refl eq_refl sample_uniqueMemberIds).
  - simpl. auto.
  - intros m. simpl.
    intros [<- | [<- | [<- | [<- | []]]]]; simpl; intros E; discriminate.
Defined.

(** ** TaskService: a task is reached only through its house *)

Lemma findTaskInHouse_none (s : Store) (taskId houseId : Id) :
  (forall t, In t (tasks s) -> task_id t = taskId -> task_houseId t <> houseId) ->
  findTaskInHouse s taskId houseId = None.
Proof.
  intros N. unfold findTaskInHouse.
  destruct (find _ (tasks s)) as [t |] eqn:F; [| reflexivity].
  apply find_some in F. destruct F as [I F]. apply andb_true_iff in F.
  destruct F as [F1 F2]. apply String.eqb_eq in F1, F2. now elim (N t I F1).
Qed.

(** X11.  [getTaskById] never writes; what it returns is a stored task with
    the requested id and the requested house, with its assignment rows.
    When no task of that id is in that house (the task may exist in
    another house), [getTaskById], [updateTask], [updateTaskStatus],
    [updateTaskAssignees] and [deleteTask] all fail with NotFound for every
    actor, its creator and owners included, and change nothing. *)
Theorem task_reached_through_its_house (parseDate : string -> Date) (s : Store)
        (taskId houseId : Id) :
  (forall v s' calls,
      TaskService.getTaskById taskId houseId s = (Ok v, s', calls) ->
      s' = s /\ calls = [task_findFirst]
      /\ In (tv_task v) (tasks s)
      /\ task_id (tv_task v) = taskId /\ task_houseId (tv_task v) = houseId
      /\ tv_assignees v = assigneesOf s taskId)
  /\ ((forall t, In t (tasks s) -> task_id t = taskId -> task_houseId t <> houseId) ->
      TaskService.getTaskById taskId houseId s
      = (Err (NotFoundError "Task not found"), s, [task_findFirst])
      /\ (forall M data,
             TaskService.updateTask parseDate taskId houseId M data s
             = (Err (NotFoundError "Task not found"), s, [task_findFirst]))
      /\ (forall now M data,
             TaskService.updateTaskStatus now taskId houseId M data s
             = (Err (NotFoundError "Task not found"), s, [task_findFirst]))
      /\ (forall M data,
             TaskService.updateTaskAssignees taskId houseId M data s
             = (Err (NotFoundError "Task not found"), s, [task_findFirst]))
      /\ (forall M,
             TaskService.deleteTask taskId houseId M s
             = (Err (NotFoundError "Task not found"), s, [task_findFirst]))).
Proof.
  split.
  - intros v s' calls. rewrite getTaskById_run.
    destruct (findTaskInHouse s taskId houseId) as [t |] eqn:F; [| discriminate].
    intros E. inversion E. subst. clear E.
    unfold findTaskInHouse in F. apply find_some in F. destruct F as [I F].
    apply andb_true_iff in F. destruct F as [F1 F2]. apply String.eqb_eq in F1, F2.
    simpl. rewrite F1. auto 10.
  - intros N. pose proof (findTaskInHouse_none s taskId houseId N) as F.
    split; [now rewrite getTaskById_run, F |].
    split; [intros; unfold TaskService.updateTask, bind at 1;
            now rewrite getTaskById_run, F |].
    split; [intros; unfold TaskService.updateTaskStatus, bind at 1;
            now rewrite getTaskById_run, F |].
    split; [intros; unfold TaskService.updateTaskAssignees, bind at 1;
            now rewrite getTaskById_run, F |].
    intros. now rewrite deleteTask_run, F.
Qed.

Lemma task_reached_through_its_house_witness :
  TaskService.deleteTask Sample.choresId Sample.cabin Sample.guestId Sample.store
  = (Err (NotFoundError "Task not found"), Sample.store, [task_findFirst])
  /\ hm_role Sample.guest = OWNER.
Proof.
  split; [| reflexivity].
  destruct (task_reached_through_its_house Sample.noDate Sample.store
              Sample.choresId Sample.cabin) as [_ P].
  destruct P as (_ & _ & _ & _ & D).
  - intros t [<- | []] _. discriminate.
  - apply D.
Defined.

(** ** TaskService: the category of a task belongs to its house *)

Lemma checkCategory_run (houseId c : Id) (s : Store) :
  TaskService.checkCategory houseId c s =
  match findCategory s c with
  | Some k =>
      if cat_houseId k =? houseId then (Ok tt, s, [category_findUnique])
      else (Err (UnprocessableEntityError "Category does not belong to this house"), s,
            [category_findUnique])
  | None => (Err (UnprocessableEntityError "Category does not belong to this house"), s,
             [category_findUnique])
  end.
Proof.
  unfold TaskService.checkCategory. run_monad.
  destruct (findCategory s c) as [k |]; [| reflexivity].
  destruct (cat_houseId k =? houseId); reflexivity.
Qed.

(** X12.  A category id that is not empty and is not the id of a category
    of the house (it is unknown, or it is a category of another house) is
    refused with the unprocessable error, by [createTask] once the
    assignees have passed and by [updateTask] for a permitted actor; the
    store is unchanged and the only calls are reads. *)
Theorem foreign_category_rejected (parseDate : string -> Date) (s : Store)
        (houseId c : Id) :
  c <> "" ->
  (forall k, findCategory s c = Some k -> cat_houseId k <> houseId) ->
  (forall newTaskId now createdById data,
      cti_categoryId data = Some c ->
      cti_assigneeIds data = None \/ cti_assigneeIds data = Some [] ->
      TaskService.createTask parseDate newTaskId now houseId createdById data s
      = (Err (UnprocessableEntityError "Category does not belong to this house"), s,
         [category_findUnique]))
  /\ (forall taskId M T data,
         findTaskInHouse s taskId houseId = Some T ->
         TaskService.canUserModifyTask (viewTask s T) M = true ->
         uti_categoryId data = Some c ->
         TaskService.updateTask parseDate taskId houseId M data s
         = (Err (UnprocessableEntityError "Category does not belong to this house"), s,
            [task_findFirst; category_findUnique])).
Proof.
  intros Nc Foreign.
  assert (Chk : TaskService.checkCategory houseId c s
                = (Err (UnprocessableEntityError "Category does not belong to this house"),
                   s, [category_findUnique])).
  { rewrite checkCategory_run. destruct (findCategory s c) as [k |]; [| reflexivity].
    specialize (Foreign k eq_refl). apply String.eqb_neq in Foreign.
    now rewrite Foreign. }
  assert (Tr : truthy (@Some string c) = true).
  { simpl. apply negb_true_iff. now apply String.eqb_neq. }
  split.
  - intros newTaskId now createdById data Ec Ea.
    unfold TaskService.createTask. unfold bind at 1.
    assert (P1 : (match cti_assigneeIds data with
                  | Some ids => if (0 <? length ids)%nat
                                then TaskService.checkAssignees houseId ids else ret tt
                  | None => ret tt
                  end) s = (Ok tt, s, [])).
    { destruct Ea as [-> | ->]; reflexivity. }
    rewrite P1. cbv beta iota. unfold bind at 1. rewrite Ec. cbv beta iota.
    rewrite Tr, Chk. reflexivity.
  - intros taskId M T data F C Ec.
    unfold TaskService.updateTask, bind at 1. rewrite getTaskById_run, F, C.
    change (negb true) with false. cbv beta iota zeta.
    unfold bind at 1. rewrite Ec. cbv beta iota. rewrite Tr, Chk. reflexivity.
Qed.

Lemma foreign_category_rejected_witness :
  TaskService.updateTask Sample.noDate Sample.choresId Sample.home Sample.momId
    (mkUpdateTaskInput None None None None (Some Sample.gardenId)) Sample.store
  = (Err (UnprocessableEntityError "Category does not belong to this house"),
     Sample.store, [task_findFirst; category_findUnique]).
Proof.
  destruct (foreign_category_rejected Sample.noDate Sample.store Sample.home
              Sample.gardenId ltac:(discriminate)) as [_ P].
  - intros k E. vm_compute in E. inversion E. discriminate.
  - apply (P Sample.choresId Sample.momId Sample.chores); reflexivity.
Defined.

(** ** TaskService: the task list under filters *)

Lemma getHouseTasks_run (now : Date) (houseId userId : Id) (filters : TaskFilterInput)
      (s : Store) :
  TaskService.getHouseTasks now houseId userId filters s =
  match findMember s userId houseId with
  | None => (Err (ForbiddenError "You are not a member of this house"), s,
             [houseMember_findUnique])
  | Some cm =>
      let page := match f_page filters with Some p => p | None => 1%Z end in
      let limit := match f_limit filters with Some l => l | None => 20%Z end in
      let w := listingWhere now houseId cm filters in
      match page_of ((page - 1) * limit)%Z limit
                    (orderTasks (filter (matchesWhere s w) (tasks s))) with
      | Ok l =>
          (Ok (mkTaskList (map (viewTask s) l)
                 (mkPagination page limit (countTasks s w)
                    (ceilDiv (countTasks s w) limit))),
           s, [houseMember_findUnique; task_findMany; task_count])
      | Err e => (Err e, s, [houseMember_findUnique; task_findMany])
      end
  end.
Proof.
  unfold TaskService.getHouseTasks. cbv zeta.
  unfold bind at 1, query at 1.
  destruct (findMember s userId houseId) as [cm |]; [| reflexivity].
  unfold bind, command, query, ret, findTasksPage, listingWhere.
  destruct (page_of _ _ _); reflexivity.
Qed.

Lemma In_firstn {A} (n : nat) (l : list A) (x : A) : In x (firstn n l) -> In x l.
Proof. intros I. rewrite <- (firstn_skipn n l). apply in_or_app. now left. Qed.

Lemma In_skipn {A} (n : nat) (l : list A) (x : A) : In x (skipn n l) -> In x l.
Proof. intros I. rewrite <- (firstn_skipn n l). apply in_or_app. now right. Qed.

Lemma page_of_incl {A} (skip take : Z) (l r : list A) (x : A) :
  page_of skip take l = Ok r -> In x r -> In x l.
Proof.
  unfold page_of. destruct (negb (isInt skip) || negb (isInt take)); [discriminate |].
  destruct (skip <? 0)%Z; [discriminate |].
  destruct (take <? 0)%Z; intros E; inversion E; subst; clear E; intros I.
  - apply in_rev in I. apply In_firstn, In_skipn in I. now apply in_rev.
  - now apply In_firstn, In_skipn in I.
Qed.

(** X13.  [getHouseTasks] refuses a caller who is not a member of the house
    before it reads any task.  For a member it never writes, and every task
    it returns is a stored task of that house that passes each filter that
    is set: the priority, a category id that is not empty, creation by the
    caller's own membership, assignment to it.  With [overdue] set, every
    returned task is PENDING with a due date before now, whatever status
    was asked for; only without [overdue] does the status filter apply. *)
Theorem listing_respects_filters (now : Date) (houseId userId : Id)
        (filters : TaskFilterInput) (s : Store) :
  (findMember s userId houseId = None ->
   TaskService.getHouseTasks now houseId userId filters s
   = (Err (ForbiddenError "You are not a member of this house"), s,
      [houseMember_findUnique]))
  /\ (forall tl s' calls,
         TaskService.getHouseTasks now houseId userId filters s = (Ok tl, s', calls) ->
         s' = s
         /\ exists cm,
             findMember s userId houseId = Some cm
             /\ forall v, In v (tl_tasks tl) ->
                 In (tv_task v) (tasks s)
                 /\ tv_assignees v = assigneesOf s (task_id (tv_task v))
                 /\ task_houseId (tv_task v) = houseId
                 /\ (forall p, f_priority filters = Some p -> task_priority (tv_task v) = p)
                 /\ (forall c, f_categoryId filters = Some c -> c <> "" ->
                                task_categoryId (tv_task v) = Some c)
                 /\ (f_createdByMe filters = Some true ->
                     task_createdById (tv_task v) = hm_id cm)
                 /\ (f_assignedToMe filters = Some true ->
                     In (hm_id cm) (map ta_houseMemberId (tv_assignees v)))
                 /\ (f_overdue filters = Some true ->
                     task_status (tv_task v) = PENDING
                     /\ exists d, task_dueDate (tv_task v) = Some d /\ (d < now)%Z)
                 /\ (f_overdue filters <> Some true ->
                     forall st, f_status filters = Some st ->
                                task_status (tv_task v) = st)).
Proof.
  split.
  - intros N. now rewrite getHouseTasks_run, N.
  - intros tl s' calls. rewrite getHouseTasks_run.
    destruct (findMember s userId houseId) as [cm |]; [| discriminate].
    cbv zeta.
    destruct (page_of _ _ _) as [l |] eqn:P; [| discriminate].
    intros E. inversion E. subst. clear E. split; [reflexivity |].
    exists cm. split; [reflexivity |].
    intros v I. simpl in I. apply in_map_iff in I. destruct I as (t & <- & I).
    apply (page_of_incl _ _ _ _ _ P) in I.
    apply (Permutation_in _ (Permutation_sym (proj1 (orderTasks_sorts _)))) in I.
    apply filter_In in I. destruct I as [I W].
    unfold matchesWhere, listingWhere in W. simpl in W.
    repeat (apply andb_true_iff in W; destruct W as [W ?]).
    simpl. split; [exact I |]. split; [reflexivity |].
    split; [now apply String.eqb_eq |].
    split.
    { intros p Ep. rewrite Ep in *. simpl in *.
      destruct (task_priority t), p; simpl in *; congruence. }
    split.
    { intros c Ec Nc. rewrite Ec in *. simpl in *.
      apply String.eqb_neq in Nc. rewrite Nc in *. simpl in *.
      destruct (task_categoryId t) as [c' |]; [| discriminate].
      f_equal. now apply String.eqb_eq. }
    split.
    { intros Em. rewrite Em in *. simpl in *. now apply String.eqb_eq. }
    split.
    { intros Ea. rewrite Ea in *.
      match goal with
      | H : existsb _ _ = true |- _ =>
          apply existsb_exists in H; destruct H as (a & Ia & Ha)
      end.
      apply String.eqb_eq in Ha. rewrite <- Ha. now apply in_map. }
    split.
    { intros Eo. rewrite Eo in *. simpl in *. split.
      - destruct (task_status t); simpl in *; congruence.
      - destruct (task_dueDate t) as [d |]; [| discriminate].
        exists d. split; [reflexivity |]. now apply Z.ltb_lt. }
    intros No st Es.
    assert (O : match f_overdue filters with Some true => true | _ => false end = false).
    { destruct (f_overdue filters) as [[|] |]; congruence. }
    rewrite O, Es in *. simpl in *.
    destruct (task_status t), st; simpl in *; congruence.
Qed.

Lemma listing_respects_filters_witness :
  exists tl,
    TaskService.getHouseTasks 6000%Z Sample.home Sample.userB
      (mkTaskFilterInput (Some COMPLETED) None None None None (Some true) None None)
      Sample.store
    = (Ok tl, Sample.store, [houseMember_findUnique; task_findMany; task_count])
    /\ map tv_task (tl_tasks tl) = [Sample.chores]
    /\ forall v, In v (tl_tasks tl) -> task_status (tv_task v) = PENDING.
Proof.
  eexists. split; [vm_compute; reflexivity |]. split; [reflexivity |].
  intros v I.
  destruct (listing_respects_filters 6000%Z Sample.home Sample.userB
              (mkTaskFilterInput (Some COMPLETED) None None None None (Some true)
                 None None) Sample.store) as [_ P].
  destruct (P _ _ _ ltac:(vm_compute; reflexivity)) as (_ & cm & _ & Q).
  destruct (Q v I) as (_ & _ & _ & _ & _ & _ & _ & O & _).
  now destruct (O eq_refl).
Defined.

(** ** TaskService: the pages of the task list *)






(** ** TaskService: a created task is stored and found again *)

Lemma find_app_fresh {A} (P : A -> bool) (l : list A) (x : A) :
  forallb (fun y => negb (P y)) l = true -> P x = true -> find P (l ++ [x]) = Some x.
Proof.
  intros N Px. induction l as [| y l IH]; simpl in *.
  - now rewrite Px.
  - apply andb_true_iff in N. destruct N as [Ny N].
    apply negb_true_iff in Ny. rewrite Ny. now apply IH.
Qed.

Lemma find_app_other {A} (P : A -> bool) (l : list A) (x : A) :
  P x = false -> find P (l ++ [x]) = find P l.
Proof.
  intros Px. induction l as [| y l IH]; simpl.
  - now rewrite Px.
  - now rewrite IH.
Qed.

Lemma insertTask_ok (T : Task) (s : Store) :
  ~ In (task_id T) (map task_id (tasks s)) ->
  In (task_houseId T) (map house_id (houses s)) ->
  In (task_createdById T) (map hm_id (houseMembers s)) ->
  match task_categoryId T with
  | Some c => In c (map cat_id (categories s))
  | None => True
  end ->
  insertTask T s = Ok (T, set_tasks s (tasks s ++ [T])).
Proof.
  intros Fresh Hh Hc Cat. unfold insertTask.
  apply idIn_false in Fresh. apply idIn_In in Hh, Hc. rewrite Fresh, Hh, Hc. simpl.
  destruct (task_categoryId T) as [c |]; [| reflexivity].
  apply idIn_In in Cat. now rewrite Cat.
Qed.

Lemma fresh_task_unassigned (s : Store) (taskId : Id) :
  (forall a, In a (taskAssignees s) -> ta_taskId a <> taskId) ->
  filter (fun a => ta_taskId a =? taskId) (taskAssignees s) = [].
Proof.
  intros NoRows. apply filter_none, forallb_forall. intros a Ia.
  apply negb_true_iff, String.eqb_neq. now apply NoRows.
Qed.

(** X15.  In a store where member ids are unique, [createTask] with an id
    the store has not used, an existing house, a creator who is a member,
    a category of the house (or none) and assignees who are distinct
    members of the house succeeds: it appends one PENDING task without a
    completion date and one assignment row per assignee, in the order
    given, and returns that task with these rows.  [getTaskById] then finds
    exactly this view under the house and NotFound under any other house;
    the creator and the assignees, and nobody else, may modify it; lookups
    of other task ids are as before. *)
Theorem created_task_is_found (parseDate : string -> Date) (newTaskId : Id) (now : Date)
        (houseId createdById : Id) (data : CreateTaskInput) (s : Store) :
  let ids := match cti_assigneeIds data with Some l => l | None => [] end in
  let T := mkTask newTaskId (cti_title data) (cti_description data) PENDING
             (cti_priority data) (TaskService.optDate parseDate (cti_dueDate data)) None
             now houseId (cti_categoryId data) createdById in
  let rows := TaskService.assignmentRows newTaskId ids in
  let s' := set_taskAssignees (set_tasks s (tasks s ++ [T])) (taskAssignees s ++ rows) in
  uniqueMemberIds s ->
  ~ In newTaskId (map task_id (tasks s)) ->
  (forall a, In a (taskAssignees s) -> ta_taskId a <> newTaskId) ->
  In houseId (map house_id (houses s)) ->
  In createdById (map hm_id (houseMembers s)) ->
  match cti_categoryId data with
  | Some c => c <> "" /\ exists k, findCategory s c = Some k /\ cat_houseId k = houseId
  | None => True
  end ->
  NoDup ids ->
  (forall id, In id ids ->
              exists m, In m (houseMembers s) /\ hm_id m = id /\ hm_houseId m = houseId) ->
  (exists calls,
      TaskService.createTask parseDate newTaskId now houseId createdById data s
      = (Ok (Some (mkTaskView T rows)), s', calls))
  /\ TaskService.getTaskById newTaskId houseId s'
     = (Ok (mkTaskView T rows), s', [task_findFirst])
  /\ (forall h, h <> houseId ->
                TaskService.getTaskById newTaskId h s'
                = (Err (NotFoundError "Task not found"), s', [task_findFirst]))
  /\ (forall m, TaskService.canUserModifyTask (mkTaskView T rows) m = true
                <-> m = createdById \/ In m ids)
  /\ (forall t h, t <> newTaskId -> findTaskInHouse s' t h = findTaskInHouse s t h).
Proof.
  intros ids T rows s' U Fresh NoRows Hh Hc Cat N R.
  assert (FreshB : forallb (fun y => negb (task_id y =? newTaskId)) (tasks s) = true).
  { apply forallb_forall. intros y Iy. apply negb_true_iff, String.eqb_neq.
    intros E. apply Fresh. rewrite <- E. now apply in_map. }
  assert (As : assigneesOf s' newTaskId = rows).
  { unfold assigneesOf, s'. simpl. rewrite filter_app.
    rewrite (fresh_task_unassigned s newTaskId NoRows). simpl.
    apply (proj1 (rows_of_task newTaskId ids)). }
  assert (Ins : insertTask T s = Ok (T, set_tasks s (tasks s ++ [T]))).
  { apply insertTask_ok; simpl; auto.
    destruct (cti_categoryId data) as [c |]; [| exact I].
    destruct Cat as (_ & k & Fk & _). unfold findCategory in Fk.
    apply find_some in Fk. destruct Fk as [Ik Ek]. apply String.eqb_eq in Ek.
    rewrite <- Ek. now apply in_map. }
  assert (A1 : exists c1,
             (match cti_assigneeIds data with
              | Some l => if (0 <? length l)%nat
                          then TaskService.checkAssignees houseId l else ret tt
              | None => ret tt
              end) s = (Ok tt, s, c1)).
  { subst ids. destruct (cti_assigneeIds data) as [l |]; [| now eexists].
    destruct l as [| i l]; [now eexists |].
    change (0 <? length (i :: l))%nat with true. cbv iota.
    rewrite checkAssignees_run, (resolved_assignees_full s houseId _ U N R), Nat.eqb_refl.
    now eexists. }
  assert (A2 : exists c2,
             (match cti_categoryId data with
              | Some c => if truthy (Some c)
                          then TaskService.checkCategory houseId c else ret tt
              | None => ret tt
              end) s = (Ok tt, s, c2)).
  { destruct (cti_categoryId data) as [c |]; [| now eexists].
    destruct Cat as (Nc & k & Fk & Ek).
    assert (Tr : truthy (@Some string c) = true).
    { simpl. apply negb_true_iff. now apply String.eqb_neq. }
    rewrite Tr, checkCategory_run, Fk, Ek, String.eqb_refl. now eexists. }
  assert (A3 : exists c3,
             transaction (
               task <- command task_create (TaskService.createTaskRow T) ;;
               match cti_assigneeIds data with
               | Some l =>
                   if (0 <? length l)%nat then
                     command taskAssignee_createMany
                       (insertTaskAssignees
                          (TaskService.assignmentRows (task_id (tv_task task)) l)) ;;;
                     TaskService.findTaskView (task_id (tv_task task))
                   else ret (Some task)
               | None => ret (Some task)
               end) s = (Ok (Some (mkTaskView T rows)), s', c3)).
  { assert (Plain : viewTask (set_tasks s (tasks s ++ [T])) T = mkTaskView T []
                    /\ ids = [] -> exists c3,
              transaction (
                task <- command task_create (TaskService.createTaskRow T) ;;
                ret (Some task)) s = (Ok (Some (mkTaskView T rows)), s', c3)).
    { intros [V E]. unfold transaction, bind, command, TaskService.createTaskRow, ret.
      rewrite Ins, V. unfold s', rows. rewrite E. simpl. rewrite app_nil_r.
      now eexists. }
    assert (V : viewTask (set_tasks s (tasks s ++ [T])) T = mkTaskView T []).
    { unfold viewTask, assigneesOf. simpl.
      now rewrite (fresh_task_unassigned s newTaskId NoRows). }
    subst ids. destruct (cti_assigneeIds data) as [l |]; [| now apply Plain].
    destruct l as [| i l]; [now apply Plain |].
    change (0 <? length (i :: l))%nat with true. cbv iota.
    unfold transaction, bind at 1, command at 1, TaskService.createTaskRow.
    rewrite Ins. cbv beta iota. simpl tv_task. simpl task_id.
    unfold bind at 1, command at 1.
    rewrite insertTaskAssignees_ok.
    - unfold TaskService.findTaskView, query, findTask. simpl tasks.
      rewrite (find_app_fresh _ _ T); [| | apply String.eqb_refl].
      + simpl option_map. fold rows. fold s'.
        unfold viewTask. simpl task_id.
        match goal with
        | |- context [assigneesOf ?st newTaskId] =>
            change (assigneesOf st newTaskId) with (assigneesOf s' newTaskId)
        end.
        rewrite As. now eexists.
      + exact FreshB.
    - simpl. rewrite map_app. apply in_or_app. right. now left.
    - simpl. intros id Hid. destruct (R id Hid) as (m & Im & Em & _).
      rewrite <- Em. now apply in_map.
    - exact N.
    - simpl. exact NoRows. }
  assert (Found : findTaskInHouse s' newTaskId houseId = Some T).
  { unfold findTaskInHouse, s'. simpl tasks. apply find_app_fresh.
    - apply forallb_forall. intros y Iy.
      apply (proj1 (forallb_forall _ _) FreshB) in Iy.
      apply negb_true_iff in Iy. now rewrite Iy.
    - simpl. now rewrite !String.eqb_refl. }
  split; [| split; [| split; [| split]]].
  - destruct A1 as [c1 A1]. destruct A2 as [c2 A2]. destruct A3 as [c3 A3].
    unfold TaskService.createTask. fold T.
    unfold bind at 1. rewrite A1. cbv beta iota.
    unfold bind at 1. rewrite A2. cbv beta iota.
    unfold bind at 1. rewrite A3. cbv beta iota. unfold ret. now eexists.
  - rewrite getTaskById_run, Found. unfold viewTask. simpl task_id. now rewrite As.
  - intros h Nh. rewrite getTaskById_run.
    destruct (findTaskInHouse s' newTaskId h) as [t |] eqn:Ft; [| reflexivity].
    exfalso. unfold findTaskInHouse in Ft. apply find_some in Ft.
    destruct Ft as [It Et]. apply andb_true_iff in Et. destruct Et as [E1 E2].
    apply String.eqb_eq in E1, E2.
    unfold s' in It. simpl in It. apply in_app_or in It. destruct It as [It | [<- | []]].
    + apply Fresh. rewrite <- E1. now apply in_map.
    + simpl in E2. congruence.
  - intros m. rewrite canUserModifyTask_iff. unfold rows, T.
    cbn [tv_task tv_assignees task_createdById].
    rewrite (proj2 (rows_of_task newTaskId ids)). intuition congruence.
  - intros t h Nt. unfold findTaskInHouse, s'. simpl tasks.
    apply find_app_other. simpl.
    apply String.eqb_neq in Nt. rewrite String.eqb_sym in Nt. now rewrite Nt.
Qed.

Lemma created_task_is_found_witness :
  exists calls,
    TaskService.createTask Sample.noDate Sample.mowId 2000%Z Sample.home Sample.dadId
      (mkCreateTaskInput "Mow" None HIGH None (Some Sample.cleaningId)
         (Some [Sample.momId; Sample.kidId])) Sample.store
    = (Ok (Some (mkTaskView
                   (mkTask Sample.mowId "Mow" None PENDING HIGH None None 2000%Z
                      Sample.home (Some Sample.cleaningId) Sample.dadId)
                   [mkTaskAssignee Sample.mowId Sample.momId;
                    mkTaskAssignee Sample.mowId Sample.kidId])),
       set_taskAssignees
         (set_tasks Sample.store
            (tasks Sample.store
             ++ [mkTask Sample.mowId "Mow" None PENDING HIGH None None 2000%Z
                   Sample.home (Some Sample.cleaningId) Sample.dadId]))
         (taskAssignees Sample.store
          ++ [mkTaskAssignee Sample.mowId Sample.momId;
              mkTaskAssignee Sample.mowId Sample.kidId]),
       calls).
Proof.
  apply (created_task_is_found Sample.noDate Sample.mowId 2000%Z Sample.home Sample.dadId
           (mkCreateTaskInput "Mow" None HIGH None (Some Sample.cleaningId)
              (Some [Sample.momId; Sample.kidId])) Sample.store).
  - exact sample_uniqueMemberIds.
  - simpl. intros [E | []]. discriminate.
  - simpl. intros a [<- | []]. discriminate.
  - simpl. auto.
  - simpl. auto.
  - simpl. split; [discriminate |]. eexists. split; reflexivity.
  - simpl. repeat constructor; simpl; intuition discriminate.
  - simpl. intros id [<- | [<- | []]].
    + exists Sample.mom. simpl. auto.
    + exists Sample.kid. simpl. auto.
Defined.

(** ** TaskService: what a deletion leaves alone *)

Lemma find_filter_implied {A} (P Q : A -> bool) (l : list A) :
  (forall x, P x = true -> Q x = true) ->
  find P (filter Q l) = find P l.
Proof.
  intros PQ. induction l as [| x l IH]; simpl; [reflexivity |].
  destruct (Q x) eqn:Qx; simpl.
  - now rewrite IH.
  - destruct (P x) eqn:Px; [| exact IH]. rewrite (PQ x Px) in Qx. discriminate.
Qed.

(** X16.  A deletion that succeeds removes the task and its assignment rows
    and nothing else: the task is then not found under any house, a second
    deletion fails with NotFound, while every other task is found as
    before with the same assignment rows, and users, houses, members and
    categories are untouched. *)
Theorem deleteTask_removes_only_that_task (taskId houseId M : Id) (s s' : Store)
        (b : bool) (calls : list Call) :
  TaskService.deleteTask taskId houseId M s = (Ok b, s', calls) ->
  (forall h, TaskService.getTaskById taskId h s'
             = (Err (NotFoundError "Task not found"), s', [task_findFirst]))
  /\ (forall who, TaskService.deleteTask taskId houseId who s'
                  = (Err (NotFoundError "Task not found"), s', [task_findFirst]))
  /\ assigneesOf s' taskId = []
  /\ (forall t h, t <> taskId ->
                  findTaskInHouse s' t h = findTaskInHouse s t h
                  /\ assigneesOf s' t = assigneesOf s t)
  /\ users s' = users s /\ houses s' = houses s
  /\ houseMembers s' = houseMembers s /\ categories s' = categories s.
Proof.
  rewrite deleteTask_run.
  destruct (findTaskInHouse s taskId houseId) as [T |]; [| discriminate].
  destruct (_ || _); [| discriminate].
  unfold deleteTaskRow. destruct (findTask s taskId) as [t0 |]; [| discriminate].
  intros E. inversion E. subst. clear E.
  assert (Gone : forall h,
             findTaskInHouse
               (set_taskAssignees
                  (set_tasks s (filter (fun t => negb (task_id t =? taskId)) (tasks s)))
                  (filter (fun a => negb (ta_taskId a =? taskId)) (taskAssignees s)))
               taskId h = None).
  { intros h. apply findTaskInHouse_none. simpl. intros t It Et.
    apply filter_In in It. destruct It as [_ It].
    apply negb_true_iff, String.eqb_neq in It. contradiction. }
  split; [intros h; now rewrite getTaskById_run, Gone |].
  split; [intros who; now rewrite deleteTask_run, Gone |].
  split.
  { unfold assigneesOf. simpl.
    apply (proj1 (filter_filter_neg (fun a => ta_taskId a =? taskId) _)). }
  split; [| simpl; auto].
  intros t h Nt. split.
  - unfold findTaskInHouse. simpl. apply find_filter_implied.
    intros x Px. apply andb_true_iff in Px. destruct Px as [Px _].
    apply String.eqb_eq in Px. apply negb_true_iff, String.eqb_neq. congruence.
  - unfold assigneesOf. simpl. apply filter_filter_implied.
    intros a Pa. apply String.eqb_eq in Pa.
    apply negb_true_iff, String.eqb_neq. congruence.
Qed.

Lemma deleteTask_removes_only_that_task_witness :
  TaskService.getTaskById Sample.choresId Sample.home
    (store_of (TaskService.deleteTask Sample.choresId Sample.home Sample.momId
                 Sample.store))
  = (Err (NotFoundError "Task not found"),
     store_of (TaskService.deleteTask Sample.choresId Sample.home Sample.momId
                 Sample.store),
     [task_findFirst]).
Proof.
  apply (deleteTask_removes_only_that_task Sample.choresId Sample.home Sample.momId
           Sample.store _ true [task_findFirst; houseMember_findUnique; task_delete]).
  reflexivity.
Defined.

(** ** TaskService: the right to modify follows the assignment *)

(** X17.  After [updateTaskAssignees] has replaced the assignees of a task
    by [ids], the creator and the members in [ids] can update its status,
    and any other member is refused by [updateTask], [updateTaskStatus] and
    [updateTaskAssignees] with Forbidden and no write; this holds for the
    actor of the replacement too, who loses the right when they were an
    assignee and left themselves out of [ids]. *)
Theorem rights_follow_assignment (parseDate : string -> Date) (s : Store)
        (taskId houseId M : Id) (T : Task) (ids : list string) :
  findTaskInHouse s taskId houseId = Some T ->
  TaskService.canUserModifyTask (viewTask s T) M = true ->
  uniqueMemberIds s ->
  NoDup ids ->
  (forall id, In id ids ->
              exists m, In m (houseMembers s) /\ hm_id m = id /\ hm_houseId m = houseId) ->
  let s' := store_of (TaskService.updateTaskAssignees taskId houseId M
                        (mkUpdateTaskAssigneesInput ids) s) in
  forall m : Id,
    (m = task_createdById T \/ In m ids ->
     forall now st, exists v s'',
       TaskService.updateTaskStatus now taskId houseId m (mkUpdateTaskStatusInput st) s'
       = (Ok v, s'', [task_findFirst; task_update]))
    /\ (m <> task_createdById T -> ~ In m ids ->
        (forall now data,
            TaskService.updateTaskStatus now taskId houseId m data s'
            = (Err (ForbiddenError
                      "Only task creator, assignees, or house owner can update task status"),
               s', [task_findFirst]))
        /\ (forall data,
               TaskService.updateTask parseDate taskId houseId m data s'
               = (Err (ForbiddenError
                         "Only task creator, assignees, or house owner can update this task"),
                  s', [task_findFirst]))
        /\ (forall data,
               TaskService.updateTaskAssignees taskId houseId m data s'
               = (Err (ForbiddenError
                         "Only task creator, assignees, or house owner can update task assignees"),
                  s', [task_findFirst]))).
Proof.
  intros F C U N R s' m.
  destruct (updateTaskAssignees_ok s taskId houseId M T ids F C U N R)
    as (t0 & calls & _ & Run & As).
  assert (Es : s' = set_taskAssignees s
                      (filter (fun a => negb (ta_taskId a =? taskId)) (taskAssignees s)
                       ++ TaskService.assignmentRows taskId ids)).
  { unfold s'. now rewrite Run. }
  clearbody s'. subst s'.
  set (s' := set_taskAssignees s _) in *.
  assert (F' : findTaskInHouse s' taskId houseId = Some T) by exact F.
  assert (Id_ : task_id T = taskId).
  { unfold findTaskInHouse in F. apply find_some in F. destruct F as [_ F].
    apply andb_true_iff in F. destruct F as [F _]. now apply String.eqb_eq. }
  assert (Can : TaskService.canUserModifyTask (viewTask s' T) m = true
                <-> m = task_createdById T \/ In m ids).
  { rewrite canUserModifyTask_iff. unfold viewTask. cbn [tv_task tv_assignees].
    rewrite Id_, As, (proj2 (rows_of_task taskId ids)). intuition congruence. }
  split.
  - intros H now st. apply Can in H.
    destruct (updateTaskStatus_ok now s' taskId houseId m T st F' H)
      as (t1 & _ & Ok1 & _).
    eauto.
  - intros H1 H2.
    assert (No : TaskService.canUserModifyTask (viewTask s' T) m = false).
    { apply not_true_is_false. intros X. apply Can in X. tauto. }
    split; [| split]; intros.
    + now apply updateTaskStatus_refused with T.
    + now apply updateTask_refused with T.
    + now apply updateTaskAssignees_refused with T.
Qed.

Lemma rights_follow_assignment_witness :
  TaskService.updateTaskStatus 7000%Z Sample.choresId Sample.home Sample.kidId
    (mkUpdateTaskStatusInput COMPLETED)
    (store_of (TaskService.updateTaskAssignees Sample.choresId Sample.home Sample.kidId
                 (mkUpdateTaskAssigneesInput [Sample.dadId]) Sample.store))
  = (Err (ForbiddenError
            "Only task creator, assignees, or house owner can update task status"),
     store_of (TaskService.updateTaskAssignees Sample.choresId Sample.home Sample.kidId
                 (mkUpdateTaskAssigneesInput [Sample.dadId]) Sample.store),
     [task_findFirst]).
Proof.
  apply (rights_follow_assignment Sample.noDate Sample.store Sample.choresId Sample.home
           Sample.kidId Sample.chores [Sample.dadId]).
  - reflexivity.
  - reflexivity.
  - exact sample_uniqueMemberIds.
  - repeat constructor. simpl. tauto.
  - intros id [<- | []]. exists Sample.dad. simpl. auto.
  - discriminate.
  - simpl. intros [E | []]. discriminate.
Defined.

(** ** The validation schemas: what leaves them *)

Lemma trimStart_shorter (n : nat) (s : string) :
  String.length s <= n -> jsLength (trimStart s) <= jsLength s.
Proof.
  revert s. induction n as [| n IH]; intros s L.
  - destruct s; simpl in *; lia.
  - destruct s as [| c r]; [simpl; lia |].
    cbn [trimStart]. simpl in L.
    destruct (isSpace c).
    + cbn [jsLength]. specialize (IH r ltac:(lia)). lia.
    + destruct r as [| c2 r2]; [lia |].
      simpl in L. destruct (isSpace2 c c2).
      * cbn [jsLength]. specialize (IH r2 ltac:(lia)). lia.
      * destruct r2 as [| c3 r3]; [lia |].
        simpl in L. destruct (isSpace3 c c2 c3); [| lia].
        cbn [jsLength]. specialize (IH r3 ltac:(lia)). lia.
Qed.

Lemma trimEnd_shorter (s : string) : jsLength (trimEnd s) <= jsLength s.
Proof.
  induction s as [| c r IH]; [simpl; lia |].
  cbn [trimEnd]. destruct (isBlank (String c r)); cbn [jsLength]; lia.
Qed.

(** Trimming never makes a string longer, counted in UTF-16 code units. *)
Lemma trim_shorter (s : string) : jsLength (trim s) <= jsLength s.
Proof.
  unfold trim. pose proof (trimEnd_shorter (trimStart s)).
  pose proof (trimStart_shorter (String.length s) s (le_n _)). lia.
Qed.

Lemma space_unit (c : ascii) : isSpace c = true -> codeUnits c = 1.
Proof.
  unfold isSpace, codeUnits. cbv zeta. intros H.
  assert (B : nat_of_ascii c <= 32).
  { apply orb_true_iff in H. destruct H as [H | H].
    - apply Nat.eqb_eq in H. lia.
    - apply andb_true_iff in H. destruct H as [_ H]. apply Nat.leb_le in H. lia. }
  replace (128 <=? nat_of_ascii c)%nat with false by (symmetry; apply Nat.leb_gt; lia).
  cbn [andb].
  replace (240 <=? nat_of_ascii c)%nat with false by (symmetry; apply Nat.leb_gt; lia).
  reflexivity.
Qed.

(** On a string of ASCII blanks the count of code units is the count of
    bytes, the trim leaves nothing and the name expression matches. *)
Lemma blank_length (s : string) :
  allChars isSpace s = true -> jsLength s = String.length s.
Proof.
  induction s as [| c r IH]; simpl; [reflexivity |].
  intros H. apply andb_true_iff in H. destruct H as [Hc Hr].
  now rewrite (space_unit c Hc), (IH Hr).
Qed.

Lemma trim_blank (s : string) : allChars isSpace s = true -> trim s = "".
Proof.
  intros H. unfold trim.
  assert (E : trimStart s = "").
  { induction s as [| c r IH]; [reflexivity |].
    cbn [allChars] in H. apply andb_true_iff in H. destruct H as [Hc Hr].
    cbn [trimStart]. rewrite Hc. now apply IH. }
  now rewrite E.
Qed.

Lemma blank_is_name (s : string) : allChars isSpace s = true -> nameChars s = true.
Proof.
  induction s as [| c r IH]; [reflexivity |].
  cbn [allChars]. intros H. apply andb_true_iff in H. destruct H as [Hc Hr].
  cbn [nameChars]. rewrite Hc, orb_true_r. now apply IH.
Qed.

Lemma rbind_ok {A B} (r : Result A) (f : A -> Result B) (b : B) :
  rbind r f = Ok b -> exists a, r = Ok a /\ f a = Ok b.
Proof. destruct r as [a | e]; simpl; [eauto | discriminate]. Qed.

Lemma zOptional_some {A} (p : option Json -> Result A) (j : option Json) (a : A) :
  Schema.zOptional p j = Ok (Some a) -> p j = Ok a.
Proof.
  destruct j as [x |]; simpl; [| discriminate].
  destruct (p (Some x)); simpl; congruence.
Qed.

Lemma zString_ok {A} (k : string -> Result A) (j : option Json) (a : A) :
  Schema.zString k j = Ok a -> exists x, j = Some (JStr x) /\ k x = Ok a.
Proof. destruct j as [[| | | x |] |]; simpl; try discriminate. eauto. Qed.

Lemma parseEach_all_uuid (isUuid : string -> bool) (msg : string) (l : list Json)
      (ids : list string) :
  Schema.parseEach (Schema.uuidSchema isUuid msg) l = Ok ids ->
  forallb isUuid ids = true /\ l = map JStr ids.
Proof.
  revert ids. induction l as [| j l IH]; intros ids; cbn [Schema.parseEach].
  - intros E. inversion E. auto.
  - intros E. apply rbind_ok in E. destruct E as (a & Ea & E).
    apply rbind_ok in E. destruct E as (rest & Er & E). inversion E. subst. clear E.
    destruct (IH rest Er) as [U ->].
    unfold Schema.uuidSchema in Ea. apply zString_ok in Ea.
    destruct Ea as (x & Ex & Ea). inversion Ex. subst.
    destruct (isUuid x) eqn:Ux; inversion Ea. subst. simpl. now rewrite Ux, U.
Qed.

(** X18.  Whatever [createTaskSchema] accepts is within the limits of the
    schema, counted as zod counts, in UTF-16 code units: the title was
    sent with 1 to 100 of them and is stored trimmed, so with at most 100;
    the description was sent with at most 500 and is stored trimmed; the
    priority is MEDIUM when the body gives none; a due date is in the
    accepted format and later than now; a category id is a uuid; and the
    assignee ids are at most 10 uuids, the strings of the body's array in
    the same order. *)
Theorem accepted_task_within_limits (isUuid isDatetime : string -> bool)
        (parseDate : string -> Date) (now : Date) (body : JObject) (d : CreateTaskInput) :
  Schema.createTaskSchema isUuid isDatetime parseDate now body = Ok d ->
  (exists x, field "title" body = Some (JStr x)
             /\ 1 <= jsLength x <= 100 /\ cti_title d = trim x)
  /\ jsLength (cti_title d) <= 100
  /\ (forall y, cti_description d = Some y ->
                jsLength y <= 500
                /\ exists x, field "description" body = Some (JStr x)
                             /\ jsLength x <= 500 /\ y = trim x)
  /\ (field "priority" body = None -> cti_priority d = MEDIUM)
  /\ (forall x, cti_dueDate d = Some x ->
                isDatetime x = true /\ (now < parseDate x)%Z
                /\ field "dueDate" body = Some (JStr x))
  /\ (forall c, cti_categoryId d = Some c -> isUuid c = true)
  /\ (forall ids, cti_assigneeIds d = Some ids ->
                  length ids <= 10 /\ forallb isUuid ids = true
                  /\ field "assigneeIds" body = Some (JArr (map JStr ids))).
Proof.
  unfold Schema.createTaskSchema. intros E.
  apply rbind_ok in E. destruct E as (title & Et & E).
  apply rbind_ok in E. destruct E as (description & Ed & E).
  apply rbind_ok in E. destruct E as (priority & Ep & E).
  apply rbind_ok in E. destruct E as (dueDate & Edue & E).
  apply rbind_ok in E. destruct E as (categoryId & Ec & E).
  apply rbind_ok in E. destruct E as (assigneeIds & Ea & E).
  inversion E. subst d. clear E. simpl.
  assert (T : exists x, field "title" body = Some (JStr x)
                        /\ 1 <= jsLength x <= 100 /\ title = trim x).
  { unfold Schema.taskTitleSchema in Et. apply zString_ok in Et.
    destruct Et as (x & Fx & Et). exists x.
    destruct (Nat.ltb_spec (jsLength x) 1); [discriminate |].
    destruct (Nat.ltb_spec 100 (jsLength x)); [discriminate |].
    inversion Et. auto. }
  split; [exact T |]. split; [| split; [| split; [| split; [| split]]]].
  - destruct T as (x & _ & B & ->). pose proof (trim_shorter x). lia.
  - intros y ->. unfold Schema.taskDescriptionSchema in Ed.
    apply zOptional_some, zString_ok in Ed. destruct Ed as (x & Fx & Ed).
    destruct (Nat.ltb_spec 500 (jsLength x)); [discriminate |].
    inversion Ed. pose proof (trim_shorter x). split; [lia |]. eauto.
  - intros N. rewrite N in Ep. simpl in Ep. congruence.
  - intros x ->. unfold Schema.dueDateSchema in Edue.
    apply zOptional_some, zString_ok in Edue. destruct Edue as (y & Ey & Edue).
    destruct (isDatetime y) eqn:D; simpl in Edue; [| discriminate].
    destruct (Z.ltb_spec now (parseDate y)); simpl in Edue; [| discriminate].
    inversion Edue. subst. auto.
  - intros c ->. apply zOptional_some in Ec. unfold Schema.uuidSchema in Ec.
    apply zString_ok in Ec. destruct Ec as (y & _ & Ec).
    destruct (isUuid y) eqn:U; inversion Ec. now subst.
  - intros ids ->. unfold Schema.assigneeIdsSchema in Ea. apply zOptional_some in Ea.
    destruct (field "assigneeIds" body) as [[| | | | l] |]; try discriminate.
    apply rbind_ok in Ea. destruct Ea as (ids' & Ep' & Ea).
    destruct (Nat.ltb_spec 10 (length ids')); [discriminate |].
    inversion Ea. subst ids'.
    destruct (parseEach_all_uuid _ _ _ _ Ep') as [U ->]. auto.
Qed.

(** A title of forty euro signs, 120 bytes and 40 code units, between two
    no-break spaces: it is accepted, and stored without the spaces. *)
Lemma accepted_task_within_limits_witness :
  Schema.createTaskSchema Sample.isUuid Sample.anyString Sample.noDate 0%Z
    [("title", JStr (String.append Sample.nbsp
                       (String.append (Sample.times 40 Sample.euro) Sample.nbsp)));
     ("assigneeIds", JArr [JStr Sample.kidId])]
  = Ok (mkCreateTaskInput (Sample.times 40 Sample.euro) None MEDIUM None None
          (Some [Sample.kidId]))
  /\ String.length (Sample.times 40 Sample.euro) = 120
  /\ jsLength (Sample.times 40 Sample.euro) <= 100.
Proof.
  split; [vm_compute; reflexivity |]. split; [reflexivity |].
  apply (accepted_task_within_limits Sample.isUuid Sample.anyString Sample.noDate 0%Z
           [("title", JStr (String.append Sample.nbsp
                              (String.append (Sample.times 40 Sample.euro) Sample.nbsp)));
            ("assigneeIds", JArr [JStr Sample.kidId])]
           (mkCreateTaskInput (Sample.times 40 Sample.euro) None MEDIUM None None
              (Some [Sample.kidId]))).
  vm_compute. reflexivity.
Defined.

(** X19.  The length and character checks of the schemas run before the
    trim.  So a string of white space only passes them and is trimmed to
    the empty string: a task title of 1 to 100 blanks is accepted as the
    empty title, a house name of 3 to 20 blanks as the empty name, a
    display name of 1 to 12 blanks as the empty display name; and in an
    update such a title is accepted and then left out of the written data,
    so the stored title stays. *)
Theorem blank_names_pass_validation (isUuid isDatetime : string -> bool)
        (parseDate : string -> Date) (now : Date) (s : string) :
  allChars isSpace s = true ->
  (1 <= String.length s <= 100 ->
   Schema.createTaskSchema isUuid isDatetime parseDate now [("title", JStr s)]
   = Ok (mkCreateTaskInput "" None MEDIUM None None None)
   /\ Schema.updateTaskSchema isUuid isDatetime parseDate now [("title", JStr s)]
      = Ok (mkUpdateTaskInput (Some "") None None None None)
   /\ TaskService.updateTaskData parseDate (mkUpdateTaskInput (Some "") None None None None)
      = noPatch)
  /\ (3 <= String.length s <= 20 ->
      HouseSchema.createHouseSchema [("name", JStr s)] = Ok (mkCreateHouseInput "" None))
  /\ (1 <= String.length s <= 12 ->
      HouseSchema.setDisplayNameSchema [("displayName", JStr s)] = Ok "").
Proof.
  intros B. pose proof (trim_blank s B) as T. pose proof (blank_length s B) as L.
  split; [| split].
  - intros [L1 L2].
    assert (Et : Schema.taskTitleSchema (Some (JStr s)) = Ok "").
    { unfold Schema.taskTitleSchema, Schema.zString. rewrite L.
      destruct (Nat.ltb_spec (String.length s) 1); [lia |].
      destruct (Nat.ltb_spec 100 (String.length s)); [lia |]. now rewrite T. }
    split; [| split; [| reflexivity]].
    + unfold Schema.createTaskSchema. cbn [field String.eqb Ascii.eqb Bool.eqb].
      rewrite Et. reflexivity.
    + unfold Schema.updateTaskSchema. cbn [field String.eqb Ascii.eqb Bool.eqb].
      unfold Schema.zOptional at 1. rewrite Et. reflexivity.
  - intros [L1 L2].
    unfold HouseSchema.createHouseSchema, HouseSchema.houseNameSchema, Schema.zString.
    cbn [field String.eqb Ascii.eqb Bool.eqb]. rewrite L.
    destruct (Nat.ltb_spec (String.length s) 3); [lia |].
    destruct (Nat.ltb_spec 20 (String.length s)); [lia |].
    unfold nameRegex. rewrite (blank_is_name s B), T.
    destruct s; [simpl in L1; lia |]. reflexivity.
  - intros [L1 L2].
    unfold HouseSchema.setDisplayNameSchema, HouseSchema.displayNameSchema, Schema.zString.
    cbn [field String.eqb Ascii.eqb Bool.eqb]. rewrite L.
    destruct (Nat.ltb_spec (String.length s) 1); [lia |].
    destruct (Nat.ltb_spec 12 (String.length s)); [lia |].
    now rewrite T.
Qed.

Lemma blank_names_pass_validation_witness :
  HouseSchema.createHouseSchema [("name", JStr "   ")] = Ok (mkCreateHouseInput "" None).
Proof.
  apply (blank_names_pass_validation Sample.isUuid Sample.anyString Sample.noDate 0%Z "   ").
  - reflexivity.
  - simpl. lia.
Defined.

(** ** HouseController: creating a house from a request *)

(** X20.  [HouseController.createHouse] validates the body before it calls
    the service: a body that fails [createHouseSchema] or
    [setDisplayNameSchema] is answered with that error, with no store call
    at all.  When the request succeeds, the body held a name and a display
    name as strings, within the limits as zod counts them, in UTF-16 code
    units: the name had 3 to 20 of them, all letters, digits or white
    space, and the display name 1 to 12.  The new house carries the
    trimmed name, and the store has gained exactly this house and one
    membership: the caller, as OWNER, under the trimmed display name. *)
Theorem createHouse_through_controller (newHouseId newMemberId : Id) (req : Request)
        (s : Store) :
  (forall e, HouseSchema.createHouseSchema (req_body req) = Err e ->
             HouseController.createHouse newHouseId newMemberId req s = (Err e, s, []))
  /\ (forall e, HouseSchema.setDisplayNameSchema (req_body req) = Err e ->
                exists e', HouseController.createHouse newHouseId newMemberId req s
                           = (Err e', s, []))
  /\ (forall h s' calls,
         HouseController.createHouse newHouseId newMemberId req s = (Ok h, s', calls) ->
         exists name dn,
           field "name" (req_body req) = Some (JStr name)
           /\ field "displayName" (req_body req) = Some (JStr dn)
           /\ 3 <= jsLength name <= 20 /\ nameRegex name = true
           /\ 1 <= jsLength dn <= 12
           /\ house_id h = newHouseId /\ house_name h = trim name
           /\ jsLength (house_name h) <= 20
           /\ jsLength (trim dn) <= 12
           /\ houses s' = houses s ++ [h]
           /\ houseMembers s'
              = houseMembers s
                ++ [mkHouseMember newMemberId (trim dn) OWNER (req_userId req) newHouseId]
           /\ tasks s' = tasks s /\ taskAssignees s' = taskAssignees s
           /\ calls = [tx_begin; house_create; houseMember_create; tx_commit]).
Proof.
  split; [| split].
  - intros e E. unfold HouseController.createHouse, bind at 1, parse at 1.
    now rewrite E.
  - intros e E. unfold HouseController.createHouse, bind at 1, parse at 1.
    destruct (HouseSchema.createHouseSchema (req_body req)) as [d | e0];
      [| now eexists].
    unfold bind at 1, parse at 1. rewrite E. now eexists.
  - intros h s' calls.
    unfold HouseController.createHouse, bind at 1, parse at 1.
    destruct (HouseSchema.createHouseSchema (req_body req)) as [d | e0] eqn:Ed;
      [| discriminate].
    unfold bind at 1, parse at 1.
    destruct (HouseSchema.setDisplayNameSchema (req_body req)) as [dn' | e0] eqn:En;
      [| discriminate].
    cbv beta iota. rewrite createHouse_run.
    unfold HouseSchema.createHouseSchema in Ed.
    apply rbind_ok in Ed. destruct Ed as (name' & Ename & Ed).
    apply rbind_ok in Ed. destruct Ed as (desc & _ & Ed). inversion Ed. subst d. clear Ed.
    unfold HouseSchema.houseNameSchema in Ename. apply zString_ok in Ename.
    destruct Ename as (name & Fname & Ename).
    destruct (Nat.ltb_spec (jsLength name) 3); [discriminate |].
    destruct (Nat.ltb_spec 20 (jsLength name)); [discriminate |].
    destruct (nameRegex name) eqn:Chars; simpl in Ename; [| discriminate].
    inversion Ename. subst name'. clear Ename.
    unfold HouseSchema.setDisplayNameSchema, HouseSchema.displayNameSchema in En.
    apply zString_ok in En. destruct En as (dn & Fdn & En).
    destruct (Nat.ltb_spec (jsLength dn) 1); [discriminate |].
    destruct (Nat.ltb_spec 12 (jsLength dn)); [discriminate |].
    inversion En. subst dn'. clear En.
    cbn [chi_name chi_description].
    unfold insertHouse.
    destruct (idIn _ (map house_id (houses s))); [discriminate |].
    cbn [house_id]. unfold insertHouseMember.
    repeat match goal with
           | |- context [if ?c then Err _ else _] => destruct c; [discriminate |]
           end.
    intros E. inversion E. subst. clear E.
    exists name, dn. simpl.
    pose proof (trim_shorter name). pose proof (trim_shorter dn).
    repeat split; auto; lia.
Qed.

(** A name with a no-break space and a display name of twelve accented
    letters, 24 bytes: the house is created. *)
Lemma createHouse_through_controller_witness :
  exists h s' calls,
    HouseController.createHouse Sample.flat Sample.newMemberId
      (mkRequest [] []
         [("name", JStr (String.append "Flat" (String.append Sample.nbsp "12")));
          ("displayName", JStr (Sample.times 12 Sample.eAcute))]
         Sample.userB "") Sample.store
    = (Ok h, s', calls)
    /\ house_name h = String.append "Flat" (String.append Sample.nbsp "12")
    /\ jsLength (house_name h) <= 20
    /\ String.length (Sample.times 12 Sample.eAcute) = 24.
Proof.
  eexists. eexists. eexists. split; [vm_compute; reflexivity |].
  split; [reflexivity |]. split; [| reflexivity].
  destruct (createHouse_through_controller Sample.flat Sample.newMemberId
              (mkRequest [] []
                 [("name", JStr (String.append "Flat" (String.append Sample.nbsp "12")));
                  ("displayName", JStr (Sample.times 12 Sample.eAcute))]
                 Sample.userB "") Sample.store)
    as (_ & _ & P).
  destruct (P _ _ _ ltac:(vm_compute; reflexivity))
    as (name & dn & _ & _ & _ & _ & _ & _ & _ & L & _).
  exact L.
Defined.

(** ** The task list: page numbers below 1 *)

(** X21.  The page of the query string is [parseInt(val) || 1]: text that
    is not a number and the number 0 give page 1, while a negative number
    passes the schema as it is.  In [getHouseTasks] a page below 1 with a
    positive limit makes a negative [skip], which the store refuses: for a
    member the call fails, nothing is written, and the error is not an
    application error, so the answer is 500. *)
Theorem page_below_one_is_server_error (parseInt : string -> option Z) (now : Date)
        (houseId userId : Id) (filters : TaskFilterInput) (s : Store)
        (cm : HouseMember) (p : Z) :
  findMember s userId houseId = Some cm ->
  f_page filters = Some p ->
  (p < 1)%Z ->
  (0 < match f_limit filters with Some l => l | None => 20 end)%Z ->
  (exists e,
      result_of (TaskService.getHouseTasks now houseId userId filters s) = Err e
      /\ store_of (TaskService.getHouseTasks now houseId userId filters s) = s
      /\ errorHandler e = mkErrorResponse 500 "An unexpected error occurred")
  /\ (forall x n, parseInt x = Some n -> (n < 0)%Z ->
                  Schema.pageSchema parseInt (Some (JStr x)) = Ok (Some n))
  /\ (forall x, parseInt x = None \/ parseInt x = Some 0%Z ->
                Schema.pageSchema parseInt (Some (JStr x)) = Ok (Some 1%Z)).
Proof.
  intros F Ep Hp Hl. split; [| split].
  - rewrite getHouseTasks_run, F. cbv zeta. rewrite Ep. unfold page_of.
    destruct (negb (isInt _) || negb (isInt _));
      [eexists; split; [reflexivity |]; split; reflexivity |].
    destruct (Z.ltb_spec ((p - 1) * match f_limit filters with
                                    | Some l => l
                                    | None => 20
                                    end) 0) as [_ | B]; [| nia].
    eexists. split; [reflexivity |]. split; reflexivity.
  - intros x n E Hn. unfold Schema.pageSchema, Schema.zOptional, Schema.zString,
      Schema.parseIntOr. simpl. rewrite E.
    destruct (Z.eqb_spec n 0); [lia | reflexivity].
  - intros x [E | E]; unfold Schema.pageSchema, Schema.zOptional, Schema.zString,
      Schema.parseIntOr; simpl; rewrite E; reflexivity.
Qed.

Lemma page_below_one_is_server_error_witness :
  exists e,
    result_of (TaskService.getHouseTasks 0%Z Sample.home Sample.userA
                 (mkTaskFilterInput None None None None None None (Some (-1)%Z) None)
                 Sample.store) = Err e
    /\ store_of (TaskService.getHouseTasks 0%Z Sample.home Sample.userA
                   (mkTaskFilterInput None None None None None None (Some (-1)%Z) None)
                   Sample.store) = Sample.store
    /\ errorHandler e = mkErrorResponse 500 "An unexpected error occurred".
Proof.
  apply (page_below_one_is_server_error Sample.noInt 0%Z Sample.home Sample.userA
           (mkTaskFilterInput None None None None None None (Some (-1)%Z) None)
           Sample.store Sample.dad (-1)%Z); simpl; (reflexivity || lia).
Defined.
